(** * Session lifecycle of the Pimax OpenXR runtime

    A shallow embedding of [src/pimax-openxr/session.cpp]: the five session
    entry points of [OpenXrRuntime] ([xrCreateSession], [xrDestroySession],
    [xrBeginSession], [xrEndSession], [xrRequestExitSession]) and
    [refreshSettings], written as computations in a state-and-exception
    monad over the members of the runtime object. *)

From Stdlib Require Import ZArith List String Bool Lia.
From Stdlib Require Import SpecFloat.
Import ListNotations.
Open Scope string_scope.
Open Scope Z_scope.

(** ** The OpenXR and PVR vocabulary used by the file *)

Module OpenXR.

(** Modelled from the spec: the [XrResult] codes named in the error
    vocabulary of the specification.  Their declaration is in the Khronos
    header [openxr.h], which is not part of [src/]; the numeric values are
    those of the OpenXR 1.0 registry. *)
Definition XrResult := Z.
Definition XR_SUCCESS : XrResult := 0.
Definition XR_ERROR_VALIDATION_FAILURE : XrResult := -1.
Definition XR_ERROR_LIMIT_REACHED : XrResult := -10.
Definition XR_ERROR_HANDLE_INVALID : XrResult := -12.
Definition XR_ERROR_SESSION_NOT_RUNNING : XrResult := -16.
Definition XR_ERROR_SYSTEM_INVALID : XrResult := -18.
Definition XR_ERROR_SESSION_NOT_READY : XrResult := -28.
Definition XR_ERROR_SESSION_NOT_STOPPING : XrResult := -29.
Definition XR_ERROR_GRAPHICS_DEVICE_INVALID : XrResult := -38.
Definition XR_ERROR_VIEW_CONFIGURATION_TYPE_UNSUPPORTED : XrResult := -41.
Definition XR_ERROR_GRAPHICS_REQUIREMENTS_CALL_MISSING : XrResult := -50.

(** [#define XR_FAILED(result) ((result) < 0)] *)
Definition XR_FAILED (result : XrResult) : bool := result <? 0.

(** Modelled from the spec: the structure tags of [openxr.h] and
    [openxr_platform.h] compared against in this file. *)
Definition XrStructureType := Z.
Definition XR_TYPE_SESSION_CREATE_INFO : XrStructureType := 8.
Definition XR_TYPE_SESSION_BEGIN_INFO : XrStructureType := 10.
Definition XR_TYPE_REFERENCE_SPACE_CREATE_INFO : XrStructureType := 37.
Definition XR_TYPE_GRAPHICS_BINDING_OPENGL_WIN32_KHR : XrStructureType := 1000023000.
Definition XR_TYPE_GRAPHICS_BINDING_VULKAN_KHR : XrStructureType := 1000025000.
Definition XR_TYPE_GRAPHICS_BINDING_D3D11_KHR : XrStructureType := 1000027000.
Definition XR_TYPE_GRAPHICS_BINDING_D3D12_KHR : XrStructureType := 1000028000.

Definition XrViewConfigurationType := Z.
Definition XR_VIEW_CONFIGURATION_TYPE_PRIMARY_MONO : XrViewConfigurationType := 1.
Definition XR_VIEW_CONFIGURATION_TYPE_PRIMARY_STEREO : XrViewConfigurationType := 2.

Definition XrReferenceSpaceType := Z.
Definition XR_REFERENCE_SPACE_TYPE_VIEW : XrReferenceSpaceType := 1.
Definition XR_REFERENCE_SPACE_TYPE_LOCAL : XrReferenceSpaceType := 2.

(** Modelled from the spec: the states of a session, [enum XrSessionState]
    of [openxr.h], with the two enumerators that the data model of the
    specification leaves out and that this file never stores (loss pending
    and exiting). *)
Inductive XrSessionState : Set :=
| XR_SESSION_STATE_UNKNOWN
| XR_SESSION_STATE_IDLE
| XR_SESSION_STATE_READY
| XR_SESSION_STATE_SYNCHRONIZED
| XR_SESSION_STATE_VISIBLE
| XR_SESSION_STATE_FOCUSED
| XR_SESSION_STATE_STOPPING
| XR_SESSION_STATE_LOSS_PENDING
| XR_SESSION_STATE_EXITING.

Definition XrSessionState_eqb (a b : XrSessionState) : bool :=
  match a, b with
  | XR_SESSION_STATE_UNKNOWN, XR_SESSION_STATE_UNKNOWN
  | XR_SESSION_STATE_IDLE, XR_SESSION_STATE_IDLE
  | XR_SESSION_STATE_READY, XR_SESSION_STATE_READY
  | XR_SESSION_STATE_SYNCHRONIZED, XR_SESSION_STATE_SYNCHRONIZED
  | XR_SESSION_STATE_VISIBLE, XR_SESSION_STATE_VISIBLE
  | XR_SESSION_STATE_FOCUSED, XR_SESSION_STATE_FOCUSED
  | XR_SESSION_STATE_STOPPING, XR_SESSION_STATE_STOPPING
  | XR_SESSION_STATE_LOSS_PENDING, XR_SESSION_STATE_LOSS_PENDING
  | XR_SESSION_STATE_EXITING, XR_SESSION_STATE_EXITING => true
  | _, _ => false
  end.

(** Modelled from the spec: handles and atoms, which [openxr.h] declares
    as 64-bit integers. *)
Definition XrInstance := Z.
Definition XrSession := Z.
Definition XrSystemId := Z.
Definition XrSpace := Z.
Definition XrSwapchain := Z.
Definition XR_NULL_HANDLE : Z := 0.

(** Modelled from the spec: one link of a [next] chain, that is the [type]
    tag of [XrBaseInStructure] and the remaining words of the structure it
    heads (the native device or context of a graphics binding). *)
Record XrBaseInStructure : Set := {
  e_type : XrStructureType;
  e_body : list Z
}.

(** Modelled from the spec: [XrSessionCreateInfo]; the [next] pointer
    chain is the list of its links in chain order. *)
Record XrSessionCreateInfo : Set := {
  ci_type : XrStructureType;
  ci_next : list XrBaseInStructure;
  ci_createFlags : Z;
  ci_systemId : XrSystemId
}.

(** Modelled from the spec: [XrSessionBeginInfo]. *)
Record XrSessionBeginInfo : Set := {
  bi_type : XrStructureType;
  bi_primaryViewConfigurationType : XrViewConfigurationType
}.

(** Modelled from the spec: [XrReferenceSpaceCreateInfo], with
    [poseInReferenceSpace] told by whether it is [Pose::Identity()]. *)
Record XrReferenceSpaceCreateInfo : Set := {
  si_type : XrStructureType;
  si_referenceSpaceType : XrReferenceSpaceType;
  si_poseIsIdentity : bool
}.

(** Modelled from the spec: [pvrResult] of the vendor SDK, whose
    [pvr_success] is 0. *)
Definition pvrResult := Z.
Definition pvr_success : pvrResult := 0.

End OpenXR.
Import OpenXR.

(** ** IEEE-754 values

    [float] members and literals ([10.f]) are binary32 and [double] ones
    binary64, both carried by [spec_float] with the operations of
    [SpecFloat] at the format's precision. *)

Module IEEE.

Definition float := spec_float.
Definition double := spec_float.

Definition prec32 : Z := 24.
Definition emax32 : Z := 128.
Definition prec64 : Z := 53.
Definition emax64 : Z := 1024.

(** Conversion of an [int] to [float]: round to nearest, ties to even. *)
Definition float_of_int (n : Z) : float := binary_normalize prec32 emax32 n 0 false.

Definition float_mul : float -> float -> float := SFmul prec32 emax32.
Definition float_div : float -> float -> float := SFdiv prec32 emax32.
Definition double_mul : double -> double -> double := SFmul prec64 emax64.
Definition double_sub : double -> double -> double := SFsub prec64 emax64.
Definition double_ltb : double -> double -> bool := SFltb.

(** The usual arithmetic conversion of a [float] operand met with a
    [double]: every binary32 value is a binary64 value, written with a
    53-bit mantissa. *)
Definition double_of_float (x : float) : double :=
  match x with
  | S754_finite s m e => binary_round prec64 emax64 s m e
  | _ => x
  end.

(** The literals of the file. *)
Definition f10 : float := float_of_int 10.
Definition f100 : float := float_of_int 100.
Definition f1000 : float := float_of_int 1000.

(** The integral part of a finite value, rounded toward zero. *)
Definition trunc (x : spec_float) : option Z :=
  match x with
  | S754_zero _ => Some 0
  | S754_finite s m e =>
      let a := match e with
               | Zneg k => Z.shiftr (Zpos m) (Zpos k)
               | _ => Z.shiftl (Zpos m) e
               end in
      Some (cond_Zopp s a)
  | _ => None
  end.

(** [(uint64_t)x].  The conversion truncates toward zero; when the
    truncated value does not fit the destination (or [x] is not finite)
    the C++ standard leaves the behaviour undefined, and the value the
    platform then yields is the parameter [out_of_range]. *)
Definition uint64_of (out_of_range : spec_float -> Z) (x : spec_float) : Z :=
  match trunc x with
  | Some z => if (0 <=? z) && (z <? 2 ^ 64) then z else out_of_range x
  | None => out_of_range x
  end.

End IEEE.
Import IEEE.

(** ** The members of [OpenXrRuntime] the file reads and writes

    The members are declared in [runtime.h], which is not part of [src/];
    their types are read off their uses in this file and off the data
    model of the specification.  They are grouped by the part of the
    runtime they belong to; the coercions below let a member be read from
    the runtime object, or from a world, by its own name. *)

Inductive ForcedInteractionProfile : Set :=
| OculusTouchController
| MicrosoftMotionController.

(** Members set up at instance and system creation; this file only reads
    them.  [m_frameDuration] is taken as a [double]. *)
Record InstanceState : Set := {
  m_instanceCreated : bool;
  m_systemCreated : bool;
  m_graphicsRequirementQueried : bool;
  has_XR_KHR_D3D11_enable : bool;
  has_XR_KHR_D3D12_enable : bool;
  has_XR_KHR_vulkan_enable : bool;
  has_XR_KHR_vulkan_enable2 : bool;
  has_XR_KHR_opengl_enable : bool;
  m_pvr : Z;
  m_pvrSession : Z;
  m_frameDuration : double
}.

(** The session proper. *)
Record SessionState : Set := {
  m_sessionCreated : bool;
  m_sessionState : XrSessionState;
  m_sessionStateDirty : bool;
  m_sessionStateEventTime : double;
  m_sessionExiting : bool;
  m_sessionStartTime : double;
  m_sessionTotalFrameCount : Z;
  m_originSpace : XrSpace;
  m_viewSpace : XrSpace
}.

(** Frame and input bookkeeping reset by [xrCreateSession]. *)
Record FrameState : Set := {
  m_frameWaited : bool;
  m_frameBegun : bool;
  m_lastFrameWaitedTime : option double;
  m_frameTimes : list double;
  m_isControllerActive_0 : bool;
  m_isControllerActive_1 : bool;
  m_activeActionSets : list Z;
  m_validActionSets : list Z
}.

(** The settings derived from the configuration store. *)
Record Settings : Set := {
  m_useParallelProjection : bool;
  m_joystickDeadzone : float;
  m_swapGripAimPoses : bool;
  m_forcedInteractionProfile : option ForcedInteractionProfile;
  m_gpuFrameTimeOverrideOffsetUs : Z;
  m_gpuFrameTimeOverrideUs : Z;
  m_gpuFrameTimeFilterLength : Z
}.

(** The members a [Store] event can name. *)
Module L.
Inductive Member : Set :=
| m_sessionCreated | m_sessionState | m_sessionStateDirty
| m_sessionStateEventTime | m_sessionExiting | m_sessionStartTime
| m_sessionTotalFrameCount | m_originSpace | m_viewSpace
| m_frameWaited | m_frameBegun | m_lastFrameWaitedTime | m_frameTimes
| m_isControllerActive_0 | m_isControllerActive_1
| m_activeActionSets | m_validActionSets
| m_useParallelProjection | m_joystickDeadzone | m_swapGripAimPoses
| m_forcedInteractionProfile | m_gpuFrameTimeOverrideOffsetUs
| m_gpuFrameTimeOverrideUs | m_gpuFrameTimeFilterLength.
End L.

(** The type of each member. *)
Definition member_type (m : L.Member) : Set :=
  match m with
  | L.m_sessionCreated | L.m_sessionStateDirty | L.m_sessionExiting
  | L.m_frameWaited | L.m_frameBegun
  | L.m_isControllerActive_0 | L.m_isControllerActive_1
  | L.m_useParallelProjection | L.m_swapGripAimPoses => bool
  | L.m_sessionState => XrSessionState
  | L.m_sessionStateEventTime | L.m_sessionStartTime => double
  | L.m_sessionTotalFrameCount | L.m_originSpace | L.m_viewSpace
  | L.m_gpuFrameTimeOverrideOffsetUs | L.m_gpuFrameTimeOverrideUs
  | L.m_gpuFrameTimeFilterLength => Z
  | L.m_lastFrameWaitedTime => option double
  | L.m_frameTimes => list double
  | L.m_activeActionSets | L.m_validActionSets => list Z
  | L.m_joystickDeadzone => float
  | L.m_forcedInteractionProfile => option ForcedInteractionProfile
  end.

(** What the runtime tells the outside, in program order: diagnostic
    events, telemetry records, and the calls it makes. *)
Inductive Callee : Set :=
| InitializeD3D11 (bindings : list Z)
| InitializeD3D12 (bindings : list Z)
| InitializeVulkan (bindings : list Z)
| InitializeOpenGL (bindings : list Z)
| RecenterTrackingOrigin
| RebindControllerActions (side : Z)
| CreateReferenceSpace (session : XrSession) (spaceInfo : XrReferenceSpaceCreateInfo)
| DestroySwapchain (swapchain : XrSwapchain)
| DestroySpace (space : XrSpace)
| CleanupOpenGL
| CleanupVulkan
| CleanupD3D12
| CleanupD3D11.

Inductive Event : Set :=
| Trace (name : string)
| LogLine (line : string)
| LogScenario (api : string) (enableLighthouse : bool) (fovLevel : Z) (useParallelProjection : bool)
| LogUsage (sessionTime : double) (frameCount : Z)
| ClockRead
| Store (m : L.Member)
| Call (c : Callee).

(** What [CHECK_XRCMD] and [CHECK_PVRCMD] throw. *)
Inductive Exn : Set :=
| XrCmdFailed (result : XrResult)
| PvrCmdFailed (result : pvrResult).

(** How a computation ends: it returns, it throws, or it is still running
    when the steps granted to it are used up. *)
Inductive Outcome (A : Type) : Type :=
| Ret (a : A)
| Throw (e : Exn)
| Exhausted.
Arguments Ret {A} a.
Arguments Throw {A} e.
Arguments Exhausted {A}.

Definition is_initializer (ev : Event) : bool :=
  match ev with
  | Call (InitializeD3D11 _) | Call (InitializeD3D12 _)
  | Call (InitializeVulkan _) | Call (InitializeOpenGL _) => true
  | _ => false
  end.

Definition is_cleanup (ev : Event) : bool :=
  match ev with
  | Call CleanupOpenGL | Call CleanupVulkan
  | Call CleanupD3D12 | Call CleanupD3D11 => true
  | _ => false
  end.

Definition is_call (ev : Event) : bool :=
  match ev with
  | Call _ => true
  | _ => false
  end.

Definition is_store (ev : Event) : bool :=
  match ev with
  | Store _ => true
  | _ => false
  end.

(** [std::optional<T>::value_or] *)
Definition value_or {A : Type} (o : option A) (d : A) : A :=
  match o with
  | Some v => v
  | None => d
  end.

(** ** The runtime object, its collaborators and the world around it *)

Section Runtime.

(** The members owned by the other translation units of the runtime (the
    graphics devices, the table of spaces, the action bindings), whatever
    they are. *)
Context {Ext : Type}.

(** What the collaborators called from this file may write: the set of
    swapchains, a [std::set] listed in iteration order so that its head is
    the element at [m_swapchains.begin()], and their own members. *)
Record Others : Type := {
  m_swapchains : list XrSwapchain;
  m_ext : Ext
}.

Record Runtime : Type := {
  rt_instance :> InstanceState;
  rt_session :> SessionState;
  rt_frame :> FrameState;
  rt_settings :> Settings;
  rt_others :> Others
}.

(** The world: the runtime object, the number of readings taken so far
    from the device clock, and the events so far, the latest first. *)
Record World : Type := {
  w_rt :> Runtime;
  w_ticks : nat;
  w_log : list Event
}.

(** The methods of [OpenXrRuntime] defined in other translation units,
    taken as parameters.  Each reads the whole object and writes members
    of [Others] only, none of those this file writes; those that return an
    [XrResult] report failure through it. *)
Record Collaborators : Type := {
  initializeD3D11 : list Z -> Runtime -> XrResult * Others;
  initializeD3D12 : list Z -> Runtime -> XrResult * Others;
  initializeVulkan : list Z -> Runtime -> XrResult * Others;
  initializeOpenGL : list Z -> Runtime -> XrResult * Others;
  cleanupOpenGL : Runtime -> Others;
  cleanupVulkan : Runtime -> Others;
  cleanupD3D12 : Runtime -> Others;
  cleanupD3D11 : Runtime -> Others;
  isD3D12Session : Runtime -> bool;
  isVulkanSession : Runtime -> bool;
  isOpenGLSession : Runtime -> bool;
  rebindControllerActions : Z -> Runtime -> Others;
  (** the handle in the result, when there is one, is what the call
      stored through its [XrSpace*] argument *)
  xrCreateReferenceSpace :
    XrSession -> XrReferenceSpaceCreateInfo -> Runtime -> (XrResult * option XrSpace) * Others;
  xrDestroySwapchain : XrSwapchain -> Runtime -> XrResult * Others;
  xrDestroySpace : XrSpace -> Runtime -> XrResult * Others
}.

(** The platform under the runtime, taken as a parameter: the vendor SDK,
    the registry read by [getSetting], and the value of an out-of-range
    conversion to [uint64_t]. *)
Record Platform : Type := {
  (** [pvr_getTimeSeconds]: the reading returned to the n-th call *)
  device_clock : nat -> double;
  pvr_recenterTrackingOrigin : Z -> pvrResult;
  pvr_getIntConfig : Z -> string -> Z -> Z;
  getSetting : string -> option Z;
  uint64_out_of_range : spec_float -> Z
}.

Context (C : Collaborators) (P : Platform).

(** *** Writing a member *)

Definition with_session (rt : Runtime) (s : SessionState) : Runtime :=
  {| rt_instance := rt_instance rt; rt_session := s; rt_frame := rt_frame rt;
     rt_settings := rt_settings rt; rt_others := rt_others rt |}.

Definition with_frame (rt : Runtime) (f : FrameState) : Runtime :=
  {| rt_instance := rt_instance rt; rt_session := rt_session rt; rt_frame := f;
     rt_settings := rt_settings rt; rt_others := rt_others rt |}.

Definition with_settings (rt : Runtime) (s : Settings) : Runtime :=
  {| rt_instance := rt_instance rt; rt_session := rt_session rt; rt_frame := rt_frame rt;
     rt_settings := s; rt_others := rt_others rt |}.

Definition with_others (rt : Runtime) (o : Others) : Runtime :=
  {| rt_instance := rt_instance rt; rt_session := rt_session rt; rt_frame := rt_frame rt;
     rt_settings := rt_settings rt; rt_others := o |}.

Definition write_session (m : L.Member) : member_type m -> SessionState -> SessionState :=
  match m with
  | L.m_sessionCreated => fun v s =>
      {| m_sessionCreated := v; m_sessionState := m_sessionState s;
         m_sessionStateDirty := m_sessionStateDirty s;
         m_sessionStateEventTime := m_sessionStateEventTime s;
         m_sessionExiting := m_sessionExiting s;
         m_sessionStartTime := m_sessionStartTime s;
         m_sessionTotalFrameCount := m_sessionTotalFrameCount s;
         m_originSpace := m_originSpace s; m_viewSpace := m_viewSpace s |}
  | L.m_sessionState => fun v s =>
      {| m_sessionCreated := m_sessionCreated s; m_sessionState := v;
         m_sessionStateDirty := m_sessionStateDirty s;
         m_sessionStateEventTime := m_sessionStateEventTime s;
         m_sessionExiting := m_sessionExiting s;
         m_sessionStartTime := m_sessionStartTime s;
         m_sessionTotalFrameCount := m_sessionTotalFrameCount s;
         m_originSpace := m_originSpace s; m_viewSpace := m_viewSpace s |}
  | L.m_sessionStateDirty => fun v s =>
      {| m_sessionCreated := m_sessionCreated s; m_sessionState := m_sessionState s;
         m_sessionStateDirty := v;
         m_sessionStateEventTime := m_sessionStateEventTime s;
         m_sessionExiting := m_sessionExiting s;
         m_sessionStartTime := m_sessionStartTime s;
         m_sessionTotalFrameCount := m_sessionTotalFrameCount s;
         m_originSpace := m_originSpace s; m_viewSpace := m_viewSpace s |}
  | L.m_sessionStateEventTime => fun v s =>
      {| m_sessionCreated := m_sessionCreated s; m_sessionState := m_sessionState s;
         m_sessionStateDirty := m_sessionStateDirty s;
         m_sessionStateEventTime := v;
         m_sessionExiting := m_sessionExiting s;
         m_sessionStartTime := m_sessionStartTime s;
         m_sessionTotalFrameCount := m_sessionTotalFrameCount s;
         m_originSpace := m_originSpace s; m_viewSpace := m_viewSpace s |}
  | L.m_sessionExiting => fun v s =>
      {| m_sessionCreated := m_sessionCreated s; m_sessionState := m_sessionState s;
         m_sessionStateDirty := m_sessionStateDirty s;
         m_sessionStateEventTime := m_sessionStateEventTime s;
         m_sessionExiting := v;
         m_sessionStartTime := m_sessionStartTime s;
         m_sessionTotalFrameCount := m_sessionTotalFrameCount s;
         m_originSpace := m_originSpace s; m_viewSpace := m_viewSpace s |}
  | L.m_sessionStartTime => fun v s =>
      {| m_sessionCreated := m_sessionCreated s; m_sessionState := m_sessionState s;
         m_sessionStateDirty := m_sessionStateDirty s;
         m_sessionStateEventTime := m_sessionStateEventTime s;
         m_sessionExiting := m_sessionExiting s;
         m_sessionStartTime := v;
         m_sessionTotalFrameCount := m_sessionTotalFrameCount s;
         m_originSpace := m_originSpace s; m_viewSpace := m_viewSpace s |}
  | L.m_sessionTotalFrameCount => fun v s =>
      {| m_sessionCreated := m_sessionCreated s; m_sessionState := m_sessionState s;
         m_sessionStateDirty := m_sessionStateDirty s;
         m_sessionStateEventTime := m_sessionStateEventTime s;
         m_sessionExiting := m_sessionExiting s;
         m_sessionStartTime := m_sessionStartTime s;
         m_sessionTotalFrameCount := v;
         m_originSpace := m_originSpace s; m_viewSpace := m_viewSpace s |}
  | L.m_originSpace => fun v s =>
      {| m_sessionCreated := m_sessionCreated s; m_sessionState := m_sessionState s;
         m_sessionStateDirty := m_sessionStateDirty s;
         m_sessionStateEventTime := m_sessionStateEventTime s;
         m_sessionExiting := m_sessionExiting s;
         m_sessionStartTime := m_sessionStartTime s;
         m_sessionTotalFrameCount := m_sessionTotalFrameCount s;
         m_originSpace := v; m_viewSpace := m_viewSpace s |}
  | L.m_viewSpace => fun v s =>
      {| m_sessionCreated := m_sessionCreated s; m_sessionState := m_sessionState s;
         m_sessionStateDirty := m_sessionStateDirty s;
         m_sessionStateEventTime := m_sessionStateEventTime s;
         m_sessionExiting := m_sessionExiting s;
         m_sessionStartTime := m_sessionStartTime s;
         m_sessionTotalFrameCount := m_sessionTotalFrameCount s;
         m_originSpace := m_originSpace s; m_viewSpace := v |}
  | _ => fun _ s => s
  end.

Definition write_frame (m : L.Member) : member_type m -> FrameState -> FrameState :=
  match m with
  | L.m_frameWaited => fun v f =>
      {| m_frameWaited := v; m_frameBegun := m_frameBegun f;
         m_lastFrameWaitedTime := m_lastFrameWaitedTime f; m_frameTimes := m_frameTimes f;
         m_isControllerActive_0 := m_isControllerActive_0 f;
         m_isControllerActive_1 := m_isControllerActive_1 f;
         m_activeActionSets := m_activeActionSets f;
         m_validActionSets := m_validActionSets f |}
  | L.m_frameBegun => fun v f =>
      {| m_frameWaited := m_frameWaited f; m_frameBegun := v;
         m_lastFrameWaitedTime := m_lastFrameWaitedTime f; m_frameTimes := m_frameTimes f;
         m_isControllerActive_0 := m_isControllerActive_0 f;
         m_isControllerActive_1 := m_isControllerActive_1 f;
         m_activeActionSets := m_activeActionSets f;
         m_validActionSets := m_validActionSets f |}
  | L.m_lastFrameWaitedTime => fun v f =>
      {| m_frameWaited := m_frameWaited f; m_frameBegun := m_frameBegun f;
         m_lastFrameWaitedTime := v; m_frameTimes := m_frameTimes f;
         m_isControllerActive_0 := m_isControllerActive_0 f;
         m_isControllerActive_1 := m_isControllerActive_1 f;
         m_activeActionSets := m_activeActionSets f;
         m_validActionSets := m_validActionSets f |}
  | L.m_frameTimes => fun v f =>
      {| m_frameWaited := m_frameWaited f; m_frameBegun := m_frameBegun f;
         m_lastFrameWaitedTime := m_lastFrameWaitedTime f; m_frameTimes := v;
         m_isControllerActive_0 := m_isControllerActive_0 f;
         m_isControllerActive_1 := m_isControllerActive_1 f;
         m_activeActionSets := m_activeActionSets f;
         m_validActionSets := m_validActionSets f |}
  | L.m_isControllerActive_0 => fun v f =>
      {| m_frameWaited := m_frameWaited f; m_frameBegun := m_frameBegun f;
         m_lastFrameWaitedTime := m_lastFrameWaitedTime f; m_frameTimes := m_frameTimes f;
         m_isControllerActive_0 := v;
         m_isControllerActive_1 := m_isControllerActive_1 f;
         m_activeActionSets := m_activeActionSets f;
         m_validActionSets := m_validActionSets f |}
  | L.m_isControllerActive_1 => fun v f =>
      {| m_frameWaited := m_frameWaited f; m_frameBegun := m_frameBegun f;
         m_lastFrameWaitedTime := m_lastFrameWaitedTime f; m_frameTimes := m_frameTimes f;
         m_isControllerActive_0 := m_isControllerActive_0 f;
         m_isControllerActive_1 := v;
         m_activeActionSets := m_activeActionSets f;
         m_validActionSets := m_validActionSets f |}
  | L.m_activeActionSets => fun v f =>
      {| m_frameWaited := m_frameWaited f; m_frameBegun := m_frameBegun f;
         m_lastFrameWaitedTime := m_lastFrameWaitedTime f; m_frameTimes := m_frameTimes f;
         m_isControllerActive_0 := m_isControllerActive_0 f;
         m_isControllerActive_1 := m_isControllerActive_1 f;
         m_activeActionSets := v;
         m_validActionSets := m_validActionSets f |}
  | L.m_validActionSets => fun v f =>
      {| m_frameWaited := m_frameWaited f; m_frameBegun := m_frameBegun f;
         m_lastFrameWaitedTime := m_lastFrameWaitedTime f; m_frameTimes := m_frameTimes f;
         m_isControllerActive_0 := m_isControllerActive_0 f;
         m_isControllerActive_1 := m_isControllerActive_1 f;
         m_activeActionSets := m_activeActionSets f;
         m_validActionSets := v |}
  | _ => fun _ f => f
  end.

Definition write_settings (m : L.Member) : member_type m -> Settings -> Settings :=
  match m with
  | L.m_useParallelProjection => fun v s =>
      {| m_useParallelProjection := v; m_joystickDeadzone := m_joystickDeadzone s;
         m_swapGripAimPoses := m_swapGripAimPoses s;
         m_forcedInteractionProfile := m_forcedInteractionProfile s;
         m_gpuFrameTimeOverrideOffsetUs := m_gpuFrameTimeOverrideOffsetUs s;
         m_gpuFrameTimeOverrideUs := m_gpuFrameTimeOverrideUs s;
         m_gpuFrameTimeFilterLength := m_gpuFrameTimeFilterLength s |}
  | L.m_joystickDeadzone => fun v s =>
      {| m_useParallelProjection := m_useParallelProjection s; m_joystickDeadzone := v;
         m_swapGripAimPoses := m_swapGripAimPoses s;
         m_forcedInteractionProfile := m_forcedInteractionProfile s;
         m_gpuFrameTimeOverrideOffsetUs := m_gpuFrameTimeOverrideOffsetUs s;
         m_gpuFrameTimeOverrideUs := m_gpuFrameTimeOverrideUs s;
         m_gpuFrameTimeFilterLength := m_gpuFrameTimeFilterLength s |}
  | L.m_swapGripAimPoses => fun v s =>
      {| m_useParallelProjection := m_useParallelProjection s;
         m_joystickDeadzone := m_joystickDeadzone s;
         m_swapGripAimPoses := v;
         m_forcedInteractionProfile := m_forcedInteractionProfile s;
         m_gpuFrameTimeOverrideOffsetUs := m_gpuFrameTimeOverrideOffsetUs s;
         m_gpuFrameTimeOverrideUs := m_gpuFrameTimeOverrideUs s;
         m_gpuFrameTimeFilterLength := m_gpuFrameTimeFilterLength s |}
  | L.m_forcedInteractionProfile => fun v s =>
      {| m_useParallelProjection := m_useParallelProjection s;
         m_joystickDeadzone := m_joystickDeadzone s;
         m_swapGripAimPoses := m_swapGripAimPoses s;
         m_forcedInteractionProfile := v;
         m_gpuFrameTimeOverrideOffsetUs := m_gpuFrameTimeOverrideOffsetUs s;
         m_gpuFrameTimeOverrideUs := m_gpuFrameTimeOverrideUs s;
         m_gpuFrameTimeFilterLength := m_gpuFrameTimeFilterLength s |}
  | L.m_gpuFrameTimeOverrideOffsetUs => fun v s =>
      {| m_useParallelProjection := m_useParallelProjection s;
         m_joystickDeadzone := m_joystickDeadzone s;
         m_swapGripAimPoses := m_swapGripAimPoses s;
         m_forcedInteractionProfile := m_forcedInteractionProfile s;
         m_gpuFrameTimeOverrideOffsetUs := v;
         m_gpuFrameTimeOverrideUs := m_gpuFrameTimeOverrideUs s;
         m_gpuFrameTimeFilterLength := m_gpuFrameTimeFilterLength s |}
  | L.m_gpuFrameTimeOverrideUs => fun v s =>
      {| m_useParallelProjection := m_useParallelProjection s;
         m_joystickDeadzone := m_joystickDeadzone s;
         m_swapGripAimPoses := m_swapGripAimPoses s;
         m_forcedInteractionProfile := m_forcedInteractionProfile s;
         m_gpuFrameTimeOverrideOffsetUs := m_gpuFrameTimeOverrideOffsetUs s;
         m_gpuFrameTimeOverrideUs := v;
         m_gpuFrameTimeFilterLength := m_gpuFrameTimeFilterLength s |}
  | L.m_gpuFrameTimeFilterLength => fun v s =>
      {| m_useParallelProjection := m_useParallelProjection s;
         m_joystickDeadzone := m_joystickDeadzone s;
         m_swapGripAimPoses := m_swapGripAimPoses s;
         m_forcedInteractionProfile := m_forcedInteractionProfile s;
         m_gpuFrameTimeOverrideOffsetUs := m_gpuFrameTimeOverrideOffsetUs s;
         m_gpuFrameTimeOverrideUs := m_gpuFrameTimeOverrideUs s;
         m_gpuFrameTimeFilterLength := v |}
  | _ => fun _ s => s
  end.

(** [write m v rt]: the runtime object after [m = v]. *)
Definition write (m : L.Member) (v : member_type m) (rt : Runtime) : Runtime :=
  {| rt_instance := rt_instance rt;
     rt_session := write_session m v rt;
     rt_frame := write_frame m v rt;
     rt_settings := write_settings m v rt;
     rt_others := rt_others rt |}.

(** *** Computations *)

Definition M (A : Type) : Type := World -> Outcome A * World.

Definition ret {A : Type} (a : A) : M A := fun w => (Ret a, w).

Definition bind {A B : Type} (c : M A) (k : A -> M B) : M B :=
  fun w =>
    match c w with
    | (Ret a, w') => k a w'
    | (Throw e, w') => (Throw e, w')
    | (Exhausted, w') => (Exhausted, w')
    end.

Definition throw {A : Type} (e : Exn) : M A := fun w => (Throw e, w).

(** [try { c } catch (std::exception& exc) { h exc }] *)
Definition try_catch {A : Type} (c : M A) (h : Exn -> M A) : M A :=
  fun w =>
    match c w with
    | (Throw e, w') => h e w'
    | r => r
    end.

Definition exhausted {A : Type} : M A := fun w => (Exhausted, w).

(** The object [this] as it stands. *)
Definition this : M Runtime := fun w => (Ret (w_rt w), w).

Definition emit (ev : Event) : M unit :=
  fun w => (Ret tt, {| w_rt := w_rt w; w_ticks := w_ticks w; w_log := ev :: w_log w |}).

(** [m = v;] *)
Definition assign (m : L.Member) (v : member_type m) : M unit :=
  fun w => (Ret tt, {| w_rt := write m v (w_rt w); w_ticks := w_ticks w;
                       w_log := Store m :: w_log w |}).

(** A call to a collaborator that returns a value. *)
Definition call {R : Type} (c : Callee) (f : Runtime -> R * Others) : M R :=
  fun w =>
    let (r, o) := f (w_rt w) in
    (Ret r, {| w_rt := with_others (w_rt w) o; w_ticks := w_ticks w;
               w_log := Call c :: w_log w |}).

(** A call to a collaborator that returns nothing. *)
Definition call_void (c : Callee) (f : Runtime -> Others) : M unit :=
  fun w => (Ret tt, {| w_rt := with_others (w_rt w) (f (w_rt w)); w_ticks := w_ticks w;
                       w_log := Call c :: w_log w |}).

(** [pvr_getTimeSeconds(m_pvr)] *)
Definition pvr_getTimeSeconds : M double :=
  fun w => (Ret (device_clock P (w_ticks w)),
            {| w_rt := w_rt w; w_ticks := S (w_ticks w); w_log := ClockRead :: w_log w |}).

Notation "x <- c ;; k" := (bind c (fun x => k))
  (at level 61, c at next level, right associativity).
Notation "c ;; k" := (bind c (fun _ => k))
  (at level 61, right associativity).

(** Modelled from the spec: [CHECK_XRCMD], a macro of the precompiled
    headers that are not part of [src/].  It evaluates the command and
    raises its failure as an exception; a success is passed on. *)
Definition CHECK_XRCMD (cmd : M XrResult) : M XrResult :=
  result <- cmd ;;
  if XR_FAILED result then throw (XrCmdFailed result) else ret result.

(** Modelled from the spec: [CHECK_PVRCMD], the same for a command of the
    vendor SDK, which fails when its result is not [pvr_success]. *)
Definition CHECK_PVRCMD (cmd : M pvrResult) : M pvrResult :=
  result <- cmd ;;
  if negb (result =? pvr_success) then throw (PvrCmdFailed result) else ret result.

(** ** [OpenXrRuntime::refreshSettings] *)

Definition refreshSettings : M unit :=
  assign L.m_joystickDeadzone
    (float_div (float_of_int (value_or (getSetting P "joystick_deadzone") 2)) f100) ;;
  assign L.m_swapGripAimPoses
    (negb (value_or (getSetting P "swap_grip_aim_poses") 0 =? 0)) ;;
  let forcedInteractionProfile := value_or (getSetting P "force_interaction_profile") 0 in
  (if forcedInteractionProfile =? 1 then
     assign L.m_forcedInteractionProfile (Some OculusTouchController)
   else if forcedInteractionProfile =? 2 then
     assign L.m_forcedInteractionProfile (Some MicrosoftMotionController)
   else
     assign L.m_forcedInteractionProfile None) ;;
  assign L.m_gpuFrameTimeOverrideOffsetUs
    (value_or (getSetting P "frame_time_override_offset") 0) ;;
  rt <- this ;;
  assign L.m_gpuFrameTimeOverrideUs
    (uint64_of (uint64_out_of_range P)
       (double_mul
          (double_mul
             (double_of_float
                (float_mul
                   (float_of_int (value_or (getSetting P "frame_time_override_multiplier") 0))
                   f10))
             (m_frameDuration rt))
          (double_of_float f1000))) ;;
  assign L.m_gpuFrameTimeFilterLength
    (value_or (getSetting P "frame_time_filter_length") 5) ;;
  emit (Trace "PXR_Config").

(** ** [OpenXrRuntime::xrCreateSession] *)

(** The loop over the [next] chain.  It ends with [inl result] where the
    source returns [result] from inside the loop, and with
    [inr hasGraphicsBindings] where the source leaves the loop. *)
Fixpoint scanGraphicsBindings (entry : list XrBaseInStructure) : M (XrResult + bool) :=
  match entry with
  | [] => ret (inr false)
  | e :: next =>
      rt <- this ;;
      if has_XR_KHR_D3D11_enable rt && (e_type e =? XR_TYPE_GRAPHICS_BINDING_D3D11_KHR) then
        result <- call (InitializeD3D11 (e_body e)) (initializeD3D11 C (e_body e)) ;;
        if XR_FAILED result then ret (inl result) else ret (inr true)
      else if has_XR_KHR_D3D12_enable rt && (e_type e =? XR_TYPE_GRAPHICS_BINDING_D3D12_KHR) then
        result <- call (InitializeD3D12 (e_body e)) (initializeD3D12 C (e_body e)) ;;
        if XR_FAILED result then ret (inl result) else ret (inr true)
      else if (has_XR_KHR_vulkan_enable rt || has_XR_KHR_vulkan_enable2 rt) &&
              (e_type e =? XR_TYPE_GRAPHICS_BINDING_VULKAN_KHR) then
        result <- call (InitializeVulkan (e_body e)) (initializeVulkan C (e_body e)) ;;
        if XR_FAILED result then ret (inl result) else ret (inr true)
      else if has_XR_KHR_opengl_enable rt &&
              (e_type e =? XR_TYPE_GRAPHICS_BINDING_OPENGL_WIN32_KHR) then
        result <- call (InitializeOpenGL (e_body e)) (initializeOpenGL C (e_body e)) ;;
        if XR_FAILED result then ret (inl result) else ret (inr true)
      else
        scanGraphicsBindings next
  end.

(** [xrCreateReferenceSpace((XrSession)1, &spaceInfo, &m)]: the call, and
    the store it makes through its last argument. *)
Definition createReferenceSpace_origin (spaceInfo : XrReferenceSpaceCreateInfo) : M XrResult :=
  r <- call (CreateReferenceSpace 1 spaceInfo) (xrCreateReferenceSpace C 1 spaceInfo) ;;
  match snd r with
  | Some space => assign L.m_originSpace space ;; ret (fst r)
  | None => ret (fst r)
  end.

Definition createReferenceSpace_view (spaceInfo : XrReferenceSpaceCreateInfo) : M XrResult :=
  r <- call (CreateReferenceSpace 1 spaceInfo) (xrCreateReferenceSpace C 1 spaceInfo) ;;
  match snd r with
  | Some space => assign L.m_viewSpace space ;; ret (fst r)
  | None => ret (fst r)
  end.

(** [pvr_recenterTrackingOrigin(m_pvrSession)] *)
Definition recenterTrackingOrigin : M pvrResult :=
  rt <- this ;;
  emit (Call RecenterTrackingOrigin) ;;
  ret (pvr_recenterTrackingOrigin P (m_pvrSession rt)).

(** The two [spaceInfo] of [xrCreateSession]: identity pose in the local
    and in the view reference space. *)
Definition localSpaceInfo : XrReferenceSpaceCreateInfo :=
  {| si_type := XR_TYPE_REFERENCE_SPACE_CREATE_INFO;
     si_referenceSpaceType := XR_REFERENCE_SPACE_TYPE_LOCAL;
     si_poseIsIdentity := true |}.

Definition viewSpaceInfo : XrReferenceSpaceCreateInfo :=
  {| si_type := XR_TYPE_REFERENCE_SPACE_CREATE_INFO;
     si_referenceSpaceType := XR_REFERENCE_SPACE_TYPE_VIEW;
     si_poseIsIdentity := true |}.

(** The [try] block of [xrCreateSession] with its handler: the two
    reference spaces are created, and a failure clears [m_sessionCreated]
    and is thrown again. *)
Definition createReferenceSpaces : M unit :=
  try_catch
    (CHECK_XRCMD (createReferenceSpace_origin localSpaceInfo) ;;
     CHECK_XRCMD (createReferenceSpace_view viewSpaceInfo) ;;
     ret tt)
    (fun exc => assign L.m_sessionCreated false ;; throw exc).

(** The statements of [xrCreateSession] under the comment "Read
    configuration and set up the session accordingly". *)
Definition readConfiguration : M unit :=
  (if negb (value_or (getSetting P "recenter_on_startup") 1 =? 0) then
     CHECK_PVRCMD recenterTrackingOrigin ;; ret tt
   else ret tt) ;;
  rt <- this ;;
  assign L.m_useParallelProjection
    (pvr_getIntConfig P (m_pvrSession rt) "steamvr_use_native_fov" 0 =? 0) ;;
  rt <- this ;;
  (if m_useParallelProjection rt then emit (LogLine "Parallel projection is enabled") else ret tt) ;;
  refreshSettings ;;
  rt <- this ;;
  let enableLighthouse :=
    negb (pvr_getIntConfig P (m_pvrSession rt) "enable_lighthouse_tracking" 0 =? 0) in
  let fovLevel := pvr_getIntConfig P (m_pvrSession rt) "fov_level" 1 in
  emit (Trace "PVR_Config") ;;
  emit (LogScenario
          (if isD3D12Session C rt then "D3D12"
           else if isVulkanSession C rt then "Vulkan"
           else if isOpenGLSession C rt then "OpenGL"
           else "D3D11")
          enableLighthouse fovLevel (m_useParallelProjection rt)).

(** The statements of [xrCreateSession] from [m_sessionCreated = true] to
    [m_sessionTotalFrameCount = 0], which mark the session created, put it
    in the idle state and reset the frame and input bookkeeping. *)
Definition resetSession : M unit :=
  assign L.m_sessionCreated true ;;
  assign L.m_sessionState XR_SESSION_STATE_IDLE ;;
  assign L.m_sessionStateDirty true ;;
  now <- pvr_getTimeSeconds ;;
  assign L.m_sessionStateEventTime now ;;
  assign L.m_frameBegun false ;;
  assign L.m_frameWaited false ;;
  assign L.m_lastFrameWaitedTime None ;;
  assign L.m_frameTimes [] ;;
  assign L.m_isControllerActive_1 false ;;
  assign L.m_isControllerActive_0 false ;;
  call_void (RebindControllerActions 0) (rebindControllerActions C 0) ;;
  call_void (RebindControllerActions 1) (rebindControllerActions C 1) ;;
  assign L.m_activeActionSets [] ;;
  assign L.m_validActionSets [] ;;
  rt <- this ;;
  assign L.m_sessionStartTime (m_sessionStateEventTime rt) ;;
  assign L.m_sessionTotalFrameCount 0.

(** The result is the returned [XrResult] and what the call stored in
    [*session], if it stored anything. *)
Definition xrCreateSession (instance : XrInstance) (createInfo : XrSessionCreateInfo)
  : M (XrResult * option XrSession) :=
  if negb (ci_type createInfo =? XR_TYPE_SESSION_CREATE_INFO) then
    ret (XR_ERROR_VALIDATION_FAILURE, None)
  else
    emit (Trace "xrCreateSession") ;;
    rt <- this ;;
    if negb (m_instanceCreated rt) || negb (instance =? 1) then
      ret (XR_ERROR_HANDLE_INVALID, None)
    else if negb (m_systemCreated rt) || negb (ci_systemId createInfo =? 1) then
      ret (XR_ERROR_SYSTEM_INVALID, None)
    else if negb (m_graphicsRequirementQueried rt) then
      ret (XR_ERROR_GRAPHICS_REQUIREMENTS_CALL_MISSING, None)
    else if m_sessionCreated rt then
      ret (XR_ERROR_LIMIT_REACHED, None)
    else
      scan <- scanGraphicsBindings (ci_next createInfo) ;;
      match scan with
      | inl result => ret (result, None)
      | inr hasGraphicsBindings =>
          if negb hasGraphicsBindings then
            ret (XR_ERROR_GRAPHICS_DEVICE_INVALID, None)
          else
            readConfiguration ;;
            resetSession ;;
            createReferenceSpaces ;;
            emit (Trace "xrCreateSession") ;;
            ret (XR_SUCCESS, Some 1)
      end.

(** ** [OpenXrRuntime::xrDestroySession] *)

(** The loop that destroys all swapchains: while [m_swapchains.size()] is
    not zero, [CHECK_XRCMD] of [xrDestroySwapchain] on the first element of
    [m_swapchains]; with at most [fuel] tests of the loop condition. *)
Fixpoint destroyAllSwapchains (fuel : nat) : M unit :=
  match fuel with
  | O => exhausted
  | S fuel' =>
      rt <- this ;;
      match m_swapchains rt with
      | [] => ret tt
      | first :: _ =>
          CHECK_XRCMD (call (DestroySwapchain first) (xrDestroySwapchain C first)) ;;
          destroyAllSwapchains fuel'
      end
  end.

Definition xrDestroySession (fuel : nat) (session : XrSession) : M XrResult :=
  emit (Trace "xrDestroySession") ;;
  rt <- this ;;
  if negb (m_sessionCreated rt) || negb (session =? 1) then
    ret XR_ERROR_HANDLE_INVALID
  else
    now <- pvr_getTimeSeconds ;;
    emit (LogUsage (double_sub now (m_sessionStartTime rt)) (m_sessionTotalFrameCount rt)) ;;
    destroyAllSwapchains fuel ;;
    rt <- this ;;
    CHECK_XRCMD (call (DestroySpace (m_originSpace rt)) (xrDestroySpace C (m_originSpace rt))) ;;
    assign L.m_originSpace XR_NULL_HANDLE ;;
    rt <- this ;;
    CHECK_XRCMD (call (DestroySpace (m_viewSpace rt)) (xrDestroySpace C (m_viewSpace rt))) ;;
    assign L.m_viewSpace XR_NULL_HANDLE ;;
    call_void CleanupOpenGL (cleanupOpenGL C) ;;
    call_void CleanupVulkan (cleanupVulkan C) ;;
    call_void CleanupD3D12 (cleanupD3D12 C) ;;
    call_void CleanupD3D11 (cleanupD3D11 C) ;;
    assign L.m_sessionState XR_SESSION_STATE_UNKNOWN ;;
    assign L.m_sessionStateDirty false ;;
    assign L.m_sessionCreated false ;;
    assign L.m_sessionExiting false ;;
    ret XR_SUCCESS.

(** ** [OpenXrRuntime::xrBeginSession] *)

Definition xrBeginSession (session : XrSession) (beginInfo : XrSessionBeginInfo) : M XrResult :=
  if negb (bi_type beginInfo =? XR_TYPE_SESSION_BEGIN_INFO) then
    ret XR_ERROR_VALIDATION_FAILURE
  else
    emit (Trace "xrBeginSession") ;;
    rt <- this ;;
    if negb (m_sessionCreated rt) || negb (session =? 1) then
      ret XR_ERROR_HANDLE_INVALID
    else if negb (bi_primaryViewConfigurationType beginInfo
                  =? XR_VIEW_CONFIGURATION_TYPE_PRIMARY_STEREO) then
      ret XR_ERROR_VIEW_CONFIGURATION_TYPE_UNSUPPORTED
    else if negb (XrSessionState_eqb (m_sessionState rt) XR_SESSION_STATE_IDLE) &&
            negb (XrSessionState_eqb (m_sessionState rt) XR_SESSION_STATE_READY) then
      ret XR_ERROR_SESSION_NOT_READY
    else
      assign L.m_sessionState XR_SESSION_STATE_SYNCHRONIZED ;;
      assign L.m_sessionStateDirty true ;;
      now <- pvr_getTimeSeconds ;;
      assign L.m_sessionStateEventTime now ;;
      ret XR_SUCCESS.

(** ** [OpenXrRuntime::xrEndSession] *)

Definition xrEndSession (session : XrSession) : M XrResult :=
  emit (Trace "xrEndSession") ;;
  rt <- this ;;
  if negb (m_sessionCreated rt) || negb (session =? 1) then
    ret XR_ERROR_HANDLE_INVALID
  else if negb (XrSessionState_eqb (m_sessionState rt) XR_SESSION_STATE_STOPPING) then
    ret XR_ERROR_SESSION_NOT_STOPPING
  else
    assign L.m_sessionExiting true ;;
    assign L.m_sessionState XR_SESSION_STATE_IDLE ;;
    assign L.m_sessionStateDirty true ;;
    now <- pvr_getTimeSeconds ;;
    assign L.m_sessionStateEventTime now ;;
    ret XR_SUCCESS.

(** ** [OpenXrRuntime::xrRequestExitSession] *)

Definition xrRequestExitSession (session : XrSession) : M XrResult :=
  emit (Trace "xrRequestExitSession") ;;
  rt <- this ;;
  if negb (m_sessionCreated rt) || negb (session =? 1) then
    ret XR_ERROR_HANDLE_INVALID
  else if negb (XrSessionState_eqb (m_sessionState rt) XR_SESSION_STATE_SYNCHRONIZED) &&
          negb (XrSessionState_eqb (m_sessionState rt) XR_SESSION_STATE_VISIBLE) &&
          negb (XrSessionState_eqb (m_sessionState rt) XR_SESSION_STATE_FOCUSED) then
    ret XR_ERROR_SESSION_NOT_RUNNING
  else
    assign L.m_sessionState XR_SESSION_STATE_STOPPING ;;
    assign L.m_sessionStateDirty true ;;
    now <- pvr_getTimeSeconds ;;
    assign L.m_sessionStateEventTime now ;;
    ret XR_SUCCESS.

(** ** Vocabulary of the statements *)

(** The worlds after the primitive steps: an event, a store ([m = v;]), a
    call that left the collaborators' members as [o], and a reading of the
    device clock. *)
Definition logged (ev : Event) (w : World) : World :=
  {| w_rt := w_rt w; w_ticks := w_ticks w; w_log := ev :: w_log w |}.

Definition stored (m : L.Member) (v : member_type m) (w : World) : World :=
  {| w_rt := write m v (w_rt w); w_ticks := w_ticks w; w_log := Store m :: w_log w |}.

Definition called (c : Callee) (o : Others) (w : World) : World :=
  {| w_rt := with_others (w_rt w) o; w_ticks := w_ticks w; w_log := Call c :: w_log w |}.

Definition ticked (w : World) : World :=
  {| w_rt := w_rt w; w_ticks := S (w_ticks w); w_log := ClockRead :: w_log w |}.

(** The world after a call that only left its diagnostic event: the
    runtime object and the clock are as before, and nothing was called. *)
Definition traced (name : string) (w : World) : World := logged (Trace name) w.

(** The world after the three statements that end a successful state
    change: [m_sessionState], [m_sessionStateDirty] and
    [m_sessionStateEventTime] are written in this order, the time being
    the next reading of the device clock. *)
Definition transition (state : XrSessionState) (w : World) : World :=
  {| w_rt := write L.m_sessionStateEventTime (device_clock P (w_ticks w))
               (write L.m_sessionStateDirty true (write L.m_sessionState state (w_rt w)));
     w_ticks := S (w_ticks w);
     w_log := Store L.m_sessionStateEventTime :: ClockRead
              :: Store L.m_sessionStateDirty :: Store L.m_sessionState :: w_log w |}.

(** A computation preserves an observation of the world when the
    observation is the same before and after it, however it ends. *)
Definition preserves {A X : Type} (f : World -> X) (c : M A) : Prop :=
  forall w, f (snd (c w)) = f w.

(** A computation ends when, from every world, it returns or throws an
    exception among [Q]: it is never out of steps. *)
Definition ends {A : Type} (Q : Exn -> Prop) (c : M A) : Prop :=
  forall w, exists w',
    (exists a, c w = (Ret a, w')) \/ (exists e, Q e /\ c w = (Throw e, w')).

(** The initializers and the cleanup routines called so far. *)
Definition initializers (w : World) : list Event := filter is_initializer (w_log w).
Definition cleanups (w : World) : list Event := filter is_cleanup (w_log w).

(** An entry of the chain is eligible when its type tag is one of the four
    graphics bindings and the extension of that binding is enabled. *)
Definition eligible (rt : Runtime) (e : XrBaseInStructure) : bool :=
  (has_XR_KHR_D3D11_enable rt && (e_type e =? XR_TYPE_GRAPHICS_BINDING_D3D11_KHR))
  || (has_XR_KHR_D3D12_enable rt && (e_type e =? XR_TYPE_GRAPHICS_BINDING_D3D12_KHR))
  || ((has_XR_KHR_vulkan_enable rt || has_XR_KHR_vulkan_enable2 rt)
      && (e_type e =? XR_TYPE_GRAPHICS_BINDING_VULKAN_KHR))
  || (has_XR_KHR_opengl_enable rt && (e_type e =? XR_TYPE_GRAPHICS_BINDING_OPENGL_WIN32_KHR)).

(** The initializer that belongs to the type tag of an entry, as the call
    it is and as the function it runs. *)
Definition initializer_call (e : XrBaseInStructure) : Callee :=
  if e_type e =? XR_TYPE_GRAPHICS_BINDING_D3D11_KHR then InitializeD3D11 (e_body e)
  else if e_type e =? XR_TYPE_GRAPHICS_BINDING_D3D12_KHR then InitializeD3D12 (e_body e)
  else if e_type e =? XR_TYPE_GRAPHICS_BINDING_VULKAN_KHR then InitializeVulkan (e_body e)
  else InitializeOpenGL (e_body e).

Definition run_initializer (e : XrBaseInStructure) (rt : Runtime) : XrResult * Others :=
  if e_type e =? XR_TYPE_GRAPHICS_BINDING_D3D11_KHR then initializeD3D11 C (e_body e) rt
  else if e_type e =? XR_TYPE_GRAPHICS_BINDING_D3D12_KHR then initializeD3D12 C (e_body e) rt
  else if e_type e =? XR_TYPE_GRAPHICS_BINDING_VULKAN_KHR then initializeVulkan C (e_body e) rt
  else initializeOpenGL C (e_body e) rt.

(** The world after the call of the initializer of [e]. *)
Definition initialized (e : XrBaseInStructure) (w : World) : World :=
  {| w_rt := with_others (w_rt w) (snd (run_initializer e w));
     w_ticks := w_ticks w;
     w_log := Call (initializer_call e) :: w_log w |}.

(** The world in which the view space is created: the origin space has
    been created and its handle stored. *)
Definition origin_created (w : World) : World :=
  snd (createReferenceSpace_origin localSpaceInfo w).

(** The device clock advanced between its n-th reading and the next. *)
Definition clock_advances (n : nat) : Prop :=
  double_ltb (device_clock P n) (device_clock P (S n)) = true.

(** The preconditions of [xrCreateSession] all hold. *)
Definition create_preconditions (instance : XrInstance) (createInfo : XrSessionCreateInfo)
    (rt : Runtime) : Prop :=
  ci_type createInfo = XR_TYPE_SESSION_CREATE_INFO
  /\ m_instanceCreated rt = true /\ instance = 1
  /\ m_systemCreated rt = true /\ ci_systemId createInfo = 1
  /\ m_graphicsRequirementQueried rt = true
  /\ m_sessionCreated rt = false.

(** The contract of the collaborators on which a destruction runs to its
    end: destroying the first swapchain of the set succeeds and erases it
    from the set, and destroying a space succeeds. *)
Definition swapchain_destruction_succeeds : Prop :=
  forall (rt : Runtime) (first : XrSwapchain) (rest : list XrSwapchain),
    m_swapchains rt = first :: rest ->
    XR_FAILED (fst (xrDestroySwapchain C first rt)) = false
    /\ m_swapchains (snd (xrDestroySwapchain C first rt)) = rest.

Definition space_destruction_succeeds : Prop :=
  forall (rt : Runtime) (space : XrSpace),
    XR_FAILED (fst (xrDestroySpace C space rt)) = false.

Definition is_finite (x : spec_float) : bool :=
  match x with
  | S754_zero _ | S754_finite _ _ _ => true
  | _ => false
  end.

(** The expression of [refreshSettings] for the GPU frame-time override:
    [multiplier * 10.f * frameDuration * 1000.f] with [multiplier] an
    [int] and [frameDuration] a [double]. *)
Definition overrideMagnitude (multiplier : Z) (frameDuration : double) : double :=
  double_mul
    (double_mul (double_of_float (float_mul (float_of_int multiplier) f10)) frameDuration)
    (double_of_float f1000).

(** *** The calls of an application, one after the other *)

(** A call of one of the three entry points that move a created session
    from state to state. *)
Inductive LifecycleCall : Set :=
| BeginSession (session : XrSession) (beginInfo : XrSessionBeginInfo)
| EndSession (session : XrSession)
| RequestExitSession (session : XrSession).

Definition lifecycle_call (c : LifecycleCall) : M XrResult :=
  match c with
  | BeginSession session beginInfo => xrBeginSession session beginInfo
  | EndSession session => xrEndSession session
  | RequestExitSession session => xrRequestExitSession session
  end.

(** The calls made in turn, each on the world the one before left, with
    their results in the order of the calls. *)
Fixpoint lifecycle_calls (cs : list LifecycleCall) : M (list XrResult) :=
  match cs with
  | [] => ret []
  | c :: rest =>
      result <- lifecycle_call c ;;
      results <- lifecycle_calls rest ;;
      ret (result :: results)
  end.

(** The changes of [m_sessionState] that the three entry points make:
    [xrBeginSession] from idle or ready to synchronized, [xrEndSession]
    from stopping to idle, [xrRequestExitSession] from synchronized,
    visible or focused to stopping. *)
Definition state_change (from to : XrSessionState) : bool :=
  match from, to with
  | XR_SESSION_STATE_IDLE, XR_SESSION_STATE_SYNCHRONIZED
  | XR_SESSION_STATE_READY, XR_SESSION_STATE_SYNCHRONIZED
  | XR_SESSION_STATE_STOPPING, XR_SESSION_STATE_IDLE
  | XR_SESSION_STATE_SYNCHRONIZED, XR_SESSION_STATE_STOPPING
  | XR_SESSION_STATE_VISIBLE, XR_SESSION_STATE_STOPPING
  | XR_SESSION_STATE_FOCUSED, XR_SESSION_STATE_STOPPING => true
  | _, _ => false
  end.

(** A state is reached from another by changes of state, none included. *)
Inductive reached (from : XrSessionState) : XrSessionState -> Prop :=
| reached_here : reached from from
| reached_next (mid to : XrSessionState) :
    reached from mid -> state_change mid to = true -> reached from to.

Definition succeeded (result : XrResult) : bool := negb (XR_FAILED result).

(** *** More of what the log tells *)

Definition is_recenter (ev : Event) : bool :=
  match ev with
  | Call RecenterTrackingOrigin => true
  | _ => false
  end.

Definition is_scenario (ev : Event) : bool :=
  match ev with
  | LogScenario _ _ _ _ => true
  | _ => false
  end.

Definition is_usage (ev : Event) : bool :=
  match ev with
  | LogUsage _ _ => true
  | _ => false
  end.

Definition is_log_line (ev : Event) : bool :=
  match ev with
  | LogLine _ => true
  | _ => false
  end.

(** The calls made so far, the recenterings among them, and the records
    given to the telemetry and to the log file. *)
Definition calls (w : World) : list Event := filter is_call (w_log w).
Definition recenterings (w : World) : list Event := filter is_recenter (w_log w).
Definition scenarios (w : World) : list Event := filter is_scenario (w_log w).
Definition usages (w : World) : list Event := filter is_usage (w_log w).
Definition log_lines (w : World) : list Event := filter is_log_line (w_log w).

(** The first argument of [m_telemetry.logScenario] in [xrCreateSession]. *)
Definition scenario_api (rt : Runtime) : string :=
  if isD3D12Session C rt then "D3D12"
  else if isVulkanSession C rt then "Vulkan"
  else if isOpenGLSession C rt then "OpenGL"
  else "D3D11".

(** [recenter_on_startup] asks for a recentering, as it does when it is
    missing. *)
Definition recenter_on_startup : bool :=
  negb (value_or (getSetting P "recenter_on_startup") 1 =? 0).

(** The contract of [xrCreateReferenceSpace] on which a creation runs to
    its end: on the handle of a created session it succeeds. *)
Definition space_creation_succeeds : Prop :=
  forall (spaceInfo : XrReferenceSpaceCreateInfo) (rt : Runtime),
    m_sessionCreated rt = true ->
    XR_FAILED (fst (fst (xrCreateReferenceSpace C 1 spaceInfo rt))) = false.

(** The world in which the view space is destroyed: the origin space has
    been destroyed and its handle cleared. *)
Definition origin_destroyed (w : World) : World :=
  stored L.m_originSpace XR_NULL_HANDLE
    (called (DestroySpace (m_originSpace w))
       (snd (xrDestroySpace C (m_originSpace w) w)) w).

(** The world in which the swapchains are destroyed: the handle is
    accepted, the clock read and the usage record given. *)
Definition usage_logged (w : World) : World :=
  logged (LogUsage (double_sub (device_clock P (w_ticks w)) (m_sessionStartTime w))
            (m_sessionTotalFrameCount w))
    (ticked (traced "xrDestroySession" w)).

(** A run of the loop of [xrDestroySession] that leaves the loop: the
    swapchains of [destroyed] were, one after the other, the first of the
    set as the call before left it, the destruction of each succeeded, and
    the set was empty after the last. *)
Inductive swapchains_destroyed : World -> list XrSwapchain -> World -> Prop :=
| destroyed_all (w : World) :
    m_swapchains w = [] -> swapchains_destroyed w [] w
| destroyed_first (w w' : World) (first : XrSwapchain) (rest destroyed : list XrSwapchain) :
    m_swapchains w = first :: rest ->
    XR_FAILED (fst (xrDestroySwapchain C first w)) = false ->
    swapchains_destroyed
      (called (DestroySwapchain first) (snd (xrDestroySwapchain C first w)) w) destroyed w' ->
    swapchains_destroyed w (first :: destroyed) w'.

(** A [xrDestroySwapchain] that erases from the set the swapchain it is
    called on, the first of the set, and no other. *)
Definition swapchain_destruction_erases : Prop :=
  forall (rt : Runtime) (first : XrSwapchain) (rest : list XrSwapchain),
    m_swapchains rt = first :: rest ->
    m_swapchains (snd (xrDestroySwapchain C first rt)) = rest.

(** A [xrDestroySwapchain] that, called on the first swapchain of the
    set, reports success and leaves a swapchain in the set; so does one
    that erases nothing. *)
Definition swapchain_destruction_leaves_one : Prop :=
  forall (rt : Runtime) (first : XrSwapchain) (rest : list XrSwapchain),
    m_swapchains rt = first :: rest ->
    XR_FAILED (fst (xrDestroySwapchain C first rt)) = false
    /\ m_swapchains (snd (xrDestroySwapchain C first rt)) <> [].

(** A value with its sign bit set, or a NaN. *)
Definition is_negative_or_nan (x : spec_float) : bool :=
  match x with
  | S754_zero s | S754_infinity s | S754_finite s _ _ => s
  | S754_nan => true
  end.

Definition is_positive_finite (x : spec_float) : bool :=
  match x with
  | S754_finite false _ _ => true
  | _ => false
  end.

End Runtime.

Arguments Others : clear implicits.
Arguments Runtime : clear implicits.
Arguments World : clear implicits.
Arguments Collaborators : clear implicits.
Arguments M : clear implicits.

(** ** A runtime to run the statements on

    Collaborators that succeed, an SDK whose clock reads 0, 1, 2, ...
    seconds, an empty registry, and an instance with the D3D11 and Vulkan
    extensions enabled. *)

Module Sample.

Definition Ext : Type := list Z.

Definition keep (rt : Runtime Ext) : Others Ext := rt_others rt.

Definition erase_first (rt : Runtime Ext) : Others Ext :=
  {| m_swapchains := tl (m_swapchains rt); m_ext := m_ext rt |}.

Definition C : Collaborators Ext :=
  {| initializeD3D11 := fun _ rt => (XR_SUCCESS, keep rt);
     initializeD3D12 := fun _ rt => (XR_SUCCESS, keep rt);
     initializeVulkan := fun _ rt => (XR_SUCCESS, keep rt);
     initializeOpenGL := fun _ rt => (XR_SUCCESS, keep rt);
     cleanupOpenGL := keep;
     cleanupVulkan := keep;
     cleanupD3D12 := keep;
     cleanupD3D11 := keep;
     isD3D12Session := fun _ => false;
     isVulkanSession := fun _ => false;
     isOpenGLSession := fun _ => false;
     rebindControllerActions := fun _ rt => keep rt;
     xrCreateReferenceSpace := fun _ spaceInfo rt =>
       ((XR_SUCCESS, Some (100 + si_referenceSpaceType spaceInfo)), keep rt);
     xrDestroySwapchain := fun _ rt => (XR_SUCCESS, erase_first rt);
     xrDestroySpace := fun _ rt => (XR_SUCCESS, keep rt) |}.

(** The same, with a D3D11 initializer that fails. *)
Definition C_d3d11_fails : Collaborators Ext :=
  {| initializeD3D11 := fun _ rt => (-2, keep rt);
     initializeD3D12 := initializeD3D12 C;
     initializeVulkan := initializeVulkan C;
     initializeOpenGL := initializeOpenGL C;
     cleanupOpenGL := keep;
     cleanupVulkan := keep;
     cleanupD3D12 := keep;
     cleanupD3D11 := keep;
     isD3D12Session := fun _ => false;
     isVulkanSession := fun _ => false;
     isOpenGLSession := fun _ => false;
     rebindControllerActions := fun _ rt => keep rt;
     xrCreateReferenceSpace := xrCreateReferenceSpace C;
     xrDestroySwapchain := xrDestroySwapchain C;
     xrDestroySpace := xrDestroySpace C |}.

(** The same, with a view space that cannot be created. *)
Definition C_view_fails : Collaborators Ext :=
  {| initializeD3D11 := initializeD3D11 C;
     initializeD3D12 := initializeD3D12 C;
     initializeVulkan := initializeVulkan C;
     initializeOpenGL := initializeOpenGL C;
     cleanupOpenGL := keep;
     cleanupVulkan := keep;
     cleanupD3D12 := keep;
     cleanupD3D11 := keep;
     isD3D12Session := fun _ => false;
     isVulkanSession := fun _ => false;
     isOpenGLSession := fun _ => false;
     rebindControllerActions := fun _ rt => keep rt;
     xrCreateReferenceSpace := fun _ spaceInfo rt =>
       if si_referenceSpaceType spaceInfo =? XR_REFERENCE_SPACE_TYPE_VIEW
       then ((-2, None), keep rt)
       else ((XR_SUCCESS, Some (100 + si_referenceSpaceType spaceInfo)), keep rt);
     xrDestroySwapchain := xrDestroySwapchain C;
     xrDestroySpace := xrDestroySpace C |}.

Definition double_of_Z (n : Z) : double := binary_normalize prec64 emax64 n 0 false.

(** 11.11 as a [double]. *)
Definition eleven_point_eleven : double :=
  SFdiv prec64 emax64 (double_of_Z 1111) (double_of_Z 100).

Definition P : Platform :=
  {| device_clock := fun n => double_of_Z (Z.of_nat n);
     pvr_recenterTrackingOrigin := fun _ => pvr_success;
     pvr_getIntConfig := fun _ _ default => default;
     getSetting := fun _ => None;
     uint64_out_of_range := fun _ => 0 |}.

(** The same platform with [frame_time_override_multiplier] set to 50. *)
Definition P_multiplier_50 : Platform :=
  {| device_clock := device_clock P;
     pvr_recenterTrackingOrigin := pvr_recenterTrackingOrigin P;
     pvr_getIntConfig := pvr_getIntConfig P;
     getSetting := fun key =>
       if String.eqb key "frame_time_override_multiplier" then Some 50 else None;
     uint64_out_of_range := uint64_out_of_range P |}.

Definition instance : InstanceState :=
  {| m_instanceCreated := true;
     m_systemCreated := true;
     m_graphicsRequirementQueried := true;
     has_XR_KHR_D3D11_enable := true;
     has_XR_KHR_D3D12_enable := false;
     has_XR_KHR_vulkan_enable := true;
     has_XR_KHR_vulkan_enable2 := false;
     has_XR_KHR_opengl_enable := false;
     m_pvr := 1;
     m_pvrSession := 1;
     m_frameDuration := eleven_point_eleven |}.

Definition no_session : SessionState :=
  {| m_sessionCreated := false;
     m_sessionState := XR_SESSION_STATE_UNKNOWN;
     m_sessionStateDirty := false;
     m_sessionStateEventTime := S754_zero false;
     m_sessionExiting := false;
     m_sessionStartTime := S754_zero false;
     m_sessionTotalFrameCount := 0;
     m_originSpace := XR_NULL_HANDLE;
     m_viewSpace := XR_NULL_HANDLE |}.

Definition frame : FrameState :=
  {| m_frameWaited := true;
     m_frameBegun := true;
     m_lastFrameWaitedTime := Some (S754_zero false);
     m_frameTimes := [S754_zero false];
     m_isControllerActive_0 := true;
     m_isControllerActive_1 := true;
     m_activeActionSets := [3];
     m_validActionSets := [3] |}.

Definition settings : Settings :=
  {| m_useParallelProjection := false;
     m_joystickDeadzone := S754_zero false;
     m_swapGripAimPoses := false;
     m_forcedInteractionProfile := None;
     m_gpuFrameTimeOverrideOffsetUs := 0;
     m_gpuFrameTimeOverrideUs := 0;
     m_gpuFrameTimeFilterLength := 0 |}.

(** No session yet. *)
Definition fresh : World Ext :=
  {| w_rt := {| rt_instance := instance; rt_session := no_session; rt_frame := frame;
                rt_settings := settings;
                rt_others := {| m_swapchains := []; m_ext := [] |} |};
     w_ticks := 0;
     w_log := [] |}.

(** A session in the given state that owns two swapchains. *)
Definition session_in (state : XrSessionState) : World Ext :=
  {| w_rt := {| rt_instance := instance;
                rt_session :=
                  {| m_sessionCreated := true;
                     m_sessionState := state;
                     m_sessionStateDirty := false;
                     m_sessionStateEventTime := S754_zero false;
                     m_sessionExiting := false;
                     m_sessionStartTime := S754_zero false;
                     m_sessionTotalFrameCount := 12;
                     m_originSpace := 102;
                     m_viewSpace := 101 |};
                rt_frame := frame;
                rt_settings := settings;
                rt_others := {| m_swapchains := [7; 9]; m_ext := [] |} |};
     w_ticks := 1;
     w_log := [] |}.

Definition d3d11_entry : XrBaseInStructure :=
  {| e_type := XR_TYPE_GRAPHICS_BINDING_D3D11_KHR; e_body := [11] |}.

Definition vulkan_entry : XrBaseInStructure :=
  {| e_type := XR_TYPE_GRAPHICS_BINDING_VULKAN_KHR; e_body := [21; 22; 23; 0; 0] |}.

(** An entry of the chain that is no graphics binding. *)
Definition other_entry : XrBaseInStructure :=
  {| e_type := 1000039000; e_body := [] |}.

Definition createInfo (chain : list XrBaseInStructure) : XrSessionCreateInfo :=
  {| ci_type := XR_TYPE_SESSION_CREATE_INFO; ci_next := chain;
     ci_createFlags := 0; ci_systemId := 1 |}.

Definition stereo : XrSessionBeginInfo :=
  {| bi_type := XR_TYPE_SESSION_BEGIN_INFO;
     bi_primaryViewConfigurationType := XR_VIEW_CONFIGURATION_TYPE_PRIMARY_STEREO |}.

Definition untagged : XrSessionBeginInfo :=
  {| bi_type := 0;
     bi_primaryViewConfigurationType := XR_VIEW_CONFIGURATION_TYPE_PRIMARY_STEREO |}.

(** The same collaborators, with swapchains that cannot be destroyed. *)
Definition C_swapchain_fails : Collaborators Ext :=
  {| initializeD3D11 := initializeD3D11 C;
     initializeD3D12 := initializeD3D12 C;
     initializeVulkan := initializeVulkan C;
     initializeOpenGL := initializeOpenGL C;
     cleanupOpenGL := keep;
     cleanupVulkan := keep;
     cleanupD3D12 := keep;
     cleanupD3D11 := keep;
     isD3D12Session := fun _ => false;
     isVulkanSession := fun _ => false;
     isOpenGLSession := fun _ => false;
     rebindControllerActions := fun _ rt => keep rt;
     xrCreateReferenceSpace := xrCreateReferenceSpace C;
     xrDestroySwapchain := fun _ rt => (-2, keep rt);
     xrDestroySpace := xrDestroySpace C |}.

(** The same, with a [xrDestroySwapchain] that reports success and erases
    nothing. *)
Definition C_swapchain_stays : Collaborators Ext :=
  {| initializeD3D11 := initializeD3D11 C;
     initializeD3D12 := initializeD3D12 C;
     initializeVulkan := initializeVulkan C;
     initializeOpenGL := initializeOpenGL C;
     cleanupOpenGL := keep;
     cleanupVulkan := keep;
     cleanupD3D12 := keep;
     cleanupD3D11 := keep;
     isD3D12Session := fun _ => false;
     isVulkanSession := fun _ => false;
     isOpenGLSession := fun _ => false;
     rebindControllerActions := fun _ rt => keep rt;
     xrCreateReferenceSpace := xrCreateReferenceSpace C;
     xrDestroySwapchain := fun _ rt => (XR_SUCCESS, keep rt);
     xrDestroySpace := xrDestroySpace C |}.

(** The same, with a [xrDestroySpace] that accepts the handles 101 and 102
    and no other. *)
Definition C_validating : Collaborators Ext :=
  {| initializeD3D11 := initializeD3D11 C;
     initializeD3D12 := initializeD3D12 C;
     initializeVulkan := initializeVulkan C;
     initializeOpenGL := initializeOpenGL C;
     cleanupOpenGL := keep;
     cleanupVulkan := keep;
     cleanupD3D12 := keep;
     cleanupD3D11 := keep;
     isD3D12Session := fun _ => false;
     isVulkanSession := fun _ => false;
     isOpenGLSession := fun _ => false;
     rebindControllerActions := fun _ rt => keep rt;
     xrCreateReferenceSpace := xrCreateReferenceSpace C;
     xrDestroySwapchain := xrDestroySwapchain C;
     xrDestroySpace := fun space rt =>
       (if (space =? 101) || (space =? 102) then XR_SUCCESS else XR_ERROR_HANDLE_INVALID,
        keep rt) |}.

(** The same, with a view space (the handle 101) that cannot be
    destroyed. *)
Definition C_view_stays : Collaborators Ext :=
  {| initializeD3D11 := initializeD3D11 C;
     initializeD3D12 := initializeD3D12 C;
     initializeVulkan := initializeVulkan C;
     initializeOpenGL := initializeOpenGL C;
     cleanupOpenGL := keep;
     cleanupVulkan := keep;
     cleanupD3D12 := keep;
     cleanupD3D11 := keep;
     isD3D12Session := fun _ => false;
     isVulkanSession := fun _ => false;
     isOpenGLSession := fun _ => false;
     rebindControllerActions := fun _ rt => keep rt;
     xrCreateReferenceSpace := xrCreateReferenceSpace C;
     xrDestroySwapchain := xrDestroySwapchain C;
     xrDestroySpace := fun space rt =>
       (if space =? 101 then -2 else XR_SUCCESS, keep rt) |}.

(** The platform with a recentering that fails. *)
Definition P_recenter_fails : Platform :=
  {| device_clock := device_clock P;
     pvr_recenterTrackingOrigin := fun _ => -1;
     pvr_getIntConfig := pvr_getIntConfig P;
     getSetting := getSetting P;
     uint64_out_of_range := uint64_out_of_range P |}.

(** The platform with [frame_time_override_multiplier] set to -50, and a
    conversion to [uint64_t] that takes a value out of range modulo 2^64,
    as a conversion through a signed 64-bit integer does for a value
    above -2^63. *)
Definition P_multiplier_minus_50 : Platform :=
  {| device_clock := device_clock P;
     pvr_recenterTrackingOrigin := pvr_recenterTrackingOrigin P;
     pvr_getIntConfig := pvr_getIntConfig P;
     getSetting := fun key =>
       if String.eqb key "frame_time_override_multiplier" then Some (-50) else None;
     uint64_out_of_range := fun x =>
       match trunc x with
       | Some z => z mod 2 ^ 64
       | None => 0
       end |}.

(** The platform with [frame_time_override_multiplier] set to 3. *)
Definition P_multiplier_3 : Platform :=
  {| device_clock := device_clock P;
     pvr_recenterTrackingOrigin := pvr_recenterTrackingOrigin P;
     pvr_getIntConfig := pvr_getIntConfig P;
     getSetting := fun key =>
       if String.eqb key "frame_time_override_multiplier" then Some 3 else None;
     uint64_out_of_range := uint64_out_of_range P |}.

(** The platform with a device clock that reads 5 seconds at every
    reading: it does not go back, and it does not advance. *)
Definition P_constant_clock : Platform :=
  {| device_clock := fun _ => double_of_Z 5;
     pvr_recenterTrackingOrigin := pvr_recenterTrackingOrigin P;
     pvr_getIntConfig := pvr_getIntConfig P;
     getSetting := getSetting P;
     uint64_out_of_range := uint64_out_of_range P |}.

End Sample.

(** ** Proof tools *)

Lemma XrSessionState_eqb_eq (a b : XrSessionState) :
  XrSessionState_eqb a b = true <-> a = b.
Proof. destruct a, b; simpl; split; intros H; try reflexivity; discriminate H. Qed.

Lemma XrSessionState_eqb_neq (a b : XrSessionState) :
  XrSessionState_eqb a b = false <-> a <> b.
Proof.
  rewrite <- XrSessionState_eqb_eq. destruct (XrSessionState_eqb a b); split; intros H.
  - discriminate H.
  - exfalso; apply H; reflexivity.
  - intros H'; discriminate H'.
  - reflexivity.
Qed.

(** An invalid handle, as the four entry points test it. *)
Lemma handle_test (created : bool) (session : XrSession) :
  created = false \/ session <> 1 ->
  negb created || negb (session =? 1) = true.
Proof.
  intros [-> | H]; [reflexivity |].
  apply Z.eqb_neq in H. rewrite H. apply orb_true_r.
Qed.

(** Unfolds the monad, so that a computation applied to a world reduces. *)
Ltac run :=
  unfold bind, ret, this, emit, assign, throw, exhausted, call, call_void,
    pvr_getTimeSeconds, traced, logged, stored, transition; cbn.

Section Proofs.

Context {Ext : Type} (C : Collaborators Ext) (P : Platform).


(** *** Observations that a computation preserves *)

Section Preserves.

Context {X : Type} (f : World Ext -> X).

Lemma preserves_ret {A : Type} (a : A) : preserves f (ret a).
Proof. intros w. reflexivity. Qed.

Lemma preserves_throw {A : Type} (e : Exn) : preserves f (@throw Ext A e).
Proof. intros w. reflexivity. Qed.

Lemma preserves_this : preserves f this.
Proof. intros w. reflexivity. Qed.

Lemma preserves_bind {A B : Type} (c : M Ext A) (k : A -> M Ext B) :
  preserves f c -> (forall a, preserves f (k a)) -> preserves f (bind c k).
Proof.
  intros Hc Hk w. unfold bind. specialize (Hc w).
  destruct (c w) as [[a | e |] w1]; cbn in *; try assumption.
  rewrite Hk. assumption.
Qed.

Lemma preserves_try_catch {A : Type} (c : M Ext A) (h : Exn -> M Ext A) :
  preserves f c -> (forall e, preserves f (h e)) -> preserves f (try_catch c h).
Proof.
  intros Hc Hh w. unfold try_catch. specialize (Hc w).
  destruct (c w) as [[a | e |] w1]; cbn in *; try assumption.
  rewrite Hh. assumption.
Qed.

Lemma preserves_CHECK_XRCMD (cmd : M Ext XrResult) :
  preserves f cmd -> preserves f (CHECK_XRCMD cmd).
Proof.
  intros H. unfold CHECK_XRCMD. apply preserves_bind; [assumption |].
  intros r. destruct (XR_FAILED r); [apply preserves_throw | apply preserves_ret].
Qed.

Lemma preserves_CHECK_PVRCMD (cmd : M Ext pvrResult) :
  preserves f cmd -> preserves f (CHECK_PVRCMD cmd).
Proof.
  intros H. unfold CHECK_PVRCMD. apply preserves_bind; [assumption |].
  intros r. destruct (negb (r =? pvr_success)); [apply preserves_throw | apply preserves_ret].
Qed.

End Preserves.

(** Splits a computation along its binds and branches; what is left are
    the primitive steps, which computation decides when the observation
    does not look at what they change. *)
Ltac preserve :=
  repeat
    match goal with
    | |- preserves _ (bind _ _) => apply preserves_bind; [| intro]
    | |- preserves _ (ret _) => apply preserves_ret
    | |- preserves _ (throw _) => apply preserves_throw
    | |- preserves _ this => apply preserves_this
    | |- preserves _ (try_catch _ _) => apply preserves_try_catch; [| intro]
    | |- preserves _ (CHECK_XRCMD _) => apply preserves_CHECK_XRCMD
    | |- preserves _ (CHECK_PVRCMD _) => apply preserves_CHECK_PVRCMD
    | |- preserves _ (if ?b then _ else _) => destruct b
    | |- preserves _ (match ?o with Some _ => _ | None => _ end) => destruct o
    | |- preserves _ (assign _ _) => intros ?w; reflexivity
    | |- preserves _ (emit _) => intros ?w; reflexivity
    | |- preserves _ (call_void _ _) => intros ?w; reflexivity
    | |- preserves _ (pvr_getTimeSeconds _) => intros ?w; reflexivity
    | |- preserves _ (call _ ?f) =>
        let w := fresh "w" in
        intros w; unfold call; destruct (f (w_rt w)); reflexivity
    end.

(** *** Computations that end *)

Section Ends.

Context (Q : Exn -> Prop).

Lemma ends_ret {A : Type} (a : A) : ends Q (@ret Ext A a).
Proof. intros w. exists w. left. exists a. reflexivity. Qed.

Lemma ends_throw {A : Type} (e : Exn) : Q e -> ends Q (@throw Ext A e).
Proof. intros H w. exists w. right. exists e. split; [exact H | reflexivity]. Qed.

Lemma ends_this : ends Q (@this Ext).
Proof. intros w. exists w. left. eexists. reflexivity. Qed.

Lemma ends_emit (ev : Event) : ends Q (@emit Ext ev).
Proof. intros w. eexists. left. eexists. reflexivity. Qed.

Lemma ends_assign (m : L.Member) (v : member_type m) : ends Q (@assign Ext m v).
Proof. intros w. eexists. left. eexists. reflexivity. Qed.

Lemma ends_call {R : Type} (c : Callee) (f : Runtime Ext -> R * Others Ext) :
  ends Q (call c f).
Proof.
  intros w. unfold call. destruct (f (w_rt w)) as [r o].
  eexists. left. eexists. reflexivity.
Qed.

Lemma ends_call_void (c : Callee) (f : Runtime Ext -> Others Ext) : ends Q (call_void c f).
Proof. intros w. eexists. left. eexists. reflexivity. Qed.

Lemma ends_pvr_getTimeSeconds : ends Q (@pvr_getTimeSeconds Ext P).
Proof. intros w. eexists. left. eexists. reflexivity. Qed.

Lemma ends_bind {A B : Type} (c : M Ext A) (k : A -> M Ext B) :
  ends Q c -> (forall a, ends Q (k a)) -> ends Q (bind c k).
Proof.
  intros Hc Hk w. unfold bind.
  destruct (Hc w) as (w1 & [(a & ->) | (e & He & ->)]).
  - apply Hk.
  - exists w1. right. exists e. split; [exact He | reflexivity].
Qed.

Lemma ends_CHECK_PVRCMD (cmd : M Ext pvrResult) :
  (forall r, Q (PvrCmdFailed r)) -> ends Q cmd -> ends Q (CHECK_PVRCMD cmd).
Proof.
  intros HQ H. unfold CHECK_PVRCMD. apply ends_bind; [exact H |].
  intros r. destruct (negb (r =? pvr_success)); [apply ends_throw, HQ | apply ends_ret].
Qed.

End Ends.

Ltac ending :=
  repeat
    match goal with
    | |- ends _ (bind _ _) => apply ends_bind; [| intro]
    | |- ends _ (ret _) => apply ends_ret
    | |- ends _ this => apply ends_this
    | |- ends _ (CHECK_PVRCMD _) => apply ends_CHECK_PVRCMD; [intro; eexists; reflexivity |]
    | |- ends _ (if ?b then _ else _) => destruct b
    | |- ends _ (assign _ _) => apply ends_assign
    | |- ends _ (emit _) => apply ends_emit
    | |- ends _ (call_void _ _) => apply ends_call_void
    | |- ends _ (call _ _) => apply ends_call
    | |- ends _ (pvr_getTimeSeconds _) => apply ends_pvr_getTimeSeconds
    end.

(** *** The equations of the monad *)

Lemma bind_bind {A B D : Type} (c : M Ext A) (k1 : A -> M Ext B) (k2 : B -> M Ext D)
    (w : World Ext) :
  bind (bind c k1) k2 w = bind c (fun a => bind (k1 a) k2) w.
Proof. unfold bind. destruct (c w) as [[a | e |] w1]; reflexivity. Qed.

Lemma bind_ret {A B : Type} (a : A) (k : A -> M Ext B) (w : World Ext) :
  bind (ret a) k w = k a w.
Proof. reflexivity. Qed.

Lemma bind_throw {A B : Type} (e : Exn) (k : A -> M Ext B) (w : World Ext) :
  bind (throw e) k w = (Throw e, w).
Proof. reflexivity. Qed.

Lemma bind_this {B : Type} (k : Runtime Ext -> M Ext B) (w : World Ext) :
  bind this k w = k (w_rt w) w.
Proof. reflexivity. Qed.

Lemma bind_emit {B : Type} (ev : Event) (k : unit -> M Ext B) (w : World Ext) :
  bind (emit ev) k w = k tt (logged ev w).
Proof. reflexivity. Qed.

Lemma bind_assign {B : Type} (m : L.Member) (v : member_type m) (k : unit -> M Ext B)
    (w : World Ext) :
  bind (assign m v) k w = k tt (stored m v w).
Proof. reflexivity. Qed.

Lemma bind_call {R B : Type} (c : Callee) (f : Runtime Ext -> R * Others Ext)
    (k : R -> M Ext B) (w : World Ext) :
  bind (call c f) k w = k (fst (f w)) (called c (snd (f w)) w).
Proof. unfold bind, call, called. destruct (f w) as [r o]. reflexivity. Qed.

Lemma bind_call_void {B : Type} (c : Callee) (f : Runtime Ext -> Others Ext)
    (k : unit -> M Ext B) (w : World Ext) :
  bind (call_void c f) k w = k tt (called c (f w) w).
Proof. reflexivity. Qed.

Lemma bind_pvr_getTimeSeconds {B : Type} (k : double -> M Ext B) (w : World Ext) :
  bind (pvr_getTimeSeconds P) k w = k (device_clock P (w_ticks w)) (ticked w).
Proof. reflexivity. Qed.

Lemma run_ret {A : Type} (a : A) (w : World Ext) : ret a w = (Ret a, w).
Proof. reflexivity. Qed.

Lemma run_throw {A : Type} (e : Exn) (w : World Ext) : @throw Ext A e w = (Throw e, w).
Proof. reflexivity. Qed.

Lemma run_assign (m : L.Member) (v : member_type m) (w : World Ext) :
  assign m v w = (Ret tt, stored m v w).
Proof. reflexivity. Qed.

Lemma run_emit (ev : Event) (w : World Ext) : emit ev w = (Ret tt, logged ev w).
Proof. reflexivity. Qed.

Lemma run_try_catch {A : Type} (c : M Ext A) (h : Exn -> M Ext A) (w : World Ext) :
  try_catch c h w
  = match c w with
    | (Throw e, w') => h e w'
    | r => r
    end.
Proof. reflexivity. Qed.

(** Runs a computation on a world step by step; the worlds stay written
    with [stored], [logged], [called] and [ticked]. *)
Ltac exec :=
  repeat
    (first
       [ rewrite bind_bind | rewrite bind_ret | rewrite bind_throw | rewrite bind_this
       | rewrite bind_emit | rewrite bind_assign | rewrite bind_call
       | rewrite bind_call_void | rewrite bind_pvr_getTimeSeconds
       | rewrite run_ret | rewrite run_throw | rewrite run_assign | rewrite run_emit
       | rewrite run_try_catch ];
     cbv beta).

(** *** The state machine *)

(** C4. [xrBeginSession] tests, in this order, the structure tag
    (validation failure), the session handle (handle invalid), the primary
    view configuration type (view configuration type unsupported) and the
    current state, which has to be idle or ready (session not ready; so it
    is from focused); a failed test leaves the runtime object as it was.
    When all pass the state becomes synchronized. *)
Theorem xrBeginSession_checks_in_order
    (session : XrSession) (beginInfo : XrSessionBeginInfo) (w : World Ext) :
  (bi_type beginInfo <> XR_TYPE_SESSION_BEGIN_INFO ->
   xrBeginSession P session beginInfo w = (Ret XR_ERROR_VALIDATION_FAILURE, w))
  /\ (bi_type beginInfo = XR_TYPE_SESSION_BEGIN_INFO ->
      m_sessionCreated w = false \/ session <> 1 ->
      xrBeginSession P session beginInfo w
      = (Ret XR_ERROR_HANDLE_INVALID, traced "xrBeginSession" w))
  /\ (bi_type beginInfo = XR_TYPE_SESSION_BEGIN_INFO ->
      m_sessionCreated w = true -> session = 1 ->
      bi_primaryViewConfigurationType beginInfo <> XR_VIEW_CONFIGURATION_TYPE_PRIMARY_STEREO ->
      xrBeginSession P session beginInfo w
      = (Ret XR_ERROR_VIEW_CONFIGURATION_TYPE_UNSUPPORTED, traced "xrBeginSession" w))
  /\ (bi_type beginInfo = XR_TYPE_SESSION_BEGIN_INFO ->
      m_sessionCreated w = true -> session = 1 ->
      bi_primaryViewConfigurationType beginInfo = XR_VIEW_CONFIGURATION_TYPE_PRIMARY_STEREO ->
      m_sessionState w <> XR_SESSION_STATE_IDLE ->
      m_sessionState w <> XR_SESSION_STATE_READY ->
      xrBeginSession P session beginInfo w
      = (Ret XR_ERROR_SESSION_NOT_READY, traced "xrBeginSession" w))
  /\ (bi_type beginInfo = XR_TYPE_SESSION_BEGIN_INFO ->
      m_sessionCreated w = true -> session = 1 ->
      bi_primaryViewConfigurationType beginInfo = XR_VIEW_CONFIGURATION_TYPE_PRIMARY_STEREO ->
      m_sessionState w = XR_SESSION_STATE_FOCUSED ->
      xrBeginSession P session beginInfo w
      = (Ret XR_ERROR_SESSION_NOT_READY, traced "xrBeginSession" w))
  /\ (bi_type beginInfo = XR_TYPE_SESSION_BEGIN_INFO ->
      m_sessionCreated w = true -> session = 1 ->
      bi_primaryViewConfigurationType beginInfo = XR_VIEW_CONFIGURATION_TYPE_PRIMARY_STEREO ->
      m_sessionState w = XR_SESSION_STATE_IDLE \/ m_sessionState w = XR_SESSION_STATE_READY ->
      xrBeginSession P session beginInfo w
      = (Ret XR_SUCCESS,
         transition P XR_SESSION_STATE_SYNCHRONIZED (traced "xrBeginSession" w))
      /\ m_sessionState
           (transition P XR_SESSION_STATE_SYNCHRONIZED (traced "xrBeginSession" w))
         = XR_SESSION_STATE_SYNCHRONIZED).
Proof.
  unfold xrBeginSession.
  split; [| split; [| split; [| split; [| split]]]].
  - intros H. apply Z.eqb_neq in H. rewrite H. reflexivity.
  - intros -> H. run. rewrite (handle_test _ _ H). reflexivity.
  - intros -> Hc -> H. apply Z.eqb_neq in H. run. rewrite Hc, H. reflexivity.
  - intros -> Hc -> -> Hi Hr. run.
    apply XrSessionState_eqb_neq in Hi, Hr. rewrite Hc, Hi, Hr. reflexivity.
  - intros -> Hc -> -> Hf. run. rewrite Hc, Hf. reflexivity.
  - intros -> Hc -> -> [H | H]; run; rewrite Hc, H; split; reflexivity.
Qed.

(** C5. On a valid handle of a created session [xrEndSession] fails with
    session not stopping, and changes nothing, unless the state is
    stopping; from stopping it succeeds, the state becomes idle and
    [m_sessionExiting] true, so that calling it again at once fails with
    session not stopping. *)
Theorem xrEndSession_from_stopping_only (w : World Ext) :
  m_sessionCreated w = true ->
  (m_sessionState w <> XR_SESSION_STATE_STOPPING ->
   xrEndSession P 1 w = (Ret XR_ERROR_SESSION_NOT_STOPPING, traced "xrEndSession" w))
  /\ (m_sessionState w = XR_SESSION_STATE_STOPPING ->
      let w' := transition P XR_SESSION_STATE_IDLE
                  (stored L.m_sessionExiting true (traced "xrEndSession" w)) in
      xrEndSession P 1 w = (Ret XR_SUCCESS, w')
      /\ m_sessionState w' = XR_SESSION_STATE_IDLE
      /\ m_sessionExiting w' = true
      /\ xrEndSession P 1 w'
         = (Ret XR_ERROR_SESSION_NOT_STOPPING, traced "xrEndSession" w')).
Proof.
  intros Hc. unfold xrEndSession. split.
  - intros H. apply XrSessionState_eqb_neq in H. run. rewrite Hc, H. reflexivity.
  - intros H. run. rewrite Hc, H. cbn. repeat split.
Qed.

(** C6. On a valid handle of a created session [xrRequestExitSession]
    succeeds from synchronized, visible and focused and makes the state
    stopping; from every other state (idle among them) it fails with
    session not running and changes nothing. *)
Theorem xrRequestExitSession_from_running_only (w : World Ext) :
  m_sessionCreated w = true ->
  (m_sessionState w = XR_SESSION_STATE_SYNCHRONIZED
   \/ m_sessionState w = XR_SESSION_STATE_VISIBLE
   \/ m_sessionState w = XR_SESSION_STATE_FOCUSED ->
   xrRequestExitSession P 1 w
   = (Ret XR_SUCCESS,
      transition P XR_SESSION_STATE_STOPPING (traced "xrRequestExitSession" w))
   /\ m_sessionState
        (transition P XR_SESSION_STATE_STOPPING (traced "xrRequestExitSession" w))
      = XR_SESSION_STATE_STOPPING)
  /\ (m_sessionState w <> XR_SESSION_STATE_SYNCHRONIZED ->
      m_sessionState w <> XR_SESSION_STATE_VISIBLE ->
      m_sessionState w <> XR_SESSION_STATE_FOCUSED ->
      xrRequestExitSession P 1 w
      = (Ret XR_ERROR_SESSION_NOT_RUNNING, traced "xrRequestExitSession" w))
  /\ (m_sessionState w = XR_SESSION_STATE_IDLE ->
      xrRequestExitSession P 1 w
      = (Ret XR_ERROR_SESSION_NOT_RUNNING, traced "xrRequestExitSession" w)).
Proof.
  intros Hc. unfold xrRequestExitSession. split; [| split].
  - intros [H | [H | H]]; run; rewrite Hc, H; split; reflexivity.
  - intros Hs Hv Hf. apply XrSessionState_eqb_neq in Hs, Hv, Hf.
    run. rewrite Hc, Hs, Hv, Hf. reflexivity.
  - intros H. run. rewrite Hc, H. reflexivity.
Qed.
(** *** The scan of the chain *)

(** An entry that is not eligible is passed over. *)
Lemma scan_skip (e : XrBaseInStructure) (next : list XrBaseInStructure) (w : World Ext) :
  eligible w e = false ->
  scanGraphicsBindings C (e :: next) w = scanGraphicsBindings C next w.
Proof.
  unfold eligible. intros H.
  apply orb_false_elim in H as [H H4]. apply orb_false_elim in H as [H H3].
  apply orb_false_elim in H as [H1 H2].
  cbn [scanGraphicsBindings]. run. rewrite H1, H2, H3, H4. reflexivity.
Qed.

Lemma scan_no_eligible (chain : list XrBaseInStructure) (w : World Ext) :
  (forall e, In e chain -> eligible w e = false) ->
  scanGraphicsBindings C chain w = (Ret (inr false), w).
Proof.
  induction chain as [| e next IH]; intros H.
  - reflexivity.
  - rewrite scan_skip by (apply H; left; reflexivity).
    apply IH. intros x Hx. apply H. right. exact Hx.
Qed.

Lemma scan_eligible (e : XrBaseInStructure) (next : list XrBaseInStructure) (w : World Ext) :
  eligible w e = true ->
  scanGraphicsBindings C (e :: next) w
  = (Ret (if XR_FAILED (fst (run_initializer C e w))
          then inl (fst (run_initializer C e w)) else inr true),
     initialized C e w).
Proof.
  unfold eligible, initialized, run_initializer, initializer_call.
  cbn [scanGraphicsBindings]. run. intros H.
  destruct (e_type e =? XR_TYPE_GRAPHICS_BINDING_D3D11_KHR) eqn:E1.
  { apply Z.eqb_eq in E1. rewrite E1 in *. cbn in H |- *.
    destruct (has_XR_KHR_D3D11_enable w); cbn in H |- *.
    - destruct (initializeD3D11 C (e_body e) w) as [r o]. cbn.
      destruct (XR_FAILED r); reflexivity.
    - rewrite ?andb_false_r in H. discriminate H. }
  destruct (e_type e =? XR_TYPE_GRAPHICS_BINDING_D3D12_KHR) eqn:E2.
  { apply Z.eqb_eq in E2. rewrite E2 in *. cbn in H |- *.
    rewrite andb_false_r in H |- *. cbn in H |- *.
    destruct (has_XR_KHR_D3D12_enable w); cbn in H |- *.
    - destruct (initializeD3D12 C (e_body e) w) as [r o]. cbn.
      destruct (XR_FAILED r); reflexivity.
    - rewrite ?andb_false_r in H. discriminate H. }
  destruct (e_type e =? XR_TYPE_GRAPHICS_BINDING_VULKAN_KHR) eqn:E3.
  { apply Z.eqb_eq in E3. rewrite E3 in *. cbn in H |- *.
    rewrite ?andb_false_r in H |- *. cbn in H |- *.
    destruct (has_XR_KHR_vulkan_enable w || has_XR_KHR_vulkan_enable2 w); cbn in H |- *.
    - destruct (initializeVulkan C (e_body e) w) as [r o]. cbn.
      destruct (XR_FAILED r); reflexivity.
    - rewrite ?andb_false_r in H. discriminate H. }
  rewrite ?andb_false_r in H |- *. cbn in H |- *.
  destruct (has_XR_KHR_opengl_enable w && (e_type e =? XR_TYPE_GRAPHICS_BINDING_OPENGL_WIN32_KHR));
    [| discriminate H].
  destruct (initializeOpenGL C (e_body e) w) as [r o]. cbn.
  destruct (XR_FAILED r); reflexivity.
Qed.

Lemma scan_first_eligible (pre : list XrBaseInStructure) (e : XrBaseInStructure)
    (post : list XrBaseInStructure) (w : World Ext) :
  (forall x, In x pre -> eligible w x = false) ->
  eligible w e = true ->
  scanGraphicsBindings C (pre ++ e :: post) w
  = (Ret (if XR_FAILED (fst (run_initializer C e w))
          then inl (fst (run_initializer C e w)) else inr true),
     initialized C e w).
Proof.
  induction pre as [| x pre IH]; intros Hpre He.
  - apply scan_eligible. exact He.
  - cbn [app]. rewrite scan_skip by (apply Hpre; left; reflexivity).
    apply IH; [| exact He]. intros y Hy. apply Hpre. right. exact Hy.
Qed.

(** The scan returns; when it returns a result, that is a failure. *)
Lemma scan_returns (chain : list XrBaseInStructure) (w : World Ext) :
  exists x w', scanGraphicsBindings C chain w = (Ret x, w')
               /\ match x with inl r => XR_FAILED r = true | inr _ => True end.
Proof.
  induction chain as [| e next IH].
  - exists (inr false), w. split; [reflexivity | exact I].
  - destruct (eligible w e) eqn:He.
    + rewrite (scan_eligible _ _ _ He).
      destruct (XR_FAILED (fst (run_initializer C e w))) eqn:Hr;
        eexists; eexists; (split; [reflexivity |]); [exact Hr | exact I].
    + rewrite (scan_skip _ _ _ He). exact IH.
Qed.
(** *** The preconditions of [xrCreateSession] *)

(** C1. [xrCreateSession] tests its preconditions in this order, each with
    an error of its own: the structure tag (validation failure), the
    instance handle (handle invalid), the system identifier (system
    invalid), the graphics requirements query (graphics requirements call
    missing), and that no session exists (limit reached).  A failed test
    ends the call with the runtime object, the session in it included, as
    it was and with nothing called. *)
Theorem xrCreateSession_preconditions_in_order
    (instance : XrInstance) (createInfo : XrSessionCreateInfo) (w : World Ext) :
  NoDup [XR_ERROR_VALIDATION_FAILURE; XR_ERROR_HANDLE_INVALID; XR_ERROR_SYSTEM_INVALID;
         XR_ERROR_GRAPHICS_REQUIREMENTS_CALL_MISSING; XR_ERROR_LIMIT_REACHED]
  /\ (ci_type createInfo <> XR_TYPE_SESSION_CREATE_INFO ->
      xrCreateSession C P instance createInfo w
      = (Ret (XR_ERROR_VALIDATION_FAILURE, None), w))
  /\ (ci_type createInfo = XR_TYPE_SESSION_CREATE_INFO ->
      m_instanceCreated w = false \/ instance <> 1 ->
      xrCreateSession C P instance createInfo w
      = (Ret (XR_ERROR_HANDLE_INVALID, None), traced "xrCreateSession" w))
  /\ (ci_type createInfo = XR_TYPE_SESSION_CREATE_INFO ->
      m_instanceCreated w = true -> instance = 1 ->
      m_systemCreated w = false \/ ci_systemId createInfo <> 1 ->
      xrCreateSession C P instance createInfo w
      = (Ret (XR_ERROR_SYSTEM_INVALID, None), traced "xrCreateSession" w))
  /\ (ci_type createInfo = XR_TYPE_SESSION_CREATE_INFO ->
      m_instanceCreated w = true -> instance = 1 ->
      m_systemCreated w = true -> ci_systemId createInfo = 1 ->
      m_graphicsRequirementQueried w = false ->
      xrCreateSession C P instance createInfo w
      = (Ret (XR_ERROR_GRAPHICS_REQUIREMENTS_CALL_MISSING, None), traced "xrCreateSession" w))
  /\ (ci_type createInfo = XR_TYPE_SESSION_CREATE_INFO ->
      m_instanceCreated w = true -> instance = 1 ->
      m_systemCreated w = true -> ci_systemId createInfo = 1 ->
      m_graphicsRequirementQueried w = true ->
      m_sessionCreated w = true ->
      xrCreateSession C P instance createInfo w
      = (Ret (XR_ERROR_LIMIT_REACHED, None), traced "xrCreateSession" w)).
Proof.
  unfold xrCreateSession.
  split; [| split; [| split; [| split; [| split]]]].
  - repeat constructor; cbn; intuition discriminate.
  - intros H. apply Z.eqb_neq in H. rewrite H. reflexivity.
  - intros -> H. run. rewrite (handle_test _ _ H). reflexivity.
  - intros -> Hi -> H. run. rewrite Hi, (handle_test _ _ H). reflexivity.
  - intros -> Hi -> Hs -> Hq. run. rewrite Hi, Hs, Hq. reflexivity.
  - intros -> Hi -> Hs -> Hq Hc. run. rewrite Hi, Hs, Hq, Hc. reflexivity.
Qed.

(** Past its preconditions, [xrCreateSession] is the scan of the chain
    followed by what the scan's result asks for. *)
Lemma create_past_preconditions
    (instance : XrInstance) (createInfo : XrSessionCreateInfo) (w : World Ext) :
  create_preconditions instance createInfo w ->
  xrCreateSession C P instance createInfo w
  = bind (scanGraphicsBindings C (ci_next createInfo))
      (fun scan =>
         match scan with
         | inl result => ret (result, None)
         | inr hasGraphicsBindings =>
             if negb hasGraphicsBindings then ret (XR_ERROR_GRAPHICS_DEVICE_INVALID, None)
             else
               bind (readConfiguration C P) (fun _ =>
               bind (resetSession C P) (fun _ =>
               bind (createReferenceSpaces C) (fun _ =>
               bind (emit (Trace "xrCreateSession")) (fun _ =>
               ret (XR_SUCCESS, Some 1)))))
         end)
      (traced "xrCreateSession" w).
Proof.
  intros (Ht & Hi & -> & Hs & Hid & Hq & Hc).
  unfold xrCreateSession. rewrite Ht, Hid.
  change (negb (XR_TYPE_SESSION_CREATE_INFO =? XR_TYPE_SESSION_CREATE_INFO)) with false.
  cbv iota.
  unfold bind at 1. unfold emit at 1. unfold bind at 1. unfold this at 1.
  cbn [w_rt w_log w_ticks]. rewrite Hi, Hs, Hq, Hc. reflexivity.
Qed.

(** *** What the blocks of [xrCreateSession] leave alone *)

Lemma bind_Ret_inv {A B : Type} (c : M Ext A) (k : A -> M Ext B) (w w' : World Ext) (b : B) :
  bind c k w = (Ret b, w') ->
  exists a w1, c w = (Ret a, w1) /\ k a w1 = (Ret b, w').
Proof.
  unfold bind. destruct (c w) as [[a | e |] w1]; intros H; try discriminate H.
  exists a, w1. split; [reflexivity | exact H].
Qed.

Lemma bind_Throw_inv {A B : Type} (c : M Ext A) (k : A -> M Ext B) (w w' : World Ext) (e : Exn) :
  bind c k w = (Throw e, w') ->
  c w = (Throw e, w') \/ exists a w1, c w = (Ret a, w1) /\ k a w1 = (Throw e, w').
Proof.
  unfold bind. destruct (c w) as [[a | e0 |] w1]; intros H; try discriminate H.
  - right. exists a, w1. split; [reflexivity | exact H].
  - left. injection H as -> ->. reflexivity.
Qed.

Lemma bind_returned {A B : Type} (c : M Ext A) (k : A -> M Ext B) (w w1 : World Ext) (a : A) :
  c w = (Ret a, w1) -> bind c k w = k a w1.
Proof. intros H. unfold bind. rewrite H. reflexivity. Qed.

Lemma is_initializer_call (e : XrBaseInStructure) :
  is_initializer (Call (initializer_call e)) = true.
Proof.
  unfold initializer_call.
  repeat match goal with |- context [if ?b then _ else _] => destruct b end; reflexivity.
Qed.

Lemma is_cleanup_call (e : XrBaseInStructure) :
  is_cleanup (Call (initializer_call e)) = false.
Proof.
  unfold initializer_call.
  repeat match goal with |- context [if ?b then _ else _] => destruct b end; reflexivity.
Qed.

Lemma readConfiguration_initializers : preserves initializers (readConfiguration C P).
Proof. unfold readConfiguration, refreshSettings, recenterTrackingOrigin. preserve. Qed.

Lemma readConfiguration_cleanups : preserves cleanups (readConfiguration C P).
Proof. unfold readConfiguration, refreshSettings, recenterTrackingOrigin. preserve. Qed.

Lemma readConfiguration_session :
  preserves (fun w : World Ext => (rt_session w, w_ticks w)) (readConfiguration C P).
Proof. unfold readConfiguration, refreshSettings, recenterTrackingOrigin. preserve. Qed.

Lemma resetSession_initializers : preserves initializers (resetSession C P).
Proof. unfold resetSession. preserve. Qed.

Lemma resetSession_cleanups : preserves cleanups (resetSession C P).
Proof. unfold resetSession. preserve. Qed.

Lemma createReferenceSpaces_initializers : preserves initializers (createReferenceSpaces C).
Proof.
  unfold createReferenceSpaces, createReferenceSpace_origin, createReferenceSpace_view.
  preserve.
Qed.

Lemma createReferenceSpaces_cleanups : preserves cleanups (createReferenceSpaces C).
Proof.
  unfold createReferenceSpaces, createReferenceSpace_origin, createReferenceSpace_view.
  preserve.
Qed.

Lemma createReferenceSpaces_state :
  preserves (fun w : World Ext =>
               (m_sessionState w, m_sessionStateDirty w, m_sessionStateEventTime w, w_ticks w))
    (createReferenceSpaces C).
Proof.
  unfold createReferenceSpaces, createReferenceSpace_origin, createReferenceSpace_view.
  preserve.
Qed.

(** What follows a scan that found a binding preserves an observation
    that each of its blocks preserves. *)
Lemma create_tail_preserves {X : Type} (f : World Ext -> X) :
  preserves f (readConfiguration C P) ->
  preserves f (resetSession C P) ->
  preserves f (createReferenceSpaces C) ->
  (forall w, f (traced "xrCreateSession" w) = f w) ->
  preserves f
    (bind (readConfiguration C P) (fun _ =>
     bind (resetSession C P) (fun _ =>
     bind (createReferenceSpaces C) (fun _ =>
     bind (emit (Trace "xrCreateSession")) (fun _ =>
     ret (XR_SUCCESS, Some 1)))))).
Proof.
  intros H1 H2 H3 H4.
  apply preserves_bind; [exact H1 | intros _].
  apply preserves_bind; [exact H2 | intros _].
  apply preserves_bind; [exact H3 | intros _].
  apply preserves_bind; [exact H4 | intros _].
  apply preserves_ret.
Qed.

Lemma create_first_eligible
    (instance : XrInstance) (createInfo : XrSessionCreateInfo) (w : World Ext)
    (pre : list XrBaseInStructure) (e : XrBaseInStructure) (post : list XrBaseInStructure) :
  create_preconditions instance createInfo w ->
  ci_next createInfo = (pre ++ e :: post)%list ->
  (forall x, In x pre -> eligible w x = false) ->
  eligible w e = true ->
  xrCreateSession C P instance createInfo w
  = if XR_FAILED (fst (run_initializer C e w))
    then (Ret (fst (run_initializer C e w), None),
          initialized C e (traced "xrCreateSession" w))
    else bind (readConfiguration C P) (fun _ =>
         bind (resetSession C P) (fun _ =>
         bind (createReferenceSpaces C) (fun _ =>
         bind (emit (Trace "xrCreateSession")) (fun _ =>
         ret (XR_SUCCESS, Some 1)))))
           (initialized C e (traced "xrCreateSession" w)).
Proof.
  intros Hpre Hchain Hskip He.
  rewrite (create_past_preconditions _ _ _ Hpre). unfold bind at 1. rewrite Hchain.
  rewrite (scan_first_eligible pre e post (traced "xrCreateSession" w) Hskip He).
  change (run_initializer C e (traced "xrCreateSession" w)) with (run_initializer C e w).
  destruct (XR_FAILED (fst (run_initializer C e w))); reflexivity.
Qed.

Lemma initialized_preserves_cleanups (e : XrBaseInStructure) (w : World Ext) :
  cleanups (initialized C e (traced "xrCreateSession" w)) = cleanups w.
Proof.
  unfold cleanups, initialized, traced. cbn [w_log filter].
  rewrite is_cleanup_call. reflexivity.
Qed.

Lemma initialized_initializers (e : XrBaseInStructure) (w : World Ext) :
  initializers (initialized C e (traced "xrCreateSession" w))
  = Call (initializer_call e) :: initializers w.
Proof.
  unfold initializers, initialized, traced. cbn [w_log filter].
  rewrite is_initializer_call. reflexivity.
Qed.

(** *** The graphics binding *)

(** C2. Past the preconditions, [xrCreateSession] scans the chain in its
    order and calls the initializer of the first eligible entry, and no
    other initializer, before or after; it returns the result of that
    initializer at once when it is a failure.  A D3D11 entry followed by a
    Vulkan entry, both eligible, initializes D3D11 only.  With no eligible
    entry the call fails with graphics device invalid and nothing was
    called. *)
Theorem xrCreateSession_first_eligible_binding
    (instance : XrInstance) (createInfo : XrSessionCreateInfo) (w : World Ext) :
  create_preconditions instance createInfo w ->
  ((forall e, In e (ci_next createInfo) -> eligible w e = false) ->
   xrCreateSession C P instance createInfo w
   = (Ret (XR_ERROR_GRAPHICS_DEVICE_INVALID, None), traced "xrCreateSession" w))
  /\ (forall (pre : list XrBaseInStructure) (e : XrBaseInStructure) (post : list XrBaseInStructure),
        ci_next createInfo = (pre ++ e :: post)%list ->
        (forall x, In x pre -> eligible w x = false) ->
        eligible w e = true ->
        initializers (snd (xrCreateSession C P instance createInfo w))
        = Call (initializer_call e) :: initializers w
        /\ (XR_FAILED (fst (run_initializer C e w)) = true ->
            xrCreateSession C P instance createInfo w
            = (Ret (fst (run_initializer C e w), None),
               initialized C e (traced "xrCreateSession" w))))
  /\ (forall (d3d11 vulkan : XrBaseInStructure) (rest : list XrBaseInStructure),
        ci_next createInfo = d3d11 :: vulkan :: rest ->
        e_type d3d11 = XR_TYPE_GRAPHICS_BINDING_D3D11_KHR ->
        e_type vulkan = XR_TYPE_GRAPHICS_BINDING_VULKAN_KHR ->
        has_XR_KHR_D3D11_enable w = true ->
        has_XR_KHR_vulkan_enable w = true ->
        initializers (snd (xrCreateSession C P instance createInfo w))
        = Call (InitializeD3D11 (e_body d3d11)) :: initializers w).
Proof.
  intros Hpre.
  assert (Hfirst : forall (pre : list XrBaseInStructure) (e : XrBaseInStructure)
                          (post : list XrBaseInStructure),
             ci_next createInfo = (pre ++ e :: post)%list ->
             (forall x, In x pre -> eligible w x = false) ->
             eligible w e = true ->
             initializers (snd (xrCreateSession C P instance createInfo w))
             = Call (initializer_call e) :: initializers w
             /\ (XR_FAILED (fst (run_initializer C e w)) = true ->
                 xrCreateSession C P instance createInfo w
                 = (Ret (fst (run_initializer C e w), None),
                    initialized C e (traced "xrCreateSession" w)))).
  { intros pre e post Hchain Hskip He.
    rewrite (create_first_eligible _ _ _ _ _ _ Hpre Hchain Hskip He).
    destruct (XR_FAILED (fst (run_initializer C e w))) eqn:Hr.
    - split; [| intros _; reflexivity]. apply initialized_initializers.
    - split; [| intros H; discriminate H].
      rewrite (create_tail_preserves initializers
                 readConfiguration_initializers resetSession_initializers
                 createReferenceSpaces_initializers (fun _ => eq_refl)).
      apply initialized_initializers. }
  split; [| split].
  - intros Hnone. rewrite (create_past_preconditions _ _ _ Hpre). unfold bind.
    rewrite (scan_no_eligible _ (traced "xrCreateSession" w) Hnone). reflexivity.
  - exact Hfirst.
  - intros d3d11 vulkan rest Hchain Hd Hv Hed Hev.
    destruct (Hfirst [] d3d11 (vulkan :: rest) Hchain) as [Hinit _].
    + intros x [].
    + unfold eligible. rewrite Hed, Hd. reflexivity.
    + rewrite Hinit. unfold initializer_call. rewrite Hd. reflexivity.
Qed.

(** *** Failure of a reference space *)

Lemma scan_found (chain : list XrBaseInStructure) (w w1 : World Ext) :
  scanGraphicsBindings C chain w = (Ret (inr true), w1) ->
  exists e, In e chain /\ eligible w e = true
            /\ XR_FAILED (fst (run_initializer C e w)) = false
            /\ w1 = initialized C e w.
Proof.
  induction chain as [| x next IH]; intros H.
  - discriminate H.
  - destruct (eligible w x) eqn:He.
    + rewrite (scan_eligible _ _ _ He) in H.
      destruct (XR_FAILED (fst (run_initializer C x w))) eqn:Hr; [discriminate H |].
      injection H as <-. exists x. repeat split; try assumption. left. reflexivity.
    + rewrite (scan_skip _ _ _ He) in H. destruct (IH H) as (e & Hin & Hrest).
      exists e. split; [right; exact Hin | exact Hrest].
Qed.

(** Either the preconditions of [xrCreateSession] hold or it returns a
    failure and stores nothing in [*session]. *)
Lemma create_preconditions_or_failure
    (instance : XrInstance) (createInfo : XrSessionCreateInfo) (w : World Ext) :
  create_preconditions instance createInfo w
  \/ exists r w1, xrCreateSession C P instance createInfo w = (Ret (r, None), w1)
                  /\ XR_FAILED r = true.
Proof.
  unfold xrCreateSession, create_preconditions.
  destruct (ci_type createInfo =? XR_TYPE_SESSION_CREATE_INFO) eqn:Ht; cbn [negb];
    [| right; eexists; eexists; split; reflexivity].
  rewrite bind_emit, bind_this. cbv beta. cbn [logged w_rt].
  destruct (m_instanceCreated w); cbn [negb orb];
    [| right; eexists; eexists; split; reflexivity].
  destruct (instance =? 1) eqn:Hi; cbn [negb orb];
    [| right; eexists; eexists; split; reflexivity].
  destruct (m_systemCreated w); cbn [negb orb];
    [| right; eexists; eexists; split; reflexivity].
  destruct (ci_systemId createInfo =? 1) eqn:Hs; cbn [negb orb];
    [| right; eexists; eexists; split; reflexivity].
  destruct (m_graphicsRequirementQueried w); cbn [negb orb];
    [| right; eexists; eexists; split; reflexivity].
  destruct (m_sessionCreated w); [right; eexists; eexists; split; reflexivity |].
  left. apply Z.eqb_eq in Ht, Hi, Hs. repeat split; assumption.
Qed.

Lemma create_throws_past_preconditions
    (instance : XrInstance) (createInfo : XrSessionCreateInfo) (w w' : World Ext) (e : Exn) :
  xrCreateSession C P instance createInfo w = (Throw e, w') ->
  create_preconditions instance createInfo w.
Proof.
  intros H.
  destruct (create_preconditions_or_failure instance createInfo w)
    as [Hpre | (r & w1 & Hr & _)]; [exact Hpre |].
  rewrite Hr in H. discriminate H.
Qed.

(** [readConfiguration] returns, unless the recentering fails. *)
Lemma readConfiguration_outcome :
  ends (fun e => exists r, e = PvrCmdFailed r) (readConfiguration C P).
Proof. unfold readConfiguration, refreshSettings, recenterTrackingOrigin. ending. Qed.

Lemma resetSession_returns (w : World Ext) :
  exists w', resetSession C P w = (Ret tt, w')
             /\ m_sessionCreated w' = true
             /\ m_sessionState w' = XR_SESSION_STATE_IDLE
             /\ m_sessionStateDirty w' = true
             /\ m_sessionStateEventTime w' = device_clock P (w_ticks w)
             /\ m_sessionStartTime w' = device_clock P (w_ticks w)
             /\ m_sessionTotalFrameCount w' = 0
             /\ w_ticks w' = S (w_ticks w).
Proof.
  unfold resetSession. exec. eexists. split; [reflexivity |]. repeat split; reflexivity.
Qed.

Lemma createReferenceSpaces_origin_fails (w : World Ext) :
  XR_FAILED (fst (fst (xrCreateReferenceSpace C 1 localSpaceInfo w))) = true ->
  exists w',
    createReferenceSpaces C w
    = (Throw (XrCmdFailed (fst (fst (xrCreateReferenceSpace C 1 localSpaceInfo w)))), w')
    /\ m_sessionCreated w' = false
    /\ hd_error (w_log w') = Some (Store L.m_sessionCreated)
    /\ rt_others w' = snd (xrCreateReferenceSpace C 1 localSpaceInfo w).
Proof.
  unfold createReferenceSpaces, createReferenceSpace_origin, CHECK_XRCMD. exec.
  destruct (xrCreateReferenceSpace C 1 localSpaceInfo w) as [[r [space |]] o];
    cbn [fst snd]; intros Hr; exec; rewrite Hr; exec;
    eexists; (split; [reflexivity |]); repeat split; reflexivity.
Qed.

Lemma createReferenceSpaces_view_fails (w : World Ext) :
  XR_FAILED (fst (fst (xrCreateReferenceSpace C 1 localSpaceInfo w))) = false ->
  XR_FAILED (fst (fst (xrCreateReferenceSpace C 1 viewSpaceInfo (origin_created C w)))) = true ->
  exists w',
    createReferenceSpaces C w
    = (Throw (XrCmdFailed
                (fst (fst (xrCreateReferenceSpace C 1 viewSpaceInfo (origin_created C w))))), w')
    /\ m_sessionCreated w' = false
    /\ hd_error (w_log w') = Some (Store L.m_sessionCreated)
    /\ rt_others w' = snd (xrCreateReferenceSpace C 1 viewSpaceInfo (origin_created C w)).
Proof.
  unfold origin_created, createReferenceSpaces, createReferenceSpace_origin,
    createReferenceSpace_view, CHECK_XRCMD. exec.
  destruct (xrCreateReferenceSpace C 1 localSpaceInfo w) as [[r [space |]] o];
    cbn [fst snd]; intros Hr; exec; rewrite Hr; exec; cbn [snd];
    match goal with
    | |- context [xrCreateReferenceSpace C 1 viewSpaceInfo ?rt] =>
        destruct (xrCreateReferenceSpace C 1 viewSpaceInfo rt) as [[r2 [space2 |]] o2]
    end; cbn [fst snd]; intros Hr2; exec; rewrite Hr2; exec;
    eexists; (split; [reflexivity |]); repeat split; reflexivity.
Qed.

Lemma createReferenceSpaces_throws (w w' : World Ext) (e : Exn) :
  createReferenceSpaces C w = (Throw e, w') ->
  m_sessionCreated w' = false
  /\ hd_error (w_log w') = Some (Store L.m_sessionCreated)
  /\ exists spaceInfo rt,
       e = XrCmdFailed (fst (fst (xrCreateReferenceSpace C 1 spaceInfo rt)))
       /\ XR_FAILED (fst (fst (xrCreateReferenceSpace C 1 spaceInfo rt))) = true.
Proof.
  destruct (XR_FAILED (fst (fst (xrCreateReferenceSpace C 1 localSpaceInfo w)))) eqn:H1.
  - destruct (createReferenceSpaces_origin_fails w H1) as (w1 & Heq & Hc & Hl & _).
    rewrite Heq. intros H. injection H as <- <-.
    repeat split; try assumption. exists localSpaceInfo, w. split; [reflexivity | exact H1].
  - destruct (XR_FAILED (fst (fst (xrCreateReferenceSpace C 1 viewSpaceInfo (origin_created C w)))))
      eqn:H2.
    + destruct (createReferenceSpaces_view_fails w H1 H2) as (w1 & Heq & Hc & Hl & _).
      rewrite Heq. intros H. injection H as <- <-.
      repeat split; try assumption.
      exists viewSpaceInfo, (origin_created C w). split; [reflexivity | exact H2].
    + revert H1 H2.
      unfold origin_created, createReferenceSpaces, createReferenceSpace_origin,
        createReferenceSpace_view, CHECK_XRCMD. exec.
      destruct (xrCreateReferenceSpace C 1 localSpaceInfo w) as [[r [space |]] o];
        cbn [fst snd]; intros Hr; exec; rewrite Hr; exec; cbn [snd];
        match goal with
        | |- context [xrCreateReferenceSpace C 1 viewSpaceInfo ?rt] =>
            destruct (xrCreateReferenceSpace C 1 viewSpaceInfo rt) as [[r2 [space2 |]] o2]
        end; cbn [fst snd]; intros Hr2; exec; rewrite Hr2; exec; discriminate.
Qed.

(** How [xrCreateSession] ends once its preconditions hold and the scan
    has found and initialized a binding: the worlds between its blocks. *)
Lemma create_Throw_inv
    (instance : XrInstance) (createInfo : XrSessionCreateInfo) (w w' : World Ext) (r : XrResult) :
  xrCreateSession C P instance createInfo w = (Throw (XrCmdFailed r), w') ->
  exists e w2 w3,
    In e (ci_next createInfo) /\ eligible w e = true
    /\ XR_FAILED (fst (run_initializer C e w)) = false
    /\ readConfiguration C P (initialized C e (traced "xrCreateSession" w)) = (Ret tt, w2)
    /\ resetSession C P w2 = (Ret tt, w3)
    /\ createReferenceSpaces C w3 = (Throw (XrCmdFailed r), w').
Proof.
  intros H. pose proof (create_throws_past_preconditions _ _ _ _ _ H) as Hpre.
  rewrite (create_past_preconditions _ _ _ Hpre) in H.
  apply bind_Throw_inv in H as [H | (scan & w1 & Hscan & H)].
  { destruct (scan_returns (ci_next createInfo) (traced "xrCreateSession" w))
      as (x & w1 & Hx & _).
    rewrite Hx in H. discriminate H. }
  destruct scan as [result | [|]]; try discriminate H.
  apply scan_found in Hscan as (e & Hin & He & Hr & ->).
  cbn [negb] in H.
  apply bind_Throw_inv in H as [H | ([] & w2 & H2 & H)].
  { destruct (readConfiguration_outcome (initialized C e (traced "xrCreateSession" w)))
      as (w2 & [(a & Hw) | (x & (r' & ->) & Hw)]); rewrite Hw in H; discriminate H. }
  apply bind_Throw_inv in H as [H | ([] & w3 & H3 & H)].
  { destruct (resetSession_returns w2) as (w3 & Hw & _). rewrite Hw in H. discriminate H. }
  apply bind_Throw_inv in H as [H | ([] & w4 & H4 & H)].
  - exists e, w2, w3. repeat split; assumption.
  - discriminate H.
Qed.

(** C7. When the creation of a reference space fails (the origin space, or
    the view space after the origin space was created), the [try] block
    of [xrCreateSession] stores false in [m_sessionCreated] as its last
    step and throws that failure again, leaving the members of the
    collaborators as the failed call left them.  Whenever
    [xrCreateSession] ends with such an exception, a graphics binding had
    been initialized with success, [m_sessionCreated] is false afterwards,
    and no cleanup routine of a backend was called.  And it does end with
    the exception of its [try] block when it gets there: past the
    preconditions, with the first eligible binding initialized and the
    configuration read. *)
Theorem xrCreateSession_reference_space_failure :
  (forall w : World Ext,
      XR_FAILED (fst (fst (xrCreateReferenceSpace C 1 localSpaceInfo w))) = true ->
      exists w',
        createReferenceSpaces C w
        = (Throw (XrCmdFailed (fst (fst (xrCreateReferenceSpace C 1 localSpaceInfo w)))), w')
        /\ m_sessionCreated w' = false
        /\ hd_error (w_log w') = Some (Store L.m_sessionCreated)
        /\ rt_others w' = snd (xrCreateReferenceSpace C 1 localSpaceInfo w))
  /\ (forall w : World Ext,
         XR_FAILED (fst (fst (xrCreateReferenceSpace C 1 localSpaceInfo w))) = false ->
         XR_FAILED (fst (fst (xrCreateReferenceSpace C 1 viewSpaceInfo (origin_created C w))))
         = true ->
         exists w',
           createReferenceSpaces C w
           = (Throw (XrCmdFailed
                       (fst (fst (xrCreateReferenceSpace C 1 viewSpaceInfo (origin_created C w))))),
              w')
           /\ m_sessionCreated w' = false
           /\ hd_error (w_log w') = Some (Store L.m_sessionCreated)
           /\ rt_others w' = snd (xrCreateReferenceSpace C 1 viewSpaceInfo (origin_created C w)))
  /\ (forall (instance : XrInstance) (createInfo : XrSessionCreateInfo)
             (w w' : World Ext) (r : XrResult),
         xrCreateSession C P instance createInfo w = (Throw (XrCmdFailed r), w') ->
         (exists e, In e (ci_next createInfo) /\ eligible w e = true
                    /\ XR_FAILED (fst (run_initializer C e w)) = false
                    /\ initializers w' = Call (initializer_call e) :: initializers w)
         /\ (exists spaceInfo rt,
                r = fst (fst (xrCreateReferenceSpace C 1 spaceInfo rt)) /\ XR_FAILED r = true)
         /\ m_sessionCreated w' = false
         /\ hd_error (w_log w') = Some (Store L.m_sessionCreated)
         /\ cleanups w' = cleanups w)
  /\ (forall (instance : XrInstance) (createInfo : XrSessionCreateInfo)
             (pre : list XrBaseInStructure) (e : XrBaseInStructure)
             (post : list XrBaseInStructure) (w w2 w3 w' : World Ext) (r : XrResult),
         create_preconditions instance createInfo w ->
         ci_next createInfo = (pre ++ e :: post)%list ->
         (forall x, In x pre -> eligible w x = false) ->
         eligible w e = true ->
         XR_FAILED (fst (run_initializer C e w)) = false ->
         readConfiguration C P (initialized C e (traced "xrCreateSession" w)) = (Ret tt, w2) ->
         resetSession C P w2 = (Ret tt, w3) ->
         createReferenceSpaces C w3 = (Throw (XrCmdFailed r), w') ->
         xrCreateSession C P instance createInfo w = (Throw (XrCmdFailed r), w')).
Proof.
  split; [exact createReferenceSpaces_origin_fails |].
  split; [exact createReferenceSpaces_view_fails |].
  split.
  2: { intros instance createInfo pre e post w w2 w3 w' r Hpre Hchain Hskip He Hr H2 H3 H4.
       rewrite (create_first_eligible _ _ _ _ _ _ Hpre Hchain Hskip He), Hr.
       rewrite (bind_returned _ _ _ _ _ H2), (bind_returned _ _ _ _ _ H3).
       unfold bind. rewrite H4. reflexivity. }
  intros instance createInfo w w' r H.
  apply create_Throw_inv in H as (e & w2 & w3 & Hin & He & Hr & H2 & H3 & H4).
  pose proof (createReferenceSpaces_throws _ _ _ H4) as (Hc & Hl & spaceInfo & rt & Hx & Hf).
  injection Hx as ->.
  assert (Hobs : forall (X : Type) (f : World Ext -> X),
             preserves f (readConfiguration C P) -> preserves f (resetSession C P) ->
             preserves f (createReferenceSpaces C) ->
             f w' = f (initialized C e (traced "xrCreateSession" w))).
  { intros X f F1 F2 F3.
    specialize (F1 (initialized C e (traced "xrCreateSession" w))). rewrite H2 in F1.
    specialize (F2 w2). rewrite H3 in F2.
    specialize (F3 w3). rewrite H4 in F3. cbn in F1, F2, F3. congruence. }
  split; [| split; [| split; [| split]]].
  - exists e. repeat split; try assumption.
    rewrite (Hobs _ initializers readConfiguration_initializers resetSession_initializers
               createReferenceSpaces_initializers).
    apply initialized_initializers.
  - exists spaceInfo, rt. split; [reflexivity | exact Hf].
  - exact Hc.
  - exact Hl.
  - rewrite (Hobs _ cleanups readConfiguration_cleanups resetSession_cleanups
               createReferenceSpaces_cleanups).
    apply initialized_preserves_cleanups.
Qed.

(** *** Dirty flag and event time *)

Lemma xrBeginSession_success_inv (session : XrSession) (beginInfo : XrSessionBeginInfo)
    (w w' : World Ext) :
  xrBeginSession P session beginInfo w = (Ret XR_SUCCESS, w') ->
  w' = transition P XR_SESSION_STATE_SYNCHRONIZED (traced "xrBeginSession" w).
Proof.
  unfold xrBeginSession. run.
  repeat match goal with
         | |- context [if ?b then _ else _] => destruct b; cbn; try discriminate
         end.
  intros H. injection H as <-. reflexivity.
Qed.

Lemma xrEndSession_success_inv (session : XrSession) (w w' : World Ext) :
  xrEndSession P session w = (Ret XR_SUCCESS, w') ->
  w' = transition P XR_SESSION_STATE_IDLE
         (stored L.m_sessionExiting true (traced "xrEndSession" w)).
Proof.
  unfold xrEndSession. run.
  repeat match goal with
         | |- context [if ?b then _ else _] => destruct b; cbn; try discriminate
         end.
  intros H. injection H as <-. reflexivity.
Qed.

Lemma xrRequestExitSession_success_inv (session : XrSession) (w w' : World Ext) :
  xrRequestExitSession P session w = (Ret XR_SUCCESS, w') ->
  w' = transition P XR_SESSION_STATE_STOPPING (traced "xrRequestExitSession" w).
Proof.
  unfold xrRequestExitSession. run.
  repeat match goal with
         | |- context [if ?b then _ else _] => destruct b; cbn; try discriminate
         end.
  intros H. injection H as <-. reflexivity.
Qed.

(** A result that is no failure comes from the last statement of
    [xrCreateSession], past all of its blocks. *)
Lemma create_Ret_inv
    (instance : XrInstance) (createInfo : XrSessionCreateInfo) (w w' : World Ext)
    (result : XrResult) (out : option XrSession) :
  xrCreateSession C P instance createInfo w = (Ret (result, out), w') ->
  (XR_FAILED result = true /\ out = None)
  \/ (result = XR_SUCCESS /\ out = Some 1
      /\ exists e w2 w3 w4,
           eligible w e = true
           /\ readConfiguration C P (initialized C e (traced "xrCreateSession" w)) = (Ret tt, w2)
           /\ resetSession C P w2 = (Ret tt, w3)
           /\ createReferenceSpaces C w3 = (Ret tt, w4)
           /\ w' = traced "xrCreateSession" w4).
Proof.
  intros H.
  destruct (create_preconditions_or_failure instance createInfo w)
    as [Hpre | (r & w1 & Hr & Hf)].
  2: { rewrite Hr in H. injection H as <- <- <-. left. split; [exact Hf | reflexivity]. }
  rewrite (create_past_preconditions _ _ _ Hpre) in H.
  apply bind_Ret_inv in H as (scan & w1 & Hscan & H).
  destruct scan as [r | [|]].
  - destruct (scan_returns (ci_next createInfo) (traced "xrCreateSession" w))
      as (x & w1' & Hx & Hfail).
    rewrite Hscan in Hx. injection Hx as <- <-.
    injection H as <- <- <-. left. split; [exact Hfail | reflexivity].
  - apply scan_found in Hscan as (e & Hin & He & Hr & ->).
    cbn [negb] in H.
    apply bind_Ret_inv in H as ([] & w2 & H2 & H).
    apply bind_Ret_inv in H as ([] & w3 & H3 & H).
    apply bind_Ret_inv in H as ([] & w4 & H4 & H).
    apply bind_Ret_inv in H as ([] & w5 & H5 & H).
    injection H5 as <-. injection H as <- <- <-.
    right. repeat split. exists e, w2, w3, w4. repeat split; assumption.
  - injection H as <- <- <-. left. split; reflexivity.
Qed.

Lemma create_success
    (instance : XrInstance) (createInfo : XrSessionCreateInfo) (w w' : World Ext)
    (out : option XrSession) :
  xrCreateSession C P instance createInfo w = (Ret (XR_SUCCESS, out), w') ->
  out = Some 1
  /\ m_sessionState w' = XR_SESSION_STATE_IDLE
  /\ m_sessionStateDirty w' = true
  /\ m_sessionStateEventTime w' = device_clock P (w_ticks w)
  /\ w_ticks w' = S (w_ticks w).
Proof.
  intros H. apply create_Ret_inv in H as [[Hf _] | (_ & -> & e & w2 & w3 & w4 & He & H2 & H3 & H4 & ->)].
  { discriminate Hf. }
  split; [reflexivity |].
  pose proof (readConfiguration_session (initialized C e (traced "xrCreateSession" w))) as F2.
  rewrite H2 in F2. cbn [snd] in F2.
  change (w_ticks (initialized C e (traced "xrCreateSession" w))) with (w_ticks w) in F2.
  injection F2 as _ Hticks.
  destruct (resetSession_returns w2) as (w3' & H3' & _ & Hs & Hd & Ht & _ & _ & Hk).
  rewrite H3 in H3'. injection H3' as <-.
  pose proof (createReferenceSpaces_state w3) as F4. rewrite H4 in F4. cbn [snd] in F4.
  injection F4 as Fs Fd Ft Fk.
  change (m_sessionState (traced "xrCreateSession" w4)) with (m_sessionState w4).
  change (m_sessionStateDirty (traced "xrCreateSession" w4)) with (m_sessionStateDirty w4).
  change (m_sessionStateEventTime (traced "xrCreateSession" w4))
    with (m_sessionStateEventTime w4).
  change (w_ticks (traced "xrCreateSession" w4)) with (w_ticks w4).
  rewrite Fs, Fd, Ft, Fk, Hs, Hd, Ht, Hk, Hticks. repeat split.
Qed.

(** C8, amended.  A call of [xrCreateSession], [xrBeginSession],
    [xrEndSession] or [xrRequestExitSession] that succeeds leaves
    [m_sessionStateDirty] true and [m_sessionStateEventTime] equal to the
    reading of the device clock it took, the next one after those taken
    before the call.  So when [xrBeginSession] succeeds right after
    [xrCreateSession] succeeded, the event time of the creation is one
    reading of the clock and the event time of the beginning is the next
    reading: the second is strictly greater than the first when, and only
    when, the clock advanced between these two readings, and the two are
    equal when the readings are.  Nothing in the calls makes the second
    greater. *)
Theorem state_change_sets_dirty_and_event_time :
  (forall (instance : XrInstance) (createInfo : XrSessionCreateInfo) (w w' : World Ext)
          (out : option XrSession),
      xrCreateSession C P instance createInfo w = (Ret (XR_SUCCESS, out), w') ->
      m_sessionState w' = XR_SESSION_STATE_IDLE
      /\ m_sessionStateDirty w' = true
      /\ m_sessionStateEventTime w' = device_clock P (w_ticks w)
      /\ w_ticks w' = S (w_ticks w))
  /\ (forall (session : XrSession) (beginInfo : XrSessionBeginInfo) (w w' : World Ext),
         xrBeginSession P session beginInfo w = (Ret XR_SUCCESS, w') ->
         m_sessionState w' = XR_SESSION_STATE_SYNCHRONIZED
         /\ m_sessionStateDirty w' = true
         /\ m_sessionStateEventTime w' = device_clock P (w_ticks w)
         /\ w_ticks w' = S (w_ticks w))
  /\ (forall (session : XrSession) (w w' : World Ext),
         xrEndSession P session w = (Ret XR_SUCCESS, w') ->
         m_sessionState w' = XR_SESSION_STATE_IDLE
         /\ m_sessionStateDirty w' = true
         /\ m_sessionStateEventTime w' = device_clock P (w_ticks w)
         /\ w_ticks w' = S (w_ticks w))
  /\ (forall (session : XrSession) (w w' : World Ext),
         xrRequestExitSession P session w = (Ret XR_SUCCESS, w') ->
         m_sessionState w' = XR_SESSION_STATE_STOPPING
         /\ m_sessionStateDirty w' = true
         /\ m_sessionStateEventTime w' = device_clock P (w_ticks w)
         /\ w_ticks w' = S (w_ticks w))
  /\ (forall (instance : XrInstance) (createInfo : XrSessionCreateInfo)
             (session : XrSession) (beginInfo : XrSessionBeginInfo)
             (w w1 w2 : World Ext) (out : option XrSession),
         xrCreateSession C P instance createInfo w = (Ret (XR_SUCCESS, out), w1) ->
         xrBeginSession P session beginInfo w1 = (Ret XR_SUCCESS, w2) ->
         m_sessionStateEventTime w1 = device_clock P (w_ticks w)
         /\ m_sessionStateEventTime w2 = device_clock P (S (w_ticks w))
         /\ (double_ltb (m_sessionStateEventTime w1) (m_sessionStateEventTime w2) = true
             <-> clock_advances P (w_ticks w))
         /\ (device_clock P (S (w_ticks w)) = device_clock P (w_ticks w) ->
             m_sessionStateEventTime w2 = m_sessionStateEventTime w1)).
Proof.
  split; [| split; [| split; [| split]]].
  - intros instance createInfo w w' out H.
    apply create_success in H as (_ & H). exact H.
  - intros session beginInfo w w' H.
    apply xrBeginSession_success_inv in H as ->. repeat split.
  - intros session w w' H.
    apply xrEndSession_success_inv in H as ->. repeat split.
  - intros session w w' H.
    apply xrRequestExitSession_success_inv in H as ->. repeat split.
  - intros instance createInfo session beginInfo w w1 w2 out Hc Hb.
    apply create_success in Hc as (_ & _ & _ & Ht & Hk).
    apply xrBeginSession_success_inv in Hb as ->.
    change (m_sessionStateEventTime
              (transition P XR_SESSION_STATE_SYNCHRONIZED (traced "xrBeginSession" w1)))
      with (device_clock P (w_ticks w1)).
    rewrite Ht, Hk. unfold clock_advances.
    split; [reflexivity |]. split; [reflexivity |].
    split; [split; intros H; exact H | intros H; exact H].
Qed.

(** *** The session handle *)

(** C10, amended.  A call of [xrCreateSession] that returns no failure
    returns [XR_SUCCESS] and stores the handle 1, and one that returns a
    failure stores nothing.  With a handle other than 1, or when no
    session is created, [xrEndSession], [xrRequestExitSession] and
    [xrDestroySession] fail with handle invalid, and so does
    [xrBeginSession] when its structure tag is the expected one; with
    another tag [xrBeginSession] fails with validation failure instead.
    In each case the runtime object is left as it was. *)
Theorem session_handle_is_one :
  (forall (instance : XrInstance) (createInfo : XrSessionCreateInfo) (w w' : World Ext)
          (result : XrResult) (out : option XrSession),
      xrCreateSession C P instance createInfo w = (Ret (result, out), w') ->
      (XR_FAILED result = false -> result = XR_SUCCESS /\ out = Some 1)
      /\ (XR_FAILED result = true -> out = None))
  /\ (forall (session : XrSession) (w : World Ext),
         m_sessionCreated w = false \/ session <> 1 ->
         (forall beginInfo : XrSessionBeginInfo,
             bi_type beginInfo = XR_TYPE_SESSION_BEGIN_INFO ->
             xrBeginSession P session beginInfo w
             = (Ret XR_ERROR_HANDLE_INVALID, traced "xrBeginSession" w))
         /\ (forall beginInfo : XrSessionBeginInfo,
                bi_type beginInfo <> XR_TYPE_SESSION_BEGIN_INFO ->
                xrBeginSession P session beginInfo w = (Ret XR_ERROR_VALIDATION_FAILURE, w))
         /\ xrEndSession P session w
            = (Ret XR_ERROR_HANDLE_INVALID, traced "xrEndSession" w)
         /\ xrRequestExitSession P session w
            = (Ret XR_ERROR_HANDLE_INVALID, traced "xrRequestExitSession" w)
         /\ (forall fuel : nat,
                xrDestroySession C P fuel session w
                = (Ret XR_ERROR_HANDLE_INVALID, traced "xrDestroySession" w))).
Proof.
  split.
  - intros instance createInfo w w' result out H.
    apply create_Ret_inv in H as [[Hf ->] | (-> & -> & _)].
    + split; [intros H; rewrite H in Hf; discriminate Hf | reflexivity].
    + split; [intros _; split; reflexivity | intros H; discriminate H].
  - intros session w H. pose proof (handle_test _ _ H) as Ht.
    split; [| split; [| split; [| split]]].
    + intros beginInfo Hb. unfold xrBeginSession. rewrite Hb. run. rewrite Ht. reflexivity.
    + intros beginInfo Hb. unfold xrBeginSession. apply Z.eqb_neq in Hb. rewrite Hb.
      reflexivity.
    + unfold xrEndSession. run. rewrite Ht. reflexivity.
    + unfold xrRequestExitSession. run. rewrite Ht. reflexivity.
    + intros fuel. unfold xrDestroySession. rewrite bind_emit, bind_this. cbv beta.
      change (w_rt (logged (Trace "xrDestroySession") w)) with (w_rt w).
      rewrite Ht. reflexivity.
Qed.

(** *** Destruction *)

(** With enough steps the loop destroys the swapchains of the set one
    after the other, in the order of the set, and leaves the set empty. *)
Lemma destroyAllSwapchains_drains :
  swapchain_destruction_succeeds C ->
  forall (fuel : nat) (w : World Ext),
    (List.length (m_swapchains w) < fuel)%nat ->
    exists w1,
      destroyAllSwapchains C fuel w = (Ret tt, w1)
      /\ w_log w1
         = (rev (map (fun s => Call (DestroySwapchain s)) (m_swapchains w)) ++ w_log w)%list
      /\ m_swapchains w1 = []
      /\ rt_session w1 = rt_session w
      /\ w_ticks w1 = w_ticks w.
Proof.
  intros Hsw. induction fuel as [| fuel IH]; intros w Hlt.
  - inversion Hlt.
  - cbn [destroyAllSwapchains]. rewrite bind_this. cbv beta.
    destruct (m_swapchains w) as [| first rest] eqn:Hs.
    + exists w. repeat split. exact Hs.
    + unfold CHECK_XRCMD. rewrite !bind_bind, bind_call. cbv beta.
      destruct (Hsw w first rest Hs) as [Hok Hrest]. rewrite Hok.
      rewrite bind_ret.
      destruct (IH (called (DestroySwapchain first) (snd (xrDestroySwapchain C first w)) w))
        as (w1 & Hrun & Hlog & Hnil & Hsess & Hticks).
      { change (List.length (m_swapchains (snd (xrDestroySwapchain C first w))) < fuel)%nat.
        rewrite Hrest. cbn [List.length] in Hlt. apply PeanoNat.lt_S_n. exact Hlt. }
      exists w1. split; [exact Hrun |]. split; [| repeat split; assumption].
      rewrite Hlog.
      change (m_swapchains
                (called (DestroySwapchain first) (snd (xrDestroySwapchain C first w)) w))
        with (m_swapchains (snd (xrDestroySwapchain C first w))).
      rewrite Hrest. cbn [map rev called w_log]. rewrite <- app_assoc. reflexivity.
Qed.

(** What a call of [xrDestroySwapchain] leaves alone is left alone by the
    loop, however it ends. *)
Lemma destroyAllSwapchains_preserve {X : Type} (f : World Ext -> X) :
  (forall s o w, f (called (DestroySwapchain s) o w) = f w) ->
  forall fuel : nat, preserves f (destroyAllSwapchains C fuel).
Proof.
  intros Hf fuel. induction fuel as [| fuel IH]; cbn [destroyAllSwapchains].
  - intros w. reflexivity.
  - apply preserves_bind; [apply preserves_this | intros rt].
    destruct (m_swapchains rt) as [| first rest]; [apply preserves_ret |].
    apply preserves_bind; [| intros _; exact IH].
    apply preserves_CHECK_XRCMD. intros w. unfold call.
    destruct (xrDestroySwapchain C first w) as [r o]. cbn [snd]. apply (Hf first o w).
Qed.

(** Past the test of the handle. *)
Lemma destroy_past_handle (fuel : nat) (w : World Ext) :
  m_sessionCreated w = true ->
  xrDestroySession C P fuel 1 w
  = bind (destroyAllSwapchains C fuel) (fun _ =>
      bind this (fun rt =>
      bind (CHECK_XRCMD (call (DestroySpace (m_originSpace rt))
                           (xrDestroySpace C (m_originSpace rt)))) (fun _ =>
      bind (assign L.m_originSpace XR_NULL_HANDLE) (fun _ =>
      bind this (fun rt =>
      bind (CHECK_XRCMD (call (DestroySpace (m_viewSpace rt))
                           (xrDestroySpace C (m_viewSpace rt)))) (fun _ =>
      bind (assign L.m_viewSpace XR_NULL_HANDLE) (fun _ =>
      bind (call_void CleanupOpenGL (cleanupOpenGL C)) (fun _ =>
      bind (call_void CleanupVulkan (cleanupVulkan C)) (fun _ =>
      bind (call_void CleanupD3D12 (cleanupD3D12 C)) (fun _ =>
      bind (call_void CleanupD3D11 (cleanupD3D11 C)) (fun _ =>
      bind (assign L.m_sessionState XR_SESSION_STATE_UNKNOWN) (fun _ =>
      bind (assign L.m_sessionStateDirty false) (fun _ =>
      bind (assign L.m_sessionCreated false) (fun _ =>
      bind (assign L.m_sessionExiting false) (fun _ =>
      ret XR_SUCCESS)))))))))))))))
      (logged (LogUsage (double_sub (device_clock P (w_ticks w)) (m_sessionStartTime w))
                 (m_sessionTotalFrameCount w))
         (ticked (traced "xrDestroySession" w))).
Proof.
  intros Hc. unfold xrDestroySession. rewrite bind_emit, bind_this. cbv beta.
  change (w_rt (logged (Trace "xrDestroySession") w)) with (w_rt w).
  rewrite Hc. cbn [negb orb Z.eqb Pos.eqb].
  rewrite bind_pvr_getTimeSeconds. cbv beta. rewrite bind_emit. reflexivity.
Qed.

(** A run of the loop that leaves it is what the loop does, given the
    steps, and what the loop does when it returns. *)
Lemma swapchains_destroyed_runs (w0 w1 : World Ext) (destroyed : list XrSwapchain) :
  swapchains_destroyed C w0 destroyed w1 ->
  forall fuel : nat,
    (List.length destroyed < fuel)%nat ->
    destroyAllSwapchains C fuel w0 = (Ret tt, w1)
    /\ w_log w1
       = (rev (map (fun s => Call (DestroySwapchain s)) destroyed) ++ w_log w0)%list
    /\ m_swapchains w1 = [].
Proof.
  intros H. induction H as [w Hnil | w w' first rest destroyed Hs Hok _ IH]; intros fuel Hlt.
  - destruct fuel as [| fuel]; [inversion Hlt |].
    cbn [destroyAllSwapchains]. rewrite bind_this. cbv beta. rewrite Hnil.
    repeat split.
  - destruct fuel as [| fuel]; [inversion Hlt |].
    cbn [destroyAllSwapchains]. rewrite bind_this. cbv beta. rewrite Hs.
    unfold CHECK_XRCMD. rewrite !bind_bind, bind_call. cbv beta.
    rewrite Hok, bind_ret.
    destruct (IH fuel) as (Hrun & Hlog & Hnil).
    { cbn [List.length] in Hlt. apply PeanoNat.lt_S_n. exact Hlt. }
    split; [exact Hrun |]. split; [| exact Hnil].
    rewrite Hlog. cbn [map rev called w_log]. rewrite <- app_assoc. reflexivity.
Qed.

Lemma destroyAllSwapchains_Ret_inv (fuel : nat) (w0 w1 : World Ext) :
  destroyAllSwapchains C fuel w0 = (Ret tt, w1) ->
  exists destroyed,
    swapchains_destroyed C w0 destroyed w1 /\ (List.length destroyed < fuel)%nat.
Proof.
  revert w0. induction fuel as [| fuel IH]; intros w0; cbn [destroyAllSwapchains].
  - discriminate.
  - rewrite bind_this. cbv beta.
    destruct (m_swapchains w0) as [| first rest] eqn:Hs.
    + intros H. injection H as <-. exists []. split; [| apply PeanoNat.Nat.lt_0_succ].
      apply destroyed_all. exact Hs.
    + unfold CHECK_XRCMD. rewrite !bind_bind, bind_call. cbv beta.
      destruct (XR_FAILED (fst (xrDestroySwapchain C first w0))) eqn:Hok.
      { rewrite bind_throw. discriminate. }
      rewrite bind_ret. intros H. apply IH in H as (destroyed & Hd & Hlt).
      exists (first :: destroyed). split.
      * exact (destroyed_first C w0 w1 first rest destroyed Hs Hok Hd).
      * cbn [List.length]. apply (proj1 (PeanoNat.Nat.succ_lt_mono _ _)). exact Hlt.
Qed.

(** With a [xrDestroySwapchain] that erases from the set the swapchain it
    destroys, the swapchains destroyed are those of the set, in the order
    of the set. *)
Lemma swapchains_destroyed_erased (w0 w1 : World Ext) (destroyed : list XrSwapchain) :
  swapchain_destruction_erases C ->
  swapchains_destroyed C w0 destroyed w1 ->
  destroyed = m_swapchains w0.
Proof.
  intros Hsw H. induction H as [w Hnil | w w' first rest destroyed Hs Hok _ IH].
  - symmetry. exact Hnil.
  - rewrite Hs, IH. f_equal. exact (Hsw w first rest Hs).
Qed.

(** When it succeeds too, there is such a run from every world. *)
Lemma swapchains_destroyed_exists (w0 : World Ext) :
  swapchain_destruction_succeeds C ->
  exists w1, swapchains_destroyed C w0 (m_swapchains w0) w1.
Proof.
  intros Hsw.
  destruct (destroyAllSwapchains_drains Hsw (S (List.length (m_swapchains w0))) w0
              (PeanoNat.Nat.lt_succ_diag_r _)) as (w1 & Hrun & _).
  apply destroyAllSwapchains_Ret_inv in Hrun as (destroyed & Hd & _).
  exists w1.
  rewrite <- (swapchains_destroyed_erased _ _ _
                (fun rt first rest H => proj2 (Hsw rt first rest H)) Hd).
  exact Hd.
Qed.

Lemma destroyAllSwapchains_session (fuel : nat) :
  preserves (fun w : World Ext => rt_session w) (destroyAllSwapchains C fuel).
Proof. apply destroyAllSwapchains_preserve. reflexivity. Qed.

(** C3, amended.  Take a call of [xrDestroySession] on the handle of the
    created session in which each destruction succeeds: the one of each
    swapchain it finds first in the set, until the set is empty, and the
    ones of the origin space and of the view space.  It returns success.
    It has given the usage record, then destroyed these swapchains, then
    the origin space and the view space, each handle being cleared after
    its space is destroyed, then called the cleanup routines of OpenGL,
    Vulkan, D3D12 and D3D11, then stored the unknown state, a false dirty
    flag, a false [m_sessionCreated] and, last, a false
    [m_sessionExiting].  Calling it again on the same handle fails with
    handle invalid.  Every call on that handle that returns is such a
    call.  With a [xrDestroySwapchain] that erases from the set the
    swapchain it destroys, the swapchains destroyed are all those of the
    set, in the order of the set.  A call when no session is created, or
    on another handle, fails with handle invalid and leaves the runtime
    object as it was. *)
Theorem xrDestroySession_teardown_order :
  (forall (fuel : nat) (w w1 : World Ext) (destroyed : list XrSwapchain),
      m_sessionCreated w = true ->
      swapchains_destroyed C (usage_logged P w) destroyed w1 ->
      (List.length destroyed < fuel)%nat ->
      XR_FAILED (fst (xrDestroySpace C (m_originSpace w) w1)) = false ->
      XR_FAILED (fst (xrDestroySpace C (m_viewSpace w) (origin_destroyed C w1))) = false ->
      exists w',
        xrDestroySession C P fuel 1 w = (Ret XR_SUCCESS, w')
        /\ w_log w'
           = ([Store L.m_sessionExiting; Store L.m_sessionCreated;
               Store L.m_sessionStateDirty; Store L.m_sessionState;
               Call CleanupD3D11; Call CleanupD3D12; Call CleanupVulkan; Call CleanupOpenGL;
               Store L.m_viewSpace; Call (DestroySpace (m_viewSpace w));
               Store L.m_originSpace; Call (DestroySpace (m_originSpace w))]
              ++ rev (map (fun s => Call (DestroySwapchain s)) destroyed)
              ++ [LogUsage (double_sub (device_clock P (w_ticks w)) (m_sessionStartTime w))
                    (m_sessionTotalFrameCount w);
                  ClockRead; Trace "xrDestroySession"]
              ++ w_log w)%list
        /\ m_swapchains w1 = []
        /\ m_sessionState w' = XR_SESSION_STATE_UNKNOWN
        /\ m_sessionStateDirty w' = false
        /\ m_sessionExiting w' = false
        /\ m_sessionCreated w' = false
        /\ m_originSpace w' = XR_NULL_HANDLE
        /\ m_viewSpace w' = XR_NULL_HANDLE
        /\ forall fuel' : nat,
             xrDestroySession C P fuel' 1 w'
             = (Ret XR_ERROR_HANDLE_INVALID, traced "xrDestroySession" w'))
  /\ (forall (fuel : nat) (w w' : World Ext) (result : XrResult),
         m_sessionCreated w = true ->
         xrDestroySession C P fuel 1 w = (Ret result, w') ->
         result = XR_SUCCESS
         /\ exists (destroyed : list XrSwapchain) (w1 : World Ext),
              swapchains_destroyed C (usage_logged P w) destroyed w1
              /\ (List.length destroyed < fuel)%nat
              /\ XR_FAILED (fst (xrDestroySpace C (m_originSpace w) w1)) = false
              /\ XR_FAILED (fst (xrDestroySpace C (m_viewSpace w) (origin_destroyed C w1)))
                 = false)
  /\ (swapchain_destruction_erases C ->
      forall (w w1 : World Ext) (destroyed : list XrSwapchain),
        swapchains_destroyed C w destroyed w1 -> destroyed = m_swapchains w)
  /\ (forall (fuel : nat) (session : XrSession) (w : World Ext),
         m_sessionCreated w = false \/ session <> 1 ->
         xrDestroySession C P fuel session w
         = (Ret XR_ERROR_HANDLE_INVALID, traced "xrDestroySession" w)).
Proof.
  assert (Hinvalid : forall (fuel : nat) (session : XrSession) (w : World Ext),
             m_sessionCreated w = false \/ session <> 1 ->
             xrDestroySession C P fuel session w
             = (Ret XR_ERROR_HANDLE_INVALID, traced "xrDestroySession" w)).
  { intros fuel session w H. unfold xrDestroySession. rewrite bind_emit, bind_this. cbv beta.
    change (w_rt (logged (Trace "xrDestroySession") w)) with (w_rt w).
    rewrite (handle_test _ _ H). reflexivity. }
  assert (Hspaces : forall (fuel : nat) (w w1 : World Ext),
             destroyAllSwapchains C fuel (usage_logged P w) = (Ret tt, w1) ->
             m_originSpace w1 = m_originSpace w /\ m_viewSpace w1 = m_viewSpace w).
  { intros fuel w w1 Hrun.
    pose proof (destroyAllSwapchains_session fuel (usage_logged P w)) as Hsess.
    rewrite Hrun in Hsess. cbn [snd] in Hsess.
    change (rt_session w1 = rt_session w) in Hsess.
    change (m_originSpace (rt_session w1) = m_originSpace w
            /\ m_viewSpace (rt_session w1) = m_viewSpace w).
    rewrite Hsess. split; reflexivity. }
  split; [| split; [| split; [| exact Hinvalid]]].
  - intros fuel w w1 destroyed Hc Hd Hlt Ho Hv.
    destruct (swapchains_destroyed_runs _ _ _ Hd fuel Hlt) as (Hrun & Hlog & Hnil).
    destruct (Hspaces fuel w w1 Hrun) as [Ho1 Hv1].
    rewrite <- Ho1 in Ho. rewrite <- Hv1 in Hv.
    rewrite (destroy_past_handle fuel w Hc).
    change (logged (LogUsage (double_sub (device_clock P (w_ticks w)) (m_sessionStartTime w))
                      (m_sessionTotalFrameCount w))
              (ticked (traced "xrDestroySession" w)))
      with (usage_logged P w).
    rewrite (bind_returned _ _ _ _ _ Hrun).
    unfold CHECK_XRCMD. rewrite bind_this. cbv beta.
    rewrite !bind_bind, bind_call. cbv beta.
    rewrite Ho, bind_ret, bind_assign. cbv beta.
    change (stored L.m_originSpace XR_NULL_HANDLE
              (called (DestroySpace (m_originSpace w1))
                 (snd (xrDestroySpace C (m_originSpace w1) w1)) w1))
      with (origin_destroyed C w1).
    rewrite bind_this. cbv beta. rewrite !bind_bind, bind_call. cbv beta.
    change (m_viewSpace (w_rt (origin_destroyed C w1))) with (m_viewSpace w1).
    rewrite Hv, bind_ret. exec.
    eexists. split; [reflexivity |].
    split; [| split; [exact Hnil |]].
    + unfold origin_destroyed. cbn [w_log stored called app]. rewrite Hlog, Ho1, Hv1.
      reflexivity.
    + repeat split.
  - intros fuel w w' result Hc H.
    rewrite (destroy_past_handle fuel w Hc) in H.
    change (logged (LogUsage (double_sub (device_clock P (w_ticks w)) (m_sessionStartTime w))
                      (m_sessionTotalFrameCount w))
              (ticked (traced "xrDestroySession" w)))
      with (usage_logged P w) in H.
    apply bind_Ret_inv in H as ([] & w1 & Hrun & H).
    destruct (Hspaces fuel w w1 Hrun) as [Ho1 Hv1].
    apply destroyAllSwapchains_Ret_inv in Hrun as (destroyed & Hd & Hlt).
    revert H. unfold CHECK_XRCMD. rewrite bind_this. cbv beta.
    rewrite !bind_bind, bind_call. cbv beta. rewrite Ho1.
    destruct (XR_FAILED (fst (xrDestroySpace C (m_originSpace w) w1))) eqn:Ho.
    { rewrite bind_throw. discriminate. }
    rewrite bind_ret, bind_assign. cbv beta.
    rewrite <- Ho1.
    change (stored L.m_originSpace XR_NULL_HANDLE
              (called (DestroySpace (m_originSpace w1))
                 (snd (xrDestroySpace C (m_originSpace w1) w1)) w1))
      with (origin_destroyed C w1).
    rewrite bind_this. cbv beta. rewrite !bind_bind, bind_call. cbv beta.
    change (m_viewSpace (w_rt (origin_destroyed C w1))) with (m_viewSpace w1).
    rewrite Hv1.
    destruct (XR_FAILED (fst (xrDestroySpace C (m_viewSpace w) (origin_destroyed C w1))))
      eqn:Hv.
    { rewrite bind_throw. discriminate. }
    rewrite bind_ret. exec. intros H. injection H as <- _.
    split; [reflexivity |]. exists destroyed, w1. rewrite ?Ho1. repeat split; assumption.
  - intros Hsw w w1 destroyed Hd. exact (swapchains_destroyed_erased _ _ _ Hsw Hd).
Qed.

(** *** Settings *)

Lemma overrideMagnitude_zero (frameDuration : double) :
  is_finite frameDuration = true ->
  trunc (overrideMagnitude 0 frameDuration) = Some 0.
Proof. destruct frameDuration as [s | s | | s m e]; intros H; try discriminate H; reflexivity. Qed.

(** For the frame duration 11.11, the product of every percentage is
    within one microsecond of its decimal value. *)
Lemma overrideMagnitude_percent (m : Z) :
  0 <= m <= 100 ->
  exists z, trunc (overrideMagnitude m Sample.eleven_point_eleven) = Some z
            /\ 0 <= z /\ m * 111100 - 1 <= z <= m * 111100.
Proof.
  intros Hm.
  assert (Hall : forallb
                   (fun n =>
                      match trunc (overrideMagnitude (Z.of_nat n) Sample.eleven_point_eleven) with
                      | Some z =>
                          (0 <=? z) && (Z.of_nat n * 111100 - 1 <=? z)
                          && (z <=? Z.of_nat n * 111100)
                      | None => false
                      end)
                   (seq 0 101) = true) by (vm_compute; reflexivity).
  rewrite forallb_forall in Hall.
  specialize (Hall (Z.to_nat m)). rewrite Z2Nat.id in Hall by lia.
  assert (Hin : In (Z.to_nat m) (seq 0 101)) by (apply in_seq; lia).
  specialize (Hall Hin).
  destruct (trunc (overrideMagnitude m Sample.eleven_point_eleven)) as [z |];
    [| discriminate Hall].
  exists z. split; [reflexivity |].
  apply andb_true_iff in Hall as [Hall H3]. apply andb_true_iff in Hall as [H1 H2]. lia.
Qed.

(** The conversion of an [int] to [float] keeps 24 bits: 16777217, which
    is 2^24 + 1, becomes 2^24. *)
Lemma overrideMagnitude_rounds_multiplier (frameDuration : double) :
  overrideMagnitude 16777217 frameDuration = overrideMagnitude 16777216 frameDuration.
Proof. reflexivity. Qed.

(** C9, amended.  [refreshSettings] returns from every world and for every
    content of the configuration store.  The GPU frame-time override it
    derives is [multiplier * 10.f * m_frameDuration * 1000.f] evaluated in
    IEEE arithmetic and converted to [uint64_t], which cuts off the
    fraction; it is not the product of these numbers in general.  For the
    frame duration 11.11 and a multiplier of 50 it is 5555000; for every
    percentage from 0 to 100 it is the decimal value of the product or
    one microsecond less, and it is one less for a multiplier of 3, which
    gives 333299; a multiplier of 16777217 is taken for 16777216, whatever
    the frame duration.  A setting that is missing is read as its
    default: 2 hundredths for the joystick deadzone, no swap of grip and
    aim poses, no forced interaction profile, an override offset of 0, a
    multiplier of 0 (hence an override of 0 for a finite frame duration),
    a filter length of 5. *)
Theorem refreshSettings_derives_settings (w : World Ext) :
  exists w',
    refreshSettings P w = (Ret tt, w')
    /\ m_gpuFrameTimeOverrideUs w'
       = uint64_of (uint64_out_of_range P)
           (overrideMagnitude
              (value_or (getSetting P "frame_time_override_multiplier") 0)
              (m_frameDuration w))
    /\ (getSetting P "frame_time_override_multiplier" = Some 50 ->
        m_frameDuration w = Sample.eleven_point_eleven ->
        m_gpuFrameTimeOverrideUs w' = 5555000)
    /\ (forall m : Z,
          0 <= m <= 100 ->
          getSetting P "frame_time_override_multiplier" = Some m ->
          m_frameDuration w = Sample.eleven_point_eleven ->
          m * 111100 - 1 <= m_gpuFrameTimeOverrideUs w' <= m * 111100)
    /\ (getSetting P "frame_time_override_multiplier" = Some 3 ->
        m_frameDuration w = Sample.eleven_point_eleven ->
        m_gpuFrameTimeOverrideUs w' = 3 * 111100 - 1)
    /\ (getSetting P "frame_time_override_multiplier" = Some 16777217 ->
        m_gpuFrameTimeOverrideUs w'
        = uint64_of (uint64_out_of_range P) (overrideMagnitude 16777216 (m_frameDuration w)))
    /\ (getSetting P "joystick_deadzone" = None ->
        m_joystickDeadzone w' = float_div (float_of_int 2) f100)
    /\ (getSetting P "swap_grip_aim_poses" = None -> m_swapGripAimPoses w' = false)
    /\ (getSetting P "force_interaction_profile" = None ->
        m_forcedInteractionProfile w' = None)
    /\ (getSetting P "frame_time_override_offset" = None ->
        m_gpuFrameTimeOverrideOffsetUs w' = 0)
    /\ (getSetting P "frame_time_override_multiplier" = None ->
        is_finite (m_frameDuration w) = true ->
        m_gpuFrameTimeOverrideUs w' = 0)
    /\ (getSetting P "frame_time_filter_length" = None ->
        m_gpuFrameTimeFilterLength w' = 5).
Proof.
  unfold refreshSettings. rewrite !bind_assign. cbv beta zeta.
  assert (Hw : exists w1,
             (if value_or (getSetting P "force_interaction_profile") 0 =? 1
              then assign L.m_forcedInteractionProfile (Some OculusTouchController)
              else if value_or (getSetting P "force_interaction_profile") 0 =? 2
                   then assign L.m_forcedInteractionProfile (Some MicrosoftMotionController)
                   else assign L.m_forcedInteractionProfile None)
               (stored L.m_swapGripAimPoses
                  (negb (value_or (getSetting P "swap_grip_aim_poses") 0 =? 0))
                  (stored L.m_joystickDeadzone
                     (float_div
                        (float_of_int (value_or (getSetting P "joystick_deadzone") 2)) f100)
                     w))
             = (Ret tt, w1)
             /\ m_frameDuration w1 = m_frameDuration w
             /\ m_joystickDeadzone w1
                = float_div (float_of_int (value_or (getSetting P "joystick_deadzone") 2)) f100
             /\ m_swapGripAimPoses w1
                = negb (value_or (getSetting P "swap_grip_aim_poses") 0 =? 0)
             /\ (getSetting P "force_interaction_profile" = None ->
                 m_forcedInteractionProfile w1 = None)).
  { destruct (value_or (getSetting P "force_interaction_profile") 0 =? 1) eqn:E1;
      [| destruct (value_or (getSetting P "force_interaction_profile") 0 =? 2) eqn:E2];
      eexists; (split; [reflexivity |]); repeat split;
      intros H; rewrite H in *; discriminate. }
  destruct Hw as (w1 & Hrun & Hd & Hj & Hs & Hf).
  rewrite (bind_returned _ _ _ _ _ Hrun). exec.
  eexists. split; [reflexivity |].
  change (m_frameDuration (w_rt (stored L.m_gpuFrameTimeOverrideOffsetUs
                                   (value_or (getSetting P "frame_time_override_offset") 0)
                                   w1)))
    with (m_frameDuration w1).
  rewrite Hd.
  match goal with
  | |- ?lhs = ?rhs /\ _ => assert (Hmag : lhs = rhs) by reflexivity
  end.
  split; [exact Hmag |].
  split; [intros Hm Hfd; rewrite Hmag, Hm, Hfd; vm_compute; reflexivity |].
  split.
  { intros m Hrange Hm Hfd. rewrite Hmag, Hm, Hfd. cbn [value_or]. unfold uint64_of.
    destruct (overrideMagnitude_percent m Hrange) as (z & -> & Hpos & Hz).
    assert (H0 : (0 <=? z) = true) by (apply Z.leb_le; lia).
    assert (H1 : (z <? 2 ^ 64) = true)
      by (apply Z.ltb_lt; change (2 ^ 64) with 18446744073709551616; lia).
    rewrite H0, H1. exact Hz. }
  split; [intros Hm Hfd; rewrite Hmag, Hm, Hfd; vm_compute; reflexivity |].
  split; [intros Hm; rewrite Hmag, Hm; reflexivity |].
  split; [intros H; cbn; rewrite Hj, H; reflexivity |].
  split; [intros H; cbn; rewrite Hs, H; reflexivity |].
  split; [intros H; cbn; apply Hf, H |].
  split; [intros H; cbn; rewrite H; reflexivity |].
  split; [| intros H; cbn; rewrite H; reflexivity].
  intros Hm Hfin. rewrite Hmag, Hm. cbn [value_or]. unfold uint64_of.
  rewrite (overrideMagnitude_zero _ Hfin). reflexivity.
Qed.

(** *** Further properties of the creation *)

Lemma createReferenceSpaces_returns (w w' : World Ext) :
  createReferenceSpaces C w = (Ret tt, w') ->
  m_sessionCreated w' = m_sessionCreated w.
Proof.
  unfold createReferenceSpaces, createReferenceSpace_origin, createReferenceSpace_view,
    CHECK_XRCMD. exec.
  destruct (xrCreateReferenceSpace C 1 localSpaceInfo w) as [[r [space |]] o];
    cbn [fst snd]; exec;
    (destruct (XR_FAILED r); exec; [discriminate |]);
    match goal with
    | |- context [xrCreateReferenceSpace C 1 viewSpaceInfo ?rt] =>
        destruct (xrCreateReferenceSpace C 1 viewSpaceInfo rt) as [[r2 [space2 |]] o2]
    end; cbn [fst snd]; exec;
    (destruct (XR_FAILED r2); exec; [discriminate |]);
    intros H; injection H as <-; reflexivity.
Qed.

Lemma readConfiguration_frame :
  preserves (fun w : World Ext => rt_instance w) (readConfiguration C P).
Proof. unfold readConfiguration, refreshSettings, recenterTrackingOrigin. preserve. Qed.

Lemma resetSession_instance :
  preserves (fun w : World Ext => rt_instance w) (resetSession C P).
Proof. unfold resetSession. preserve. Qed.

Lemma createReferenceSpaces_bookkeeping :
  preserves (fun w : World Ext =>
               (rt_instance w, rt_frame w, m_sessionStartTime w, m_sessionTotalFrameCount w))
    (createReferenceSpaces C).
Proof.
  unfold createReferenceSpaces, createReferenceSpace_origin, createReferenceSpace_view.
  preserve.
Qed.

Lemma resetSession_bookkeeping (w : World Ext) :
  exists w', resetSession C P w = (Ret tt, w')
             /\ rt_frame w'
                = {| m_frameWaited := false; m_frameBegun := false;
                     m_lastFrameWaitedTime := None; m_frameTimes := [];
                     m_isControllerActive_0 := false; m_isControllerActive_1 := false;
                     m_activeActionSets := []; m_validActionSets := [] |}
             /\ m_sessionStartTime w' = m_sessionStateEventTime w'
             /\ m_sessionTotalFrameCount w' = 0.
Proof.
  unfold resetSession. exec. eexists. split; [reflexivity |]. repeat split; reflexivity.
Qed.

(** X1. A call of [xrCreateSession] that succeeds leaves
    [m_sessionCreated] true, and a further call, whatever its chain, then
    fails with limit reached, or earlier on the tests of its own
    arguments: there is one session at most. *)
Theorem xrCreateSession_single_session
    (instance : XrInstance) (createInfo : XrSessionCreateInfo) (w w' : World Ext)
    (out : option XrSession) :
  xrCreateSession C P instance createInfo w = (Ret (XR_SUCCESS, out), w') ->
  m_sessionCreated w' = true
  /\ forall (instance' : XrInstance) (createInfo' : XrSessionCreateInfo),
       exists result,
         xrCreateSession C P instance' createInfo' w'
         = (Ret (result, None),
            if ci_type createInfo' =? XR_TYPE_SESSION_CREATE_INFO
            then traced "xrCreateSession" w' else w')
         /\ (result = XR_ERROR_VALIDATION_FAILURE \/ result = XR_ERROR_HANDLE_INVALID
             \/ result = XR_ERROR_SYSTEM_INVALID \/ result = XR_ERROR_LIMIT_REACHED)
         /\ (ci_type createInfo' = XR_TYPE_SESSION_CREATE_INFO -> instance' = 1 ->
             ci_systemId createInfo' = 1 -> result = XR_ERROR_LIMIT_REACHED).
Proof.
  intros H.
  destruct (create_preconditions_or_failure instance createInfo w)
    as [Hpre | (r & w1 & Hr & Hf)].
  2: { rewrite Hr in H. injection H as -> _ _. discriminate Hf. }
  destruct Hpre as (_ & Hi & _ & Hs & _ & Hq & _).
  apply create_Ret_inv in H
    as [[Hf _] | (_ & _ & e & w2 & w3 & w4 & He & H2 & H3 & H4 & ->)];
    [discriminate Hf |].
  pose proof (readConfiguration_frame (initialized C e (traced "xrCreateSession" w))) as F2.
  rewrite H2 in F2. cbn [snd] in F2.
  pose proof (resetSession_instance w2) as F3. rewrite H3 in F3. cbn [snd] in F3.
  pose proof (createReferenceSpaces_bookkeeping w3) as F4. rewrite H4 in F4. cbn [snd] in F4.
  injection F4 as F4 _ _ _.
  assert (Hinst : rt_instance w4 = rt_instance w) by (rewrite F4, F3, F2; reflexivity).
  destruct (resetSession_returns w2) as (w3' & H3' & Hc & _).
  rewrite H3 in H3'. injection H3' as <-.
  assert (Hc4 : m_sessionCreated w4 = true)
    by (rewrite (createReferenceSpaces_returns _ _ H4); exact Hc).
  split; [exact Hc4 |].
  intros instance' createInfo'. unfold xrCreateSession.
  destruct (ci_type createInfo' =? XR_TYPE_SESSION_CREATE_INFO) eqn:Ht; cbn [negb].
  2: { eexists. split; [reflexivity |]. split; [left; reflexivity |].
       intros Ht'. rewrite Ht' in Ht. discriminate Ht. }
  rewrite bind_emit, bind_this. cbv beta.
  change (w_rt (logged (Trace "xrCreateSession") (traced "xrCreateSession" w4)))
    with (w_rt w4).
  change (m_instanceCreated w4) with (m_instanceCreated (rt_instance w4)).
  change (m_systemCreated w4) with (m_systemCreated (rt_instance w4)).
  change (m_graphicsRequirementQueried w4)
    with (m_graphicsRequirementQueried (rt_instance w4)).
  rewrite Hinst, Hi, Hs, Hq, Hc4. cbn [negb orb].
  destruct (instance' =? 1) eqn:Hi'; cbn [negb].
  2: { eexists. split; [reflexivity |]. split; [right; left; reflexivity |].
       intros _ Hx. rewrite Hx in Hi'. discriminate Hi'. }
  destruct (ci_systemId createInfo' =? 1) eqn:Hs'; cbn [negb].
  2: { eexists. split; [reflexivity |]. split; [right; right; left; reflexivity |].
       intros _ _ Hx. rewrite Hx in Hs'. discriminate Hs'. }
  eexists. split; [reflexivity |]. split; [right; right; right; reflexivity |].
  intros _ _ _. reflexivity.
Qed.

(** X2. A call of [xrCreateSession] that succeeds leaves the frame and
    input bookkeeping reset: no frame waited or begun, no last waited
    time, no frame times, both controllers inactive, no active or valid
    action set, a frame count of 0, and a session start time equal to the
    event time of the state. *)
Theorem xrCreateSession_resets_bookkeeping
    (instance : XrInstance) (createInfo : XrSessionCreateInfo) (w w' : World Ext)
    (out : option XrSession) :
  xrCreateSession C P instance createInfo w = (Ret (XR_SUCCESS, out), w') ->
  rt_frame w'
  = {| m_frameWaited := false; m_frameBegun := false;
       m_lastFrameWaitedTime := None; m_frameTimes := [];
       m_isControllerActive_0 := false; m_isControllerActive_1 := false;
       m_activeActionSets := []; m_validActionSets := [] |}
  /\ m_sessionTotalFrameCount w' = 0
  /\ m_sessionStartTime w' = m_sessionStateEventTime w'.
Proof.
  intros H.
  apply create_Ret_inv in H
    as [[Hf _] | (_ & _ & e & w2 & w3 & w4 & He & H2 & H3 & H4 & ->)];
    [discriminate Hf |].
  destruct (resetSession_bookkeeping w2) as (w3' & H3' & Hframe & Hstart & Hcount).
  rewrite H3 in H3'. injection H3' as <-.
  pose proof (createReferenceSpaces_bookkeeping w3) as F4. rewrite H4 in F4. cbn [snd] in F4.
  injection F4 as _ Ff Fs Fc.
  pose proof (createReferenceSpaces_state w3) as G4. rewrite H4 in G4. cbn [snd] in G4.
  injection G4 as _ _ Gt _.
  change (rt_frame (traced "xrCreateSession" w4)) with (rt_frame w4).
  change (m_sessionTotalFrameCount (traced "xrCreateSession" w4))
    with (m_sessionTotalFrameCount w4).
  change (m_sessionStartTime (traced "xrCreateSession" w4)) with (m_sessionStartTime w4).
  change (m_sessionStateEventTime (traced "xrCreateSession" w4))
    with (m_sessionStateEventTime w4).
  rewrite Ff, Fs, Fc, Gt, Hframe, Hcount, Hstart. repeat split.
Qed.

(** X3. [refreshSettings] reads the forced interaction profile as the
    Oculus Touch controller for a setting of 1, the Microsoft motion
    controller for 2, and none for every other value and when the setting
    is missing. *)
Theorem refreshSettings_forced_interaction_profile (w : World Ext) :
  exists w',
    refreshSettings P w = (Ret tt, w')
    /\ m_forcedInteractionProfile w'
       = match getSetting P "force_interaction_profile" with
         | Some 1 => Some OculusTouchController
         | Some 2 => Some MicrosoftMotionController
         | _ => None
         end.
Proof.
  assert (Hmatch : forall v : Z,
             (if v =? 1 then Some OculusTouchController
              else if v =? 2 then Some MicrosoftMotionController else None)
             = match v with
               | 1 => Some OculusTouchController
               | 2 => Some MicrosoftMotionController
               | _ => None
               end).
  { intros [| [[p | p |] | [p | p |] |] | p]; reflexivity. }
  assert (Hv : match getSetting P "force_interaction_profile" with
               | Some 1 => Some OculusTouchController
               | Some 2 => Some MicrosoftMotionController
               | _ => None
               end
               = if value_or (getSetting P "force_interaction_profile") 0 =? 1
                 then Some OculusTouchController
                 else if value_or (getSetting P "force_interaction_profile") 0 =? 2
                      then Some MicrosoftMotionController else None).
  { destruct (getSetting P "force_interaction_profile") as [v |]; cbn [value_or];
      [rewrite Hmatch |]; reflexivity. }
  rewrite Hv. unfold refreshSettings. rewrite !bind_assign. cbv beta zeta.
  destruct (value_or (getSetting P "force_interaction_profile") 0 =? 1);
    [| destruct (value_or (getSetting P "force_interaction_profile") 0 =? 2)];
    exec; eexists; (split; [reflexivity |]); reflexivity.
Qed.

(** *** Sequences of calls on the state machine *)

(** How one call ends: with a failure, and then nothing but its diagnostic
    event was added to the world, or with success and a change of
    state. *)
Lemma lifecycle_call_cases (c : LifecycleCall) (w : World Ext) :
  (exists result w',
      lifecycle_call P c w = (Ret result, w')
      /\ XR_FAILED result = true
      /\ (w' = w \/ exists name, w' = traced name w))
  \/ (exists state name w0,
         lifecycle_call P c w = (Ret XR_SUCCESS, transition P state w0)
         /\ m_sessionCreated w = true
         /\ state_change (m_sessionState w) state = true
         /\ (w0 = traced name w \/ w0 = stored L.m_sessionExiting true (traced name w))).
Proof.
  destruct c as [session beginInfo | session | session]; cbn [lifecycle_call].
  - unfold xrBeginSession.
    destruct (bi_type beginInfo =? XR_TYPE_SESSION_BEGIN_INFO); cbn [negb];
      [| left; eexists; eexists; split; [reflexivity |]; split; [reflexivity | left; reflexivity]].
    rewrite bind_emit, bind_this. cbv beta.
    change (w_rt (logged (Trace "xrBeginSession") w)) with (w_rt w).
    destruct (m_sessionCreated w) eqn:Hc; cbn [negb orb];
      [| left; eexists; eexists; split; [reflexivity |]; split;
         [reflexivity | right; eexists; reflexivity]].
    destruct (session =? 1); cbn [negb];
      [| left; eexists; eexists; split; [reflexivity |]; split;
         [reflexivity | right; eexists; reflexivity]].
    destruct (bi_primaryViewConfigurationType beginInfo
              =? XR_VIEW_CONFIGURATION_TYPE_PRIMARY_STEREO); cbn [negb];
      [| left; eexists; eexists; split; [reflexivity |]; split;
         [reflexivity | right; eexists; reflexivity]].
    destruct (m_sessionState w) eqn:Hs; cbn [XrSessionState_eqb negb andb];
      try (left; eexists; eexists; split; [reflexivity |]; split;
           [reflexivity | right; eexists; reflexivity]);
      right; exists XR_SESSION_STATE_SYNCHRONIZED, "xrBeginSession", (traced "xrBeginSession" w);
      (split; [reflexivity |]); (split; [reflexivity |]); rewrite ?Hs;
      (split; [reflexivity | left; reflexivity]).
  - unfold xrEndSession.
    rewrite bind_emit, bind_this. cbv beta.
    change (w_rt (logged (Trace "xrEndSession") w)) with (w_rt w).
    destruct (m_sessionCreated w) eqn:Hc; cbn [negb orb];
      [| left; eexists; eexists; split; [reflexivity |]; split;
         [reflexivity | right; eexists; reflexivity]].
    destruct (session =? 1); cbn [negb];
      [| left; eexists; eexists; split; [reflexivity |]; split;
         [reflexivity | right; eexists; reflexivity]].
    destruct (m_sessionState w) eqn:Hs; cbn [XrSessionState_eqb negb andb];
      try (left; eexists; eexists; split; [reflexivity |]; split;
           [reflexivity | right; eexists; reflexivity]).
    right. exists XR_SESSION_STATE_IDLE, "xrEndSession",
      (stored L.m_sessionExiting true (traced "xrEndSession" w)).
    split; [reflexivity |]. split; [reflexivity |]. rewrite ?Hs.
    split; [reflexivity | right; reflexivity].
  - unfold xrRequestExitSession.
    rewrite bind_emit, bind_this. cbv beta.
    change (w_rt (logged (Trace "xrRequestExitSession") w)) with (w_rt w).
    destruct (m_sessionCreated w) eqn:Hc; cbn [negb orb];
      [| left; eexists; eexists; split; [reflexivity |]; split;
         [reflexivity | right; eexists; reflexivity]].
    destruct (session =? 1); cbn [negb];
      [| left; eexists; eexists; split; [reflexivity |]; split;
         [reflexivity | right; eexists; reflexivity]].
    destruct (m_sessionState w) eqn:Hs; cbn [XrSessionState_eqb negb andb];
      try (left; eexists; eexists; split; [reflexivity |]; split;
           [reflexivity | right; eexists; reflexivity]);
      right; exists XR_SESSION_STATE_STOPPING, "xrRequestExitSession",
        (traced "xrRequestExitSession" w);
      (split; [reflexivity |]); (split; [reflexivity |]); rewrite ?Hs;
      (split; [reflexivity | left; reflexivity]).
Qed.

Lemma reached_trans (a b c : XrSessionState) :
  reached a b -> reached b c -> reached a c.
Proof.
  intros Hab Hbc. induction Hbc as [| mid to _ IH Hstep].
  - exact Hab.
  - exact (reached_next a mid to IH Hstep).
Qed.

(** What each ending of a call leaves alone is left alone by a sequence of
    calls. *)
Lemma lifecycle_calls_preserve {X : Type} (f : World Ext -> X) :
  (forall name w, f (traced name w) = f w) ->
  (forall w, f (stored L.m_sessionExiting true w) = f w) ->
  (forall state w, f (transition P state w) = f w) ->
  forall cs : list LifecycleCall, preserves f (lifecycle_calls P cs).
Proof.
  intros Ht He Hs cs. induction cs as [| c rest IH].
  - apply preserves_ret.
  - cbn [lifecycle_calls]. apply preserves_bind.
    + intros w.
      destruct (lifecycle_call_cases c w)
        as [(result & w' & Hrun & _ & [-> | (name & ->)])
           | (state & name & w0 & Hrun & _ & _ & [-> | ->])];
        rewrite Hrun; cbn [snd]; rewrite ?Hs, ?He, ?Ht; reflexivity.
    + intros result. apply preserves_bind; [exact IH | intros results; apply preserves_ret].
Qed.

(** X4. Whatever calls of [xrBeginSession], [xrEndSession] and
    [xrRequestExitSession] an application makes, with whatever arguments,
    they leave alone everything but the state of the session, its dirty
    flag, its event time and [m_sessionExiting]: the session stays created
    or not as it was, with its start time, its frame count and its two
    spaces, the frame bookkeeping, the settings and the members of the
    collaborators are as before, and nothing was called but the device
    clock. *)
Theorem lifecycle_calls_touch_state_only (cs : list LifecycleCall) (w : World Ext) :
  rt_instance (snd (lifecycle_calls P cs w)) = rt_instance w
  /\ rt_frame (snd (lifecycle_calls P cs w)) = rt_frame w
  /\ rt_settings (snd (lifecycle_calls P cs w)) = rt_settings w
  /\ rt_others (snd (lifecycle_calls P cs w)) = rt_others w
  /\ m_sessionCreated (snd (lifecycle_calls P cs w)) = m_sessionCreated w
  /\ m_sessionStartTime (snd (lifecycle_calls P cs w)) = m_sessionStartTime w
  /\ m_sessionTotalFrameCount (snd (lifecycle_calls P cs w)) = m_sessionTotalFrameCount w
  /\ m_originSpace (snd (lifecycle_calls P cs w)) = m_originSpace w
  /\ m_viewSpace (snd (lifecycle_calls P cs w)) = m_viewSpace w
  /\ calls (snd (lifecycle_calls P cs w)) = calls w.
Proof.
  pose proof (lifecycle_calls_preserve
                (fun w : World Ext =>
                   (rt_instance w, rt_frame w, rt_settings w, rt_others w,
                    m_sessionCreated w, m_sessionStartTime w, m_sessionTotalFrameCount w,
                    m_originSpace w, m_viewSpace w, calls w))) as H.
  specialize (H (fun _ _ => eq_refl) (fun _ => eq_refl) (fun _ _ => eq_refl) cs w).
  cbv beta in H.
  injection H as H1 H2 H3 H4 H5 H6 H7 H8 H9 H10.
  repeat split; assumption.
Qed.

(** X5. A sequence of calls of [xrBeginSession], [xrEndSession] and
    [xrRequestExitSession] returns a result for each call.  The state it
    ends in is reached from the state it started in by the changes of
    state of the three entry points (idle or ready to synchronized;
    synchronized, visible or focused to stopping; stopping to idle).  It
    reads the device clock once for each call that succeeded.  When a
    call succeeded the dirty flag is set at the end; when none did, and
    so when no session is created, the runtime object is as before. *)
Theorem lifecycle_calls_follow_state_machine (cs : list LifecycleCall) (w : World Ext) :
  exists results w',
    lifecycle_calls P cs w = (Ret results, w')
    /\ List.length results = List.length cs
    /\ reached (m_sessionState w) (m_sessionState w')
    /\ w_ticks w' = (w_ticks w + List.length (filter succeeded results))%nat
    /\ (existsb succeeded results = true -> m_sessionStateDirty w' = true)
    /\ (existsb succeeded results = false -> w_rt w' = w_rt w)
    /\ (m_sessionCreated w = false -> existsb succeeded results = false).
Proof.
  revert w. induction cs as [| c rest IH]; intros w.
  - exists [], w. cbn. repeat split; try discriminate.
    + apply reached_here.
    + rewrite Nat.add_0_r. reflexivity.
  - cbn [lifecycle_calls].
    destruct (lifecycle_call_cases c w)
      as [(result & w1 & Hrun & Hfail & Hw1) | (state & name & w0 & Hrun & Hc & Hstep & Hw0)].
    + destruct (IH w1) as (results & w' & Hrest & Hlen & Hreach & Hticks & Hdirty & Hsame & Hnone).
      exists (result :: results), w'.
      rewrite (bind_returned _ _ _ _ _ Hrun), (bind_returned _ _ _ _ _ Hrest).
      assert (Hrt : w_rt w1 = w_rt w /\ w_ticks w1 = w_ticks w)
        by (destruct Hw1 as [-> | (name & ->)]; split; reflexivity).
      destruct Hrt as [Hrt Htk].
      unfold succeeded at 1 2 3 4. cbn [List.length filter existsb]. rewrite Hfail.
      cbn [negb orb].
      split; [reflexivity |]. split; [rewrite Hlen; reflexivity |].
      change (m_sessionState w1) with (m_sessionState (w_rt w1)) in Hreach.
      change (m_sessionCreated w1) with (m_sessionCreated (w_rt w1)) in Hnone.
      rewrite Hrt in Hreach, Hnone. rewrite Htk in Hticks.
      split; [exact Hreach |]. split; [exact Hticks |]. split; [exact Hdirty |].
      split; [| exact Hnone].
      intros H. rewrite (Hsame H). exact Hrt.
    + destruct (IH (transition P state w0))
        as (results & w' & Hrest & Hlen & Hreach & Hticks & Hdirty & Hsame & Hnone).
      exists (XR_SUCCESS :: results), w'.
      rewrite (bind_returned _ _ _ _ _ Hrun), (bind_returned _ _ _ _ _ Hrest).
      cbn [List.length filter existsb succeeded XR_FAILED XR_SUCCESS Z.ltb Z.compare negb orb].
      split; [reflexivity |]. split; [rewrite Hlen; reflexivity |].
      split; [| split; [| split; [| split]]].
      * apply (reached_trans _ state); [| exact Hreach].
        exact (reached_next _ _ _ (reached_here _) Hstep).
      * rewrite Hticks. destruct Hw0 as [-> | ->]; cbn [transition w_ticks traced logged stored];
          rewrite Nat.add_succ_r; reflexivity.
      * intros _. destruct (existsb succeeded results) eqn:Hany.
        -- apply Hdirty. reflexivity.
        -- change (m_sessionStateDirty w') with (m_sessionStateDirty (w_rt w')).
           rewrite (Hsame eq_refl). reflexivity.
      * discriminate.
      * intros H. rewrite H in Hc. discriminate Hc.
Qed.

(** The three entry points on the handle of a created session in a state
    they accept. *)
Lemma xrBeginSession_runs (beginInfo : XrSessionBeginInfo) (w : World Ext) :
  bi_type beginInfo = XR_TYPE_SESSION_BEGIN_INFO ->
  bi_primaryViewConfigurationType beginInfo = XR_VIEW_CONFIGURATION_TYPE_PRIMARY_STEREO ->
  m_sessionCreated w = true ->
  m_sessionState w = XR_SESSION_STATE_IDLE \/ m_sessionState w = XR_SESSION_STATE_READY ->
  xrBeginSession P 1 beginInfo w
  = (Ret XR_SUCCESS, transition P XR_SESSION_STATE_SYNCHRONIZED (traced "xrBeginSession" w)).
Proof.
  intros Ht Hv Hc Hs. unfold xrBeginSession. rewrite Ht, Hv.
  change (negb (XR_TYPE_SESSION_BEGIN_INFO =? XR_TYPE_SESSION_BEGIN_INFO)) with false.
  cbv iota. rewrite bind_emit, bind_this. cbv beta.
  change (w_rt (logged (Trace "xrBeginSession") w)) with (w_rt w).
  rewrite Hc. destruct Hs as [Hs | Hs]; rewrite Hs; reflexivity.
Qed.

Lemma xrEndSession_runs (w : World Ext) :
  m_sessionCreated w = true ->
  m_sessionState w = XR_SESSION_STATE_STOPPING ->
  xrEndSession P 1 w
  = (Ret XR_SUCCESS,
     transition P XR_SESSION_STATE_IDLE
       (stored L.m_sessionExiting true (traced "xrEndSession" w))).
Proof.
  intros Hc Hs. unfold xrEndSession. rewrite bind_emit, bind_this. cbv beta.
  change (w_rt (logged (Trace "xrEndSession") w)) with (w_rt w).
  rewrite Hc, Hs. reflexivity.
Qed.

Lemma xrRequestExitSession_runs (w : World Ext) :
  m_sessionCreated w = true ->
  m_sessionState w = XR_SESSION_STATE_SYNCHRONIZED
  \/ m_sessionState w = XR_SESSION_STATE_VISIBLE
  \/ m_sessionState w = XR_SESSION_STATE_FOCUSED ->
  xrRequestExitSession P 1 w
  = (Ret XR_SUCCESS,
     transition P XR_SESSION_STATE_STOPPING (traced "xrRequestExitSession" w)).
Proof.
  intros Hc Hs. unfold xrRequestExitSession. rewrite bind_emit, bind_this. cbv beta.
  change (w_rt (logged (Trace "xrRequestExitSession") w)) with (w_rt w).
  rewrite Hc. destruct Hs as [Hs | [Hs | Hs]]; rewrite Hs; reflexivity.
Qed.

(** X6. [m_sessionExiting] is never cleared by [xrBeginSession],
    [xrEndSession] or [xrRequestExitSession]: once true it stays true
    through every sequence of such calls.  So a session that was ended and
    is begun again is synchronized with [m_sessionExiting] still true. *)
Theorem lifecycle_calls_keep_exiting :
  (forall (cs : list LifecycleCall) (w : World Ext),
      m_sessionExiting w = true ->
      m_sessionExiting (snd (lifecycle_calls P cs w)) = true)
  /\ (forall (beginInfo : XrSessionBeginInfo) (w : World Ext),
         bi_type beginInfo = XR_TYPE_SESSION_BEGIN_INFO ->
         bi_primaryViewConfigurationType beginInfo
         = XR_VIEW_CONFIGURATION_TYPE_PRIMARY_STEREO ->
         m_sessionCreated w = true ->
         m_sessionState w = XR_SESSION_STATE_STOPPING ->
         exists w',
           lifecycle_calls P [EndSession 1; BeginSession 1 beginInfo] w
           = (Ret [XR_SUCCESS; XR_SUCCESS], w')
           /\ m_sessionState w' = XR_SESSION_STATE_SYNCHRONIZED
           /\ m_sessionExiting w' = true).
Proof.
  split.
  - intros cs. induction cs as [| c rest IH]; intros w H.
    + exact H.
    + cbn [lifecycle_calls].
      destruct (lifecycle_call_cases c w)
        as [(result & w1 & Hrun & _ & Hw1) | (state & name & w0 & Hrun & _ & _ & Hw0)];
        rewrite (bind_returned _ _ _ _ _ Hrun).
      * assert (H1 : m_sessionExiting w1 = true)
          by (destruct Hw1 as [-> | (name & ->)]; exact H).
        specialize (IH w1 H1). unfold bind.
        destruct (lifecycle_calls P rest w1) as [[results | e |] w2]; exact IH.
      * assert (H1 : m_sessionExiting (transition P state w0) = true)
          by (destruct Hw0 as [-> | ->]; [exact H | reflexivity]).
        specialize (IH _ H1). unfold bind.
        destruct (lifecycle_calls P rest (transition P state w0)) as [[results | e |] w2];
          exact IH.
  - intros beginInfo w Ht Hv Hc Hs. cbn [lifecycle_calls lifecycle_call].
    rewrite (bind_returned _ _ _ _ _ (xrEndSession_runs w Hc Hs)). cbv beta.
    rewrite bind_bind.
    rewrite (bind_returned _ _ _ _ _
               (xrBeginSession_runs beginInfo
                  (transition P XR_SESSION_STATE_IDLE
                     (stored L.m_sessionExiting true (traced "xrEndSession" w)))
                  Ht Hv Hc (or_introl eq_refl))).
    eexists. split; [reflexivity |]. split; reflexivity.
Qed.

(** *** The creation, block by block *)

(** A chain has no eligible entry or a first one. *)
Lemma first_eligible_split (chain : list XrBaseInStructure) (w : World Ext) :
  (forall e, In e chain -> eligible w e = false)
  \/ exists pre e post,
       chain = (pre ++ e :: post)%list
       /\ (forall x, In x pre -> eligible w x = false)
       /\ eligible w e = true.
Proof.
  induction chain as [| x next IH].
  - left. intros e [].
  - destruct (eligible w x) eqn:Hx.
    + right. exists [], x, next. split; [reflexivity |]. split; [intros y [] | exact Hx].
    + destruct IH as [Hnone | (pre & e & post & -> & Hpre & He)].
      * left. intros e [<- | Hin]; [exact Hx | exact (Hnone e Hin)].
      * right. exists (x :: pre), e, post. split; [reflexivity |].
        split; [| exact He]. intros y [<- | Hin]; [exact Hx | exact (Hpre y Hin)].
Qed.

(** [xrCreateSession] returns a failure, having stored nothing in
    [*session], or it initializes the first eligible entry of the chain
    with success and goes on to its four blocks. *)
Lemma create_cases
    (instance : XrInstance) (createInfo : XrSessionCreateInfo) (w : World Ext) :
  (exists r w1, xrCreateSession C P instance createInfo w = (Ret (r, None), w1)
                /\ XR_FAILED r = true)
  \/ exists pre e post,
       create_preconditions instance createInfo w
       /\ ci_next createInfo = (pre ++ e :: post)%list
       /\ (forall x, In x pre -> eligible w x = false)
       /\ eligible w e = true
       /\ XR_FAILED (fst (run_initializer C e w)) = false
       /\ xrCreateSession C P instance createInfo w
          = bind (readConfiguration C P) (fun _ =>
            bind (resetSession C P) (fun _ =>
            bind (createReferenceSpaces C) (fun _ =>
            bind (emit (Trace "xrCreateSession")) (fun _ =>
            ret (XR_SUCCESS, Some 1)))))
              (initialized C e (traced "xrCreateSession" w)).
Proof.
  destruct (create_preconditions_or_failure instance createInfo w) as [Hpre | H];
    [| left; exact H].
  destruct (first_eligible_split (ci_next createInfo) w)
    as [Hnone | (pre & e & post & Hchain & Hskip & He)].
  - left. rewrite (create_past_preconditions _ _ _ Hpre). unfold bind at 1.
    rewrite (scan_no_eligible _ (traced "xrCreateSession" w) Hnone).
    eexists. eexists. split; reflexivity.
  - pose proof (create_first_eligible _ _ _ _ _ _ Hpre Hchain Hskip He) as Hrun.
    destruct (XR_FAILED (fst (run_initializer C e w))) eqn:Hr.
    + left. eexists. eexists. split; [exact Hrun | exact Hr].
    + right. exists pre, e, post. repeat split; try assumption; apply Hpre.
Qed.

(** The observation of a world that the rest of a computation preserves
    is the one its first step leaves. *)
Lemma bind_preserved {A B X : Type} (f : World Ext -> X) (c : M Ext A) (k : A -> M Ext B)
    (w : World Ext) :
  (forall a, preserves f (k a)) ->
  f (snd (bind c k w)) = f (snd (c w)).
Proof.
  intros H. unfold bind. destruct (c w) as [[a | e |] w1]; cbn [snd];
    [apply H | reflexivity | reflexivity].
Qed.

(** [readConfiguration] asks for the recentering when the setting says
    so, whatever comes of it, and once. *)
Lemma readConfiguration_recenterings (w : World Ext) :
  recenterings (snd (readConfiguration C P w))
  = ((if recenter_on_startup P then [Call RecenterTrackingOrigin] else []) ++ recenterings w)%list.
Proof.
  unfold readConfiguration. rewrite bind_preserved.
  2: { intros _. unfold refreshSettings. preserve. }
  change (negb (value_or (getSetting P "recenter_on_startup") 1 =? 0))
    with (recenter_on_startup P).
  destruct (recenter_on_startup P); [| reflexivity].
  unfold CHECK_PVRCMD, recenterTrackingOrigin. exec.
  destruct (negb (pvr_recenterTrackingOrigin P (m_pvrSession w) =? pvr_success));
    exec; reflexivity.
Qed.

Lemma readConfiguration_recenter_fails (w : World Ext) :
  recenter_on_startup P = true ->
  pvr_recenterTrackingOrigin P (m_pvrSession w) <> pvr_success ->
  readConfiguration C P w
  = (Throw (PvrCmdFailed (pvr_recenterTrackingOrigin P (m_pvrSession w))),
     logged (Call RecenterTrackingOrigin) w).
Proof.
  intros Hrec Hr. apply Z.eqb_neq in Hr.
  unfold readConfiguration.
  change (negb (value_or (getSetting P "recenter_on_startup") 1 =? 0))
    with (recenter_on_startup P).
  rewrite Hrec. unfold bind at 1.
  unfold CHECK_PVRCMD, recenterTrackingOrigin. exec. rewrite Hr. exec. reflexivity.
Qed.

Lemma is_recenter_call (e : XrBaseInStructure) :
  is_recenter (Call (initializer_call e)) = false.
Proof.
  unfold initializer_call.
  repeat match goal with |- context [if ?b then _ else _] => destruct b end; reflexivity.
Qed.

Lemma resetSession_recenterings : preserves recenterings (resetSession C P).
Proof. unfold resetSession. preserve. Qed.

Lemma createReferenceSpaces_recenterings : preserves recenterings (createReferenceSpaces C).
Proof.
  unfold createReferenceSpaces, createReferenceSpace_origin, createReferenceSpace_view.
  preserve.
Qed.

(** *** The recentering *)

(** X7. Once a graphics binding is initialized, [xrCreateSession] asks
    the SDK to recenter the tracking origin, once, unless the setting
    [recenter_on_startup] is 0; a missing setting asks for it.  When the
    recentering fails the call ends with that failure as an exception,
    having written no member of the session or of the settings: no
    session is created, and the binding stays initialized. *)
Theorem xrCreateSession_recenter_on_startup
    (instance : XrInstance) (createInfo : XrSessionCreateInfo) (w : World Ext)
    (pre : list XrBaseInStructure) (e : XrBaseInStructure) (post : list XrBaseInStructure) :
  create_preconditions instance createInfo w ->
  ci_next createInfo = (pre ++ e :: post)%list ->
  (forall x, In x pre -> eligible w x = false) ->
  eligible w e = true ->
  XR_FAILED (fst (run_initializer C e w)) = false ->
  (getSetting P "recenter_on_startup" <> Some 0 ->
   recenterings (snd (xrCreateSession C P instance createInfo w))
   = Call RecenterTrackingOrigin :: recenterings w
   /\ (pvr_recenterTrackingOrigin P (m_pvrSession w) <> pvr_success ->
       xrCreateSession C P instance createInfo w
       = (Throw (PvrCmdFailed (pvr_recenterTrackingOrigin P (m_pvrSession w))),
          logged (Call RecenterTrackingOrigin) (initialized C e (traced "xrCreateSession" w)))
       /\ m_sessionCreated (snd (xrCreateSession C P instance createInfo w)) = false
       /\ cleanups (snd (xrCreateSession C P instance createInfo w)) = cleanups w))
  /\ (getSetting P "recenter_on_startup" = Some 0 ->
      recenterings (snd (xrCreateSession C P instance createInfo w)) = recenterings w).
Proof.
  intros Hpre Hchain Hskip He Hr.
  pose proof (create_first_eligible _ _ _ _ _ _ Hpre Hchain Hskip He) as Hrun.
  rewrite Hr in Hrun.
  assert (Hrec : recenterings (snd (xrCreateSession C P instance createInfo w))
                 = ((if recenter_on_startup P then [Call RecenterTrackingOrigin] else [])
                    ++ recenterings w)%list).
  { rewrite Hrun, bind_preserved.
    2: { intros _. apply preserves_bind; [exact resetSession_recenterings | intros _].
         apply preserves_bind; [exact createReferenceSpaces_recenterings | intros _].
         preserve. }
    rewrite readConfiguration_recenterings.
    unfold recenterings, initialized, traced, logged. cbn [w_log filter].
    rewrite is_recenter_call. reflexivity. }
  split.
  - intros Hset.
    assert (Hon : recenter_on_startup P = true).
    { unfold recenter_on_startup.
      destruct (getSetting P "recenter_on_startup") as [v |]; [| reflexivity].
      cbn [value_or]. destruct (v =? 0) eqn:Hv; [| reflexivity].
      apply Z.eqb_eq in Hv. subst v. exfalso. apply Hset. reflexivity. }
    rewrite Hon in Hrec. split; [exact Hrec |].
    intros Hfail.
    assert (Hthrow : xrCreateSession C P instance createInfo w
                     = (Throw (PvrCmdFailed (pvr_recenterTrackingOrigin P (m_pvrSession w))),
                        logged (Call RecenterTrackingOrigin)
                          (initialized C e (traced "xrCreateSession" w)))).
    { rewrite Hrun. unfold bind at 1.
      rewrite (readConfiguration_recenter_fails
                 (initialized C e (traced "xrCreateSession" w)) Hon Hfail).
      reflexivity. }
    split; [exact Hthrow |]. rewrite Hthrow. cbn [snd]. split.
    + destruct Hpre as (_ & _ & _ & _ & _ & _ & Hc). exact Hc.
    + unfold cleanups, logged, initialized, traced. cbn [w_log filter].
      rewrite is_cleanup_call. reflexivity.
  - intros Hset. rewrite Hrec. unfold recenter_on_startup. rewrite Hset. reflexivity.
Qed.

(** *** After a reference space that could not be created *)

(** How the four blocks end with the failure of a command. *)
Lemma create_blocks_Throw_inv (w0 w' : World Ext) (r : XrResult) :
  bind (readConfiguration C P) (fun _ =>
  bind (resetSession C P) (fun _ =>
  bind (createReferenceSpaces C) (fun _ =>
  bind (emit (Trace "xrCreateSession")) (fun _ =>
  ret (XR_SUCCESS, Some 1))))) w0
  = (Throw (XrCmdFailed r), w') ->
  exists w2 w3,
    readConfiguration C P w0 = (Ret tt, w2)
    /\ resetSession C P w2 = (Ret tt, w3)
    /\ createReferenceSpaces C w3 = (Throw (XrCmdFailed r), w').
Proof.
  intros H.
  apply bind_Throw_inv in H as [H | ([] & w2 & H2 & H)].
  { destruct (readConfiguration_outcome w0)
      as (w2 & [(a & Hw) | (x & (r' & ->) & Hw)]); rewrite Hw in H; discriminate H. }
  apply bind_Throw_inv in H as [H | ([] & w3 & H3 & H)].
  { destruct (resetSession_returns w2) as (w3 & Hw & _). rewrite Hw in H. discriminate H. }
  apply bind_Throw_inv in H as [H | ([] & w4 & H4 & H)].
  - exists w2, w3. repeat split; assumption.
  - discriminate H.
Qed.

(** What the three blocks that ran leave of the world they started in. *)
Lemma create_blocks_observed (w0 w2 w3 w' : World Ext) (o : Outcome unit) :
  readConfiguration C P w0 = (Ret tt, w2) ->
  resetSession C P w2 = (Ret tt, w3) ->
  createReferenceSpaces C w3 = (o, w') ->
  forall (X : Type) (f : World Ext -> X),
    preserves f (readConfiguration C P) -> preserves f (resetSession C P) ->
    preserves f (createReferenceSpaces C) ->
    f w' = f w0.
Proof.
  intros H2 H3 H4 X f F1 F2 F3.
  specialize (F1 w0). rewrite H2 in F1.
  specialize (F2 w2). rewrite H3 in F2.
  specialize (F3 w3). rewrite H4 in F3. cbn [snd] in F1, F2, F3. congruence.
Qed.

Lemma createReferenceSpaces_instance :
  preserves (fun w : World Ext => rt_instance w) (createReferenceSpaces C).
Proof.
  unfold createReferenceSpaces, createReferenceSpace_origin, createReferenceSpace_view.
  preserve.
Qed.

Lemma eligible_instance (rt rt' : Runtime Ext) (e : XrBaseInStructure) :
  rt_instance rt' = rt_instance rt -> eligible rt' e = eligible rt e.
Proof. intros H. unfold eligible. rewrite H. reflexivity. Qed.

(** Past the preconditions the first eligible entry of the chain is the
    one initialized, whatever follows, and no cleanup routine is
    called. *)
Lemma create_calls_first_eligible
    (instance : XrInstance) (createInfo : XrSessionCreateInfo) (w : World Ext)
    (pre : list XrBaseInStructure) (e : XrBaseInStructure) (post : list XrBaseInStructure) :
  create_preconditions instance createInfo w ->
  ci_next createInfo = (pre ++ e :: post)%list ->
  (forall x, In x pre -> eligible w x = false) ->
  eligible w e = true ->
  initializers (snd (xrCreateSession C P instance createInfo w))
  = Call (initializer_call e) :: initializers w
  /\ cleanups (snd (xrCreateSession C P instance createInfo w)) = cleanups w.
Proof.
  intros Hpre Hchain Hskip He.
  rewrite (create_first_eligible _ _ _ _ _ _ Hpre Hchain Hskip He).
  destruct (XR_FAILED (fst (run_initializer C e w))); cbn [snd].
  - split; [apply initialized_initializers | apply initialized_preserves_cleanups].
  - rewrite (create_tail_preserves initializers readConfiguration_initializers
               resetSession_initializers createReferenceSpaces_initializers
               (fun _ => eq_refl)).
    rewrite (create_tail_preserves cleanups readConfiguration_cleanups
               resetSession_cleanups createReferenceSpaces_cleanups
               (fun _ => eq_refl)).
    split; [apply initialized_initializers | apply initialized_preserves_cleanups].
Qed.

(** X8. When [xrCreateSession] ends with the failure of a reference
    space, [m_sessionCreated] is false again and nothing else of what the
    call wrote is taken back: the state of the session is idle with its
    dirty flag set, the event time and the start time are the reading of
    the clock the call took, and the frame and input bookkeeping is
    reset. *)
Theorem xrCreateSession_space_failure_keeps_reset
    (instance : XrInstance) (createInfo : XrSessionCreateInfo) (w w' : World Ext)
    (r : XrResult) :
  xrCreateSession C P instance createInfo w = (Throw (XrCmdFailed r), w') ->
  m_sessionCreated w' = false
  /\ m_sessionState w' = XR_SESSION_STATE_IDLE
  /\ m_sessionStateDirty w' = true
  /\ m_sessionStateEventTime w' = device_clock P (w_ticks w)
  /\ m_sessionStartTime w' = device_clock P (w_ticks w)
  /\ m_sessionTotalFrameCount w' = 0
  /\ w_ticks w' = S (w_ticks w)
  /\ rt_frame w'
     = {| m_frameWaited := false; m_frameBegun := false;
          m_lastFrameWaitedTime := None; m_frameTimes := [];
          m_isControllerActive_0 := false; m_isControllerActive_1 := false;
          m_activeActionSets := []; m_validActionSets := [] |}.
Proof.
  intros H.
  destruct (create_cases instance createInfo w)
    as [(r0 & w1 & Hr & _) | (pre & e & post & Hpre & Hchain & Hskip & He & Hok & Hrun)].
  { rewrite Hr in H. discriminate H. }
  rewrite Hrun in H.
  apply create_blocks_Throw_inv in H as (w2 & w3 & H2 & H3 & H4).
  pose proof (createReferenceSpaces_throws _ _ _ H4) as (Hc & _).
  pose proof (readConfiguration_session (initialized C e (traced "xrCreateSession" w))) as F2.
  rewrite H2 in F2. cbn [snd] in F2.
  change (w_ticks (initialized C e (traced "xrCreateSession" w))) with (w_ticks w) in F2.
  injection F2 as _ Hticks.
  destruct (resetSession_returns w2) as (w3' & H3' & _ & Hs & Hd & Ht & Hst & Hn & Hk).
  rewrite H3 in H3'. injection H3' as <-.
  destruct (resetSession_bookkeeping w2) as (w3' & H3' & Hframe & _).
  rewrite H3 in H3'. injection H3' as <-.
  pose proof (createReferenceSpaces_state w3) as F4. rewrite H4 in F4. cbn [snd] in F4.
  injection F4 as Fs Fd Ft Fk.
  pose proof (createReferenceSpaces_bookkeeping w3) as G4. rewrite H4 in G4. cbn [snd] in G4.
  injection G4 as _ Gf Gs Gn.
  rewrite Fs, Fd, Ft, Fk, Gf, Gs, Gn, Hs, Hd, Ht, Hst, Hn, Hk, Hticks, Hframe.
  repeat split. exact Hc.
Qed.

(** X9. After [xrCreateSession] ended with the failure of a reference
    space, its preconditions hold again, and [xrDestroySession] refuses
    the handle and so calls no cleanup routine.  The same call of
    [xrCreateSession], made again, initializes the same graphics binding
    a second time, no cleanup routine having been called in between. *)
Theorem xrCreateSession_retry_initializes_again
    (instance : XrInstance) (createInfo : XrSessionCreateInfo) (w w' : World Ext)
    (r : XrResult) :
  xrCreateSession C P instance createInfo w = (Throw (XrCmdFailed r), w') ->
  create_preconditions instance createInfo w'
  /\ (forall fuel : nat,
         xrDestroySession C P fuel 1 w'
         = (Ret XR_ERROR_HANDLE_INVALID, traced "xrDestroySession" w'))
  /\ exists e,
       eligible w e = true
       /\ initializers (snd (xrCreateSession C P instance createInfo w'))
          = Call (initializer_call e) :: Call (initializer_call e) :: initializers w
       /\ cleanups (snd (xrCreateSession C P instance createInfo w')) = cleanups w.
Proof.
  intros H.
  destruct (create_cases instance createInfo w)
    as [(r0 & w1 & Hr & _) | (pre & e & post & Hpre & Hchain & Hskip & He & Hok & Hrun)].
  { rewrite Hr in H. discriminate H. }
  rewrite Hrun in H.
  apply create_blocks_Throw_inv in H as (w2 & w3 & H2 & H3 & H4).
  pose proof (createReferenceSpaces_throws _ _ _ H4) as (Hc & _).
  pose proof (create_blocks_observed _ _ _ _ _ H2 H3 H4) as Hobs.
  assert (Hinst : rt_instance w' = rt_instance w)
    by exact (Hobs _ (fun w : World Ext => rt_instance w) readConfiguration_frame
                resetSession_instance createReferenceSpaces_instance).
  assert (Hinit : initializers w' = Call (initializer_call e) :: initializers w).
  { rewrite (Hobs _ initializers readConfiguration_initializers resetSession_initializers
               createReferenceSpaces_initializers).
    apply initialized_initializers. }
  assert (Hclean : cleanups w' = cleanups w).
  { rewrite (Hobs _ cleanups readConfiguration_cleanups resetSession_cleanups
               createReferenceSpaces_cleanups).
    apply initialized_preserves_cleanups. }
  assert (Hpre' : create_preconditions instance createInfo w').
  { destruct Hpre as (Ht & Hi & Hh & Hs & Hid & Hq & _).
    unfold create_preconditions.
    change (m_instanceCreated w') with (m_instanceCreated (rt_instance w')).
    change (m_systemCreated w') with (m_systemCreated (rt_instance w')).
    change (m_graphicsRequirementQueried w')
      with (m_graphicsRequirementQueried (rt_instance w')).
    rewrite Hinst. repeat split; assumption. }
  split; [exact Hpre' |]. split.
  - intros fuel. unfold xrDestroySession. rewrite bind_emit, bind_this. cbv beta.
    change (w_rt (logged (Trace "xrDestroySession") w')) with (w_rt w').
    rewrite Hc. reflexivity.
  - exists e. split; [exact He |].
    assert (Hskip' : forall x, In x pre -> eligible w' x = false).
    { intros x Hx. rewrite (eligible_instance w w' x Hinst). exact (Hskip x Hx). }
    assert (He' : eligible w' e = true)
      by (rewrite (eligible_instance w w' e Hinst); exact He).
    destruct (create_calls_first_eligible _ _ _ _ _ _ Hpre' Hchain Hskip' He') as [Hi Hcl].
    rewrite Hi, Hcl, Hinit, Hclean. split; reflexivity.
Qed.

(** *** The entries of the chain that are not looked at *)

(** X10. [xrCreateSession] depends on the chain of its request through
    the first eligible entry only: the entries before it, which are not
    eligible, and the entries after it, whatever they are, can be replaced
    by others, or left out, and the call ends with the same result in the
    same world. *)
Theorem xrCreateSession_first_eligible_entry_decides
    (instance : XrInstance) (createInfo : XrSessionCreateInfo) (w : World Ext)
    (pre post pre' post' : list XrBaseInStructure) (e : XrBaseInStructure) :
  ci_next createInfo = (pre ++ e :: post)%list ->
  (forall x, In x pre -> eligible w x = false) ->
  (forall x, In x pre' -> eligible w x = false) ->
  eligible w e = true ->
  xrCreateSession C P instance
    {| ci_type := ci_type createInfo; ci_next := (pre' ++ e :: post')%list;
       ci_createFlags := ci_createFlags createInfo; ci_systemId := ci_systemId createInfo |} w
  = xrCreateSession C P instance createInfo w.
Proof.
  intros Hchain Hskip Hskip' He.
  unfold xrCreateSession. cbn [ci_type ci_next ci_systemId].
  destruct (negb (ci_type createInfo =? XR_TYPE_SESSION_CREATE_INFO)); [reflexivity |].
  rewrite !bind_emit, !bind_this. cbv beta.
  destruct (negb (m_instanceCreated (w_rt (logged (Trace "xrCreateSession") w)))
            || negb (instance =? 1)); [reflexivity |].
  destruct (negb (m_systemCreated (w_rt (logged (Trace "xrCreateSession") w)))
            || negb (ci_systemId createInfo =? 1)); [reflexivity |].
  destruct (negb (m_graphicsRequirementQueried (w_rt (logged (Trace "xrCreateSession") w))));
    [reflexivity |].
  destruct (m_sessionCreated (w_rt (logged (Trace "xrCreateSession") w))); [reflexivity |].
  rewrite Hchain. unfold bind.
  rewrite (scan_first_eligible pre e post (logged (Trace "xrCreateSession") w) Hskip He).
  rewrite (scan_first_eligible pre' e post' (logged (Trace "xrCreateSession") w) Hskip' He).
  reflexivity.
Qed.

(** *** The configuration read at creation *)

Lemma create_blocks_Ret_inv (w0 w' : World Ext) (x : XrResult * option XrSession) :
  bind (readConfiguration C P) (fun _ =>
  bind (resetSession C P) (fun _ =>
  bind (createReferenceSpaces C) (fun _ =>
  bind (emit (Trace "xrCreateSession")) (fun _ =>
  ret (XR_SUCCESS, Some 1))))) w0
  = (Ret x, w') ->
  exists w2 w3 w4,
    readConfiguration C P w0 = (Ret tt, w2)
    /\ resetSession C P w2 = (Ret tt, w3)
    /\ createReferenceSpaces C w3 = (Ret tt, w4)
    /\ w' = traced "xrCreateSession" w4
    /\ x = (XR_SUCCESS, Some 1).
Proof.
  intros H.
  apply bind_Ret_inv in H as ([] & w2 & H2 & H).
  apply bind_Ret_inv in H as ([] & w3 & H3 & H).
  apply bind_Ret_inv in H as ([] & w4 & H4 & H).
  apply bind_Ret_inv in H as ([] & w5 & H5 & H).
  injection H5 as <-. injection H as <- <-.
  exists w2, w3, w4. repeat split; assumption.
Qed.

Lemma refreshSettings_observed :
  preserves (fun w : World Ext =>
               (m_useParallelProjection w, rt_instance w, rt_session w, rt_frame w,
                rt_others w, scenarios w, log_lines w))
    (refreshSettings P).
Proof. unfold refreshSettings. preserve. Qed.

(** What [readConfiguration] leaves when it returns. *)
Lemma readConfiguration_returned (w0 w2 : World Ext) :
  readConfiguration C P w0 = (Ret tt, w2) ->
  m_useParallelProjection w2
  = (pvr_getIntConfig P (m_pvrSession w0) "steamvr_use_native_fov" 0 =? 0)
  /\ log_lines w2
     = ((if m_useParallelProjection w2 then [LogLine "Parallel projection is enabled"] else [])
        ++ log_lines w0)%list
  /\ scenarios w2
     = LogScenario (scenario_api C w2)
         (negb (pvr_getIntConfig P (m_pvrSession w0) "enable_lighthouse_tracking" 0 =? 0))
         (pvr_getIntConfig P (m_pvrSession w0) "fov_level" 1)
         (m_useParallelProjection w2)
       :: scenarios w0
  /\ rt_instance w2 = rt_instance w0
  /\ rt_session w2 = rt_session w0
  /\ rt_frame w2 = rt_frame w0
  /\ rt_others w2 = rt_others w0.
Proof.
  unfold readConfiguration. intros H.
  apply bind_Ret_inv in H as ([] & w1 & H1 & H).
  assert (Hw1 : w1 = w0 \/ w1 = logged (Call RecenterTrackingOrigin) w0).
  { destruct (negb (value_or (getSetting P "recenter_on_startup") 1 =? 0)).
    - right. revert H1. unfold CHECK_PVRCMD, recenterTrackingOrigin. exec.
      destruct (negb (pvr_recenterTrackingOrigin P (m_pvrSession w0) =? pvr_success));
        exec; intros H1; [discriminate H1 | injection H1 as <-; reflexivity].
    - left. injection H1 as <-. reflexivity. }
  rewrite bind_this, bind_assign, bind_this in H. cbv beta in H.
  apply bind_Ret_inv in H as ([] & w1' & Hline & H).
  apply bind_Ret_inv in H as ([] & w1'' & Hrefresh & H).
  rewrite bind_this in H. cbv beta zeta in H. rewrite bind_emit, run_emit in H.
  injection H as <-.
  pose proof (refreshSettings_observed w1') as F. rewrite Hrefresh in F. cbn [snd] in F.
  injection F as Fp Fi Fs Ff Fo Fsc Fl.
  change (m_useParallelProjection
            (logged (LogScenario (scenario_api C w1'')
                       (negb (pvr_getIntConfig P (m_pvrSession w1'')
                                "enable_lighthouse_tracking" 0 =? 0))
                       (pvr_getIntConfig P (m_pvrSession w1'') "fov_level" 1)
                       (m_useParallelProjection w1''))
               (logged (Trace "PVR_Config") w1'')))
    with (m_useParallelProjection w1'').
  change (m_pvrSession w1'') with (m_pvrSession (rt_instance w1'')).
  unfold scenarios, log_lines in *. cbn [logged w_log w_rt filter is_scenario is_log_line].
  change (scenario_api C
            (logged (LogScenario (scenario_api C w1'')
                       (negb (pvr_getIntConfig P (m_pvrSession (rt_instance w1''))
                                "enable_lighthouse_tracking" 0 =? 0))
                       (pvr_getIntConfig P (m_pvrSession (rt_instance w1'')) "fov_level" 1)
                       (m_useParallelProjection w1''))
               (logged (Trace "PVR_Config") w1'')))
    with (scenario_api C w1'').
  rewrite Fp, Fi, Fs, Ff, Fo, Fsc, Fl.
  revert Hline.
  match goal with
  | |- context [if ?b then emit _ else ret tt] =>
      change b with (pvr_getIntConfig P (m_pvrSession w1) "steamvr_use_native_fov" 0 =? 0)
  end.
  destruct (pvr_getIntConfig P (m_pvrSession w1) "steamvr_use_native_fov" 0 =? 0) eqn:Hpp;
    intros Hline; injection Hline as <-;
    destruct Hw1 as [-> | ->]; cbn in Hpp |- *; rewrite ?Hpp; repeat split; reflexivity.
Qed.

Lemma resetSession_telemetry :
  preserves (fun w : World Ext => (rt_settings w, scenarios w, log_lines w))
    (resetSession C P).
Proof. unfold resetSession. preserve. Qed.

Lemma createReferenceSpaces_telemetry :
  preserves (fun w : World Ext => (rt_settings w, scenarios w, log_lines w))
    (createReferenceSpaces C).
Proof.
  unfold createReferenceSpaces, createReferenceSpace_origin, createReferenceSpace_view.
  preserve.
Qed.

Lemma is_scenario_call (e : XrBaseInStructure) :
  is_scenario (Call (initializer_call e)) = false.
Proof. reflexivity. Qed.

(** X11. A call of [xrCreateSession] that succeeds has set
    [m_useParallelProjection] to whether the SDK's [steamvr_use_native_fov]
    is 0, its default, and has written the line on the parallel
    projection to the log file when it is set.  It has given the
    telemetry one scenario record: the graphics API, which is D3D12,
    Vulkan or OpenGL when the session is one of these, asked in this
    order of the runtime object as the initializer and the settings left
    it, and D3D11 otherwise; whether [enable_lighthouse_tracking] is not 0,
    its default being 0; [fov_level], 1 by default; and the parallel
    projection flag. *)
Theorem xrCreateSession_logs_scenario
    (instance : XrInstance) (createInfo : XrSessionCreateInfo) (w w' : World Ext)
    (out : option XrSession)
    (pre : list XrBaseInStructure) (e : XrBaseInStructure) (post : list XrBaseInStructure) :
  ci_next createInfo = (pre ++ e :: post)%list ->
  (forall x, In x pre -> eligible w x = false) ->
  eligible w e = true ->
  xrCreateSession C P instance createInfo w = (Ret (XR_SUCCESS, out), w') ->
  m_useParallelProjection w'
  = (pvr_getIntConfig P (m_pvrSession w) "steamvr_use_native_fov" 0 =? 0)
  /\ log_lines w'
     = ((if m_useParallelProjection w' then [LogLine "Parallel projection is enabled"] else [])
        ++ log_lines w)%list
  /\ exists rt : Runtime Ext,
       rt_instance rt = rt_instance w
       /\ rt_session rt = rt_session w
       /\ rt_frame rt = rt_frame w
       /\ rt_settings rt = rt_settings w'
       /\ rt_others rt = snd (run_initializer C e w)
       /\ scenarios w'
          = LogScenario (scenario_api C rt)
              (negb (pvr_getIntConfig P (m_pvrSession w) "enable_lighthouse_tracking" 0 =? 0))
              (pvr_getIntConfig P (m_pvrSession w) "fov_level" 1)
              (m_useParallelProjection w')
            :: scenarios w.
Proof.
  intros Hchain Hskip He H.
  destruct (create_preconditions_or_failure instance createInfo w)
    as [Hpre | (r & w1 & Hr & Hf)].
  2: { rewrite Hr in H. injection H as -> _ _. discriminate Hf. }
  rewrite (create_first_eligible _ _ _ _ _ _ Hpre Hchain Hskip He) in H.
  destruct (XR_FAILED (fst (run_initializer C e w))) eqn:Hok.
  { injection H as Hx _ _. rewrite Hx in Hok. discriminate Hok. }
  apply create_blocks_Ret_inv in H as (w2 & w3 & w4 & H2 & H3 & H4 & -> & _).
  apply readConfiguration_returned in H2 as (Hpp & Hlines & Hscen & Hi & Hs & Hf & Ho).
  pose proof (resetSession_telemetry w2) as F3. rewrite H3 in F3. cbn [snd] in F3.
  pose proof (createReferenceSpaces_telemetry w3) as F4. rewrite H4 in F4. cbn [snd] in F4.
  assert (F : (rt_settings w4, scenarios w4, log_lines w4)
              = (rt_settings w2, scenarios w2, log_lines w2)) by congruence.
  injection F as Fset Fsc Fl.
  change (m_useParallelProjection (traced "xrCreateSession" w4))
    with (m_useParallelProjection (rt_settings w4)).
  change (log_lines (traced "xrCreateSession" w4)) with (log_lines w4).
  change (scenarios (traced "xrCreateSession" w4)) with (scenarios w4).
  change (m_useParallelProjection w2) with (m_useParallelProjection (rt_settings w2))
    in Hpp, Hlines, Hscen.
  rewrite Fset, Fsc, Fl.
  split; [exact Hpp |]. split; [exact Hlines |].
  exists (w_rt w2). repeat split; try assumption.
  symmetry. exact Fset.
Qed.

(** *** A creation that succeeds *)

Lemma readConfiguration_calls (w : World Ext) :
  calls (snd (readConfiguration C P w))
  = ((if recenter_on_startup P then [Call RecenterTrackingOrigin] else []) ++ calls w)%list.
Proof.
  unfold readConfiguration. rewrite bind_preserved.
  2: { intros _. unfold refreshSettings. preserve. }
  change (negb (value_or (getSetting P "recenter_on_startup") 1 =? 0))
    with (recenter_on_startup P).
  destruct (recenter_on_startup P); [| reflexivity].
  unfold CHECK_PVRCMD, recenterTrackingOrigin. exec.
  destruct (negb (pvr_recenterTrackingOrigin P (m_pvrSession w) =? pvr_success));
    exec; reflexivity.
Qed.

(** [readConfiguration] returns when no recentering is asked for or the
    recentering succeeds. *)
Lemma readConfiguration_returns (w : World Ext) :
  recenter_on_startup P = false
  \/ pvr_recenterTrackingOrigin P (m_pvrSession w) = pvr_success ->
  exists w2, readConfiguration C P w = (Ret tt, w2).
Proof.
  intros Hrec.
  destruct (readConfiguration_outcome w) as (w2 & [([] & Hw) | (x & (r & ->) & Hw)]).
  { exists w2. exact Hw. }
  exfalso. revert Hw. unfold readConfiguration.
  change (negb (value_or (getSetting P "recenter_on_startup") 1 =? 0))
    with (recenter_on_startup P).
  intros Hw. apply bind_Throw_inv in Hw as [Hw | ([] & w1 & _ & Hw)].
  - destruct (recenter_on_startup P) eqn:Hon; [| discriminate Hw].
    destruct Hrec as [Hrec | Hrec]; [discriminate Hrec |].
    revert Hw. unfold CHECK_PVRCMD, recenterTrackingOrigin. exec. rewrite Hrec.
    change (negb (pvr_success =? pvr_success)) with false. exec. discriminate.
  - match type of Hw with
    | ?c w1 = _ =>
        assert (Hends : ends (fun _ => False) c) by (unfold refreshSettings; ending)
    end.
    destruct (Hends w1) as (w3 & [(a & Ha) | (x & [] & _)]).
    rewrite Ha in Hw. discriminate Hw.
Qed.

Lemma resetSession_calls (w : World Ext) :
  exists w', resetSession C P w = (Ret tt, w')
             /\ calls w'
                = Call (RebindControllerActions 1) :: Call (RebindControllerActions 0)
                  :: calls w
             /\ m_sessionCreated w' = true.
Proof.
  unfold resetSession. exec. eexists. split; [reflexivity |]. split; reflexivity.
Qed.

(** The two reference spaces are created when [xrCreateReferenceSpace]
    accepts the handle of a created session. *)
Lemma createReferenceSpaces_succeeds (w : World Ext) :
  space_creation_succeeds C ->
  m_sessionCreated w = true ->
  exists w', createReferenceSpaces C w = (Ret tt, w')
             /\ calls w'
                = Call (CreateReferenceSpace 1 viewSpaceInfo)
                  :: Call (CreateReferenceSpace 1 localSpaceInfo) :: calls w
             /\ m_sessionCreated w' = true.
Proof.
  intros Hsp Hc.
  unfold createReferenceSpaces, createReferenceSpace_origin, createReferenceSpace_view,
    CHECK_XRCMD. exec.
  pose proof (Hsp localSpaceInfo (w_rt w) Hc) as H1.
  destruct (xrCreateReferenceSpace C 1 localSpaceInfo w) as [[r [space |]] o];
    cbn [fst snd] in H1 |- *; exec; rewrite H1; exec;
    match goal with
    | |- context [xrCreateReferenceSpace C 1 viewSpaceInfo ?rt] =>
        pose proof (Hsp viewSpaceInfo rt Hc) as H2;
        destruct (xrCreateReferenceSpace C 1 viewSpaceInfo rt) as [[r2 [space2 |]] o2]
    end; cbn [fst snd] in H2 |- *; exec; rewrite H2; exec;
    eexists; (split; [reflexivity |]); split; first [reflexivity | exact Hc].
Qed.

(** X12. [xrCreateSession] succeeds and stores the handle 1 when its
    preconditions hold, the first eligible entry of the chain is
    initialized with success, the recentering is not asked for or
    succeeds, and [xrCreateReferenceSpace] accepts the handle of a created
    session: the session is marked created before its reference spaces
    are.  The calls it makes are, in this order, the initializer, the
    recentering if asked for, the rebinding of the actions of the two
    controllers, and the creation of the local and of the view space
    (the log lists the latest first). *)
Theorem xrCreateSession_succeeds
    (instance : XrInstance) (createInfo : XrSessionCreateInfo) (w : World Ext)
    (pre : list XrBaseInStructure) (e : XrBaseInStructure) (post : list XrBaseInStructure) :
  create_preconditions instance createInfo w ->
  ci_next createInfo = (pre ++ e :: post)%list ->
  (forall x, In x pre -> eligible w x = false) ->
  eligible w e = true ->
  XR_FAILED (fst (run_initializer C e w)) = false ->
  getSetting P "recenter_on_startup" = Some 0
  \/ pvr_recenterTrackingOrigin P (m_pvrSession w) = pvr_success ->
  space_creation_succeeds C ->
  exists w',
    xrCreateSession C P instance createInfo w = (Ret (XR_SUCCESS, Some 1), w')
    /\ m_sessionCreated w' = true
    /\ calls w'
       = ([Call (CreateReferenceSpace 1 viewSpaceInfo);
           Call (CreateReferenceSpace 1 localSpaceInfo);
           Call (RebindControllerActions 1); Call (RebindControllerActions 0)]
          ++ (if value_or (getSetting P "recenter_on_startup") 1 =? 0
              then [] else [Call RecenterTrackingOrigin])
          ++ Call (initializer_call e) :: calls w)%list.
Proof.
  intros Hpre Hchain Hskip He Hok Hrec Hsp.
  rewrite (create_first_eligible _ _ _ _ _ _ Hpre Hchain Hskip He), Hok.
  destruct (readConfiguration_returns (initialized C e (traced "xrCreateSession" w)))
    as (w2 & H2).
  { destruct Hrec as [Hrec | Hrec]; [left | right; exact Hrec].
    unfold recenter_on_startup. rewrite Hrec. reflexivity. }
  pose proof (readConfiguration_calls (initialized C e (traced "xrCreateSession" w))) as Hc2.
  rewrite H2 in Hc2. cbn [snd] in Hc2.
  destruct (resetSession_calls w2) as (w3 & H3 & Hc3 & Hcreated).
  destruct (createReferenceSpaces_succeeds w3 Hsp Hcreated) as (w4 & H4 & Hc4 & Hcreated4).
  rewrite (bind_returned _ _ _ _ _ H2), (bind_returned _ _ _ _ _ H3),
    (bind_returned _ _ _ _ _ H4).
  exists (traced "xrCreateSession" w4). split; [reflexivity |]. split; [exact Hcreated4 |].
  change (calls (traced "xrCreateSession" w4)) with (calls w4).
  rewrite Hc4, Hc3, Hc2. unfold recenter_on_startup.
  destruct (value_or (getSetting P "recenter_on_startup") 1 =? 0); reflexivity.
Qed.

(** *** A destruction that does not run to its end *)

(** The loop throws nothing but the failure of a [xrDestroySwapchain]. *)
Lemma destroyAllSwapchains_throws (fuel : nat) (w w' : World Ext) (e : Exn) :
  destroyAllSwapchains C fuel w = (Throw e, w') ->
  exists r, e = XrCmdFailed r /\ XR_FAILED r = true.
Proof.
  revert w. induction fuel as [| fuel IH]; intros w; cbn [destroyAllSwapchains].
  - discriminate.
  - rewrite bind_this. cbv beta.
    destruct (m_swapchains w) as [| first rest]; [discriminate |].
    unfold CHECK_XRCMD. rewrite !bind_bind, bind_call. cbv beta.
    destruct (XR_FAILED (fst (xrDestroySwapchain C first w))) eqn:Hr.
    + rewrite bind_throw. intros H. injection H as <- _. eexists. split; [reflexivity | exact Hr].
    + rewrite bind_ret. apply IH.
Qed.

(** What is left when [xrDestroySession] ends with an exception. *)
Lemma destroy_Throw_inv (fuel : nat) (session : XrSession) (w w' : World Ext) (e : Exn) :
  xrDestroySession C P fuel session w = (Throw e, w') ->
  (exists r, e = XrCmdFailed r /\ XR_FAILED r = true)
  /\ m_sessionCreated w = true
  /\ (m_sessionCreated w', m_sessionState w', m_sessionStateDirty w', m_sessionExiting w',
      cleanups w', rt_instance w', usages w')
     = (m_sessionCreated w, m_sessionState w, m_sessionStateDirty w, m_sessionExiting w,
        cleanups w, rt_instance w,
        LogUsage (double_sub (device_clock P (w_ticks w)) (m_sessionStartTime w))
          (m_sessionTotalFrameCount w)
        :: usages w).
Proof.
  intros H.
  assert (Hc : m_sessionCreated w = true /\ session = 1).
  { revert H. unfold xrDestroySession. rewrite bind_emit, bind_this. cbv beta.
    change (w_rt (logged (Trace "xrDestroySession") w)) with (w_rt w).
    destruct (m_sessionCreated w); cbn [negb orb]; [| discriminate].
    destruct (session =? 1) eqn:Hs; cbn [negb]; [| discriminate].
    intros _. apply Z.eqb_eq in Hs. split; [reflexivity | exact Hs]. }
  destruct Hc as [Hc ->]. rewrite (destroy_past_handle fuel w Hc) in H.
  pose (f := fun w : World Ext =>
               (m_sessionCreated w, m_sessionState w, m_sessionStateDirty w,
                m_sessionExiting w, cleanups w, rt_instance w, usages w)).
  pose proof (destroyAllSwapchains_preserve f (fun _ _ _ => eq_refl) fuel) as Hloop.
  match type of H with
  | bind _ _ ?w0 = _ => specialize (Hloop w0); change ((exists r, e = XrCmdFailed r /\ XR_FAILED r = true)
                                                /\ m_sessionCreated w = true /\ f w' = f w0)
  end.
  apply bind_Throw_inv in H as [H | ([] & w1 & H1 & H)].
  - pose proof (destroyAllSwapchains_throws _ _ _ _ H) as He.
    rewrite H in Hloop. cbn [snd] in Hloop.
    split; [exact He |]. split; [exact Hc | exact Hloop].
  - rewrite H1 in Hloop. cbn [snd] in Hloop. rewrite <- Hloop. clear Hloop.
    revert H. unfold CHECK_XRCMD. rewrite bind_this. cbv beta.
    rewrite !bind_bind, bind_call. cbv beta.
    destruct (XR_FAILED (fst (xrDestroySpace C (m_originSpace w1) w1))) eqn:Hr1.
    { rewrite bind_throw. intros H. injection H as <- <-.
      split; [eexists; split; [reflexivity | exact Hr1] |].
      split; [exact Hc | reflexivity]. }
    rewrite bind_ret, bind_assign. cbv beta. rewrite bind_this. cbv beta.
    rewrite !bind_bind, bind_call. cbv beta.
    match goal with
    | |- context [XR_FAILED (fst (xrDestroySpace C ?s ?rt))] =>
        destruct (XR_FAILED (fst (xrDestroySpace C s rt))) eqn:Hr2
    end.
    { rewrite bind_throw. intros H. injection H as <- <-.
      split; [eexists; split; [reflexivity | exact Hr2] |].
      split; [exact Hc | reflexivity]. }
    rewrite bind_ret. exec. discriminate.
Qed.

(** X13. When [xrDestroySession] ends with an exception, that is the
    failure of a [xrDestroySwapchain] or of a [xrDestroySpace], and the
    rest of the destruction was not done: the session is still created,
    in the state it was in, with its dirty flag and [m_sessionExiting] as
    they were, and no cleanup routine of a backend was called.  So it is
    with the first swapchain of the set: when it cannot be destroyed the
    call ends there, with no other swapchain and no reference space
    destroyed. *)
Theorem xrDestroySession_aborts_on_failure :
  (forall (fuel : nat) (session : XrSession) (w w' : World Ext) (e : Exn),
      xrDestroySession C P fuel session w = (Throw e, w') ->
      (exists r, e = XrCmdFailed r /\ XR_FAILED r = true)
      /\ m_sessionCreated w' = true
      /\ m_sessionState w' = m_sessionState w
      /\ m_sessionStateDirty w' = m_sessionStateDirty w
      /\ m_sessionExiting w' = m_sessionExiting w
      /\ cleanups w' = cleanups w)
  /\ (forall (fuel : nat) (w : World Ext) (first : XrSwapchain) (rest : list XrSwapchain),
         m_sessionCreated w = true ->
         m_swapchains w = first :: rest ->
         XR_FAILED (fst (xrDestroySwapchain C first w)) = true ->
         xrDestroySession C P (S fuel) 1 w
         = (Throw (XrCmdFailed (fst (xrDestroySwapchain C first w))),
            called (DestroySwapchain first) (snd (xrDestroySwapchain C first w))
              (logged (LogUsage (double_sub (device_clock P (w_ticks w)) (m_sessionStartTime w))
                         (m_sessionTotalFrameCount w))
                 (ticked (traced "xrDestroySession" w))))).
Proof.
  split.
  - intros fuel session w w' e H.
    apply destroy_Throw_inv in H as (He & Hc & Hobs).
    injection Hobs as F1 F2 F3 F4 F5 _ _.
    rewrite F1, F2, F3, F4, F5. repeat split; assumption.
  - intros fuel w first rest Hc Hs Hfail.
    rewrite (destroy_past_handle (S fuel) w Hc). cbn [destroyAllSwapchains].
    rewrite !bind_bind, bind_this. cbv beta.
    change (m_swapchains
              (w_rt (logged (LogUsage (double_sub (device_clock P (w_ticks w))
                                         (m_sessionStartTime w))
                               (m_sessionTotalFrameCount w))
                       (ticked (traced "xrDestroySession" w)))))
      with (m_swapchains w).
    rewrite Hs. unfold CHECK_XRCMD. rewrite !bind_bind, bind_call. cbv beta.
    change (xrDestroySwapchain C first
              (w_rt (logged (LogUsage (double_sub (device_clock P (w_ticks w))
                                         (m_sessionStartTime w))
                               (m_sessionTotalFrameCount w))
                       (ticked (traced "xrDestroySession" w)))))
      with (xrDestroySwapchain C first w).
    rewrite Hfail, bind_throw. reflexivity.
Qed.

(** The loop never ends when [xrDestroySwapchain] reports success and the
    set stays inhabited: it is out of steps however many it is granted,
    having called [xrDestroySwapchain] at each of them. *)
Lemma destroyAllSwapchains_spins (fuel : nat) (w : World Ext) :
  swapchain_destruction_leaves_one C ->
  m_swapchains w <> [] ->
  exists w',
    destroyAllSwapchains C fuel w = (Exhausted, w')
    /\ List.length (calls w') = (fuel + List.length (calls w))%nat.
Proof.
  intros Hstay. revert w. induction fuel as [| fuel IH]; intros w Hs.
  - exists w. split; reflexivity.
  - cbn [destroyAllSwapchains]. rewrite bind_this. cbv beta.
    destruct (m_swapchains w) as [| first rest] eqn:Hw; [contradiction Hs; reflexivity |].
    unfold CHECK_XRCMD. rewrite !bind_bind, bind_call. cbv beta.
    destruct (Hstay w first rest Hw) as [Hok Hleft]. rewrite Hok, bind_ret.
    destruct (IH (called (DestroySwapchain first) (snd (xrDestroySwapchain C first w)) w))
      as (w' & Hrun & Hlen); [exact Hleft |].
    exists w'. split; [exact Hrun |]. rewrite Hlen.
    unfold calls, called. cbn [w_log filter is_call List.length].
    rewrite Nat.add_succ_r. reflexivity.
Qed.

(** X14. [xrDestroySession] relies on [xrDestroySwapchain] to erase the
    swapchain from the set.  With a [xrDestroySwapchain] that, called on
    the first swapchain of the set, reports success and leaves a
    swapchain in the set (one that erases nothing is such), the
    destruction of a session that owns a swapchain does not end:
    whatever the number of steps it is granted, it uses them up, calling
    [xrDestroySwapchain] at each step, and reaches neither the reference
    spaces nor the cleanup routines. *)
Theorem xrDestroySession_needs_swapchains_erased (fuel : nat) (w : World Ext) :
  swapchain_destruction_leaves_one C ->
  m_sessionCreated w = true ->
  m_swapchains w <> [] ->
  fst (xrDestroySession C P fuel 1 w) = Exhausted
  /\ List.length (calls (snd (xrDestroySession C P fuel 1 w)))
     = (fuel + List.length (calls w))%nat
  /\ cleanups (snd (xrDestroySession C P fuel 1 w)) = cleanups w
  /\ m_sessionCreated (snd (xrDestroySession C P fuel 1 w)) = true.
Proof.
  intros Hstay Hc Hs.
  destruct (destroyAllSwapchains_spins fuel
              (logged (LogUsage (double_sub (device_clock P (w_ticks w)) (m_sessionStartTime w))
                         (m_sessionTotalFrameCount w))
                 (ticked (traced "xrDestroySession" w))) Hstay Hs) as (w' & Hrun & Hlen).
  pose proof (destroyAllSwapchains_preserve
                (fun w : World Ext => (cleanups w, m_sessionCreated w))
                (fun _ _ _ => eq_refl) fuel
                (logged (LogUsage (double_sub (device_clock P (w_ticks w))
                                     (m_sessionStartTime w))
                           (m_sessionTotalFrameCount w))
                   (ticked (traced "xrDestroySession" w)))) as Hobs.
  rewrite Hrun in Hobs. cbn [snd] in Hobs. injection Hobs as Hcl Hcr.
  assert (Heq : xrDestroySession C P fuel 1 w = (Exhausted, w')).
  { rewrite (destroy_past_handle fuel w Hc). unfold bind at 1. rewrite Hrun. reflexivity. }
  rewrite Heq. cbn [fst snd].
  split; [reflexivity |]. split; [exact Hlen |]. split; [exact Hcl |].
  rewrite Hcr. exact Hc.
Qed.

(** *** The reference spaces at destruction *)

Lemma filter_all {A : Type} (f : A -> bool) (l : list A) :
  (forall x, In x l -> f x = true) -> filter f l = l.
Proof.
  induction l as [| x l IH]; intros H; [reflexivity |].
  cbn [filter]. rewrite (H x (or_introl eq_refl)).
  rewrite IH; [reflexivity |]. intros y Hy. apply H. right. exact Hy.
Qed.

Lemma calls_after_swapchains (l : list XrSwapchain) (log : list Event) :
  filter is_call (rev (map (fun s => Call (DestroySwapchain s)) l) ++ log)%list
  = (rev (map (fun s => Call (DestroySwapchain s)) l) ++ filter is_call log)%list.
Proof.
  rewrite filter_app. f_equal. apply filter_all.
  intros x Hx. apply in_rev in Hx. apply in_map_iff in Hx as (s & <- & _). reflexivity.
Qed.

(** How [xrDestroySession] ends once the swapchains are destroyed: with
    the failure of the destruction of the origin space, with the one of
    the view space, or with success. *)
Lemma destroy_after_swapchains (fuel : nat) (w w1 : World Ext) :
  m_sessionCreated w = true ->
  destroyAllSwapchains C fuel (usage_logged P w) = (Ret tt, w1) ->
  (XR_FAILED (fst (xrDestroySpace C (m_originSpace w1) w1)) = true
   /\ xrDestroySession C P fuel 1 w
      = (Throw (XrCmdFailed (fst (xrDestroySpace C (m_originSpace w1) w1))),
         called (DestroySpace (m_originSpace w1))
           (snd (xrDestroySpace C (m_originSpace w1) w1)) w1))
  \/ (XR_FAILED (fst (xrDestroySpace C (m_originSpace w1) w1)) = false
      /\ XR_FAILED (fst (xrDestroySpace C (m_viewSpace w1) (origin_destroyed C w1))) = true
      /\ xrDestroySession C P fuel 1 w
         = (Throw (XrCmdFailed
                     (fst (xrDestroySpace C (m_viewSpace w1) (origin_destroyed C w1)))),
            called (DestroySpace (m_viewSpace w1))
              (snd (xrDestroySpace C (m_viewSpace w1) (origin_destroyed C w1)))
              (origin_destroyed C w1)))
  \/ (XR_FAILED (fst (xrDestroySpace C (m_originSpace w1) w1)) = false
      /\ XR_FAILED (fst (xrDestroySpace C (m_viewSpace w1) (origin_destroyed C w1))) = false
      /\ exists w',
           xrDestroySession C P fuel 1 w = (Ret XR_SUCCESS, w')
           /\ rt_instance w' = rt_instance w1
           /\ m_sessionCreated w' = false
           /\ m_sessionState w' = XR_SESSION_STATE_UNKNOWN
           /\ m_sessionExiting w' = false
           /\ calls w'
              = [Call CleanupD3D11; Call CleanupD3D12; Call CleanupVulkan; Call CleanupOpenGL;
                 Call (DestroySpace (m_viewSpace w1)); Call (DestroySpace (m_originSpace w1))]
                ++ calls w1)%list.
Proof.
  intros Hc Hrun. rewrite (destroy_past_handle fuel w Hc).
  change (logged (LogUsage (double_sub (device_clock P (w_ticks w)) (m_sessionStartTime w))
                    (m_sessionTotalFrameCount w))
            (ticked (traced "xrDestroySession" w)))
    with (usage_logged P w).
  rewrite (bind_returned _ _ _ _ _ Hrun).
  unfold CHECK_XRCMD. rewrite bind_this. cbv beta.
  rewrite !bind_bind, bind_call. cbv beta.
  destruct (XR_FAILED (fst (xrDestroySpace C (m_originSpace w1) w1))) eqn:Hr1.
  { left. rewrite bind_throw. split; reflexivity. }
  right. rewrite bind_ret, bind_assign. cbv beta.
  change (stored L.m_originSpace XR_NULL_HANDLE
            (called (DestroySpace (m_originSpace w1))
               (snd (xrDestroySpace C (m_originSpace w1) w1)) w1))
    with (origin_destroyed C w1).
  rewrite bind_this. cbv beta. rewrite !bind_bind, bind_call. cbv beta.
  change (m_viewSpace (w_rt (origin_destroyed C w1))) with (m_viewSpace w1).
  destruct (XR_FAILED (fst (xrDestroySpace C (m_viewSpace w1) (origin_destroyed C w1))))
    eqn:Hr2.
  { left. rewrite bind_throw. repeat split. }
  right. rewrite bind_ret. exec.
  split; [reflexivity |]. split; [reflexivity |].
  eexists. split; [reflexivity |]. repeat split.
Qed.

(** X15. When the view space cannot be destroyed, [xrDestroySession] ends
    with that failure after the origin space is destroyed and its handle
    cleared, and the session stays created.  [xrDestroySession] called
    again then destroys the swapchains there are and next calls
    [xrDestroySpace] on the null handle that [m_originSpace] now holds. *)
Theorem xrDestroySession_retry_destroys_null_space (fuel fuel' : nat) (w : World Ext) :
  swapchain_destruction_succeeds C ->
  m_sessionCreated w = true ->
  (List.length (m_swapchains w) < fuel)%nat ->
  (forall rt : Runtime Ext, XR_FAILED (fst (xrDestroySpace C (m_originSpace w) rt)) = false) ->
  (forall rt : Runtime Ext, XR_FAILED (fst (xrDestroySpace C (m_viewSpace w) rt)) = true) ->
  exists r w',
    xrDestroySession C P fuel 1 w = (Throw (XrCmdFailed r), w')
    /\ m_sessionCreated w' = true
    /\ m_originSpace w' = XR_NULL_HANDLE
    /\ m_viewSpace w' = m_viewSpace w
    /\ ((List.length (m_swapchains w') < fuel')%nat ->
        exists later,
          calls (snd (xrDestroySession C P fuel' 1 w'))
          = (later
             ++ Call (DestroySpace XR_NULL_HANDLE)
                :: rev (map (fun s => Call (DestroySwapchain s)) (m_swapchains w'))
             ++ calls w')%list).
Proof.
  intros Hsw Hc Hlt Ho Hv.
  destruct (destroyAllSwapchains_drains Hsw fuel (usage_logged P w) Hlt)
    as (w1 & Hrun & _ & _ & Hsess & _).
  change (rt_session w1 = rt_session w) in Hsess.
  assert (Ho1 : m_originSpace w1 = m_originSpace w)
    by (change (m_originSpace (rt_session w1) = m_originSpace w); rewrite Hsess; reflexivity).
  assert (Hv1 : m_viewSpace w1 = m_viewSpace w)
    by (change (m_viewSpace (rt_session w1) = m_viewSpace w); rewrite Hsess; reflexivity).
  assert (Hc1 : m_sessionCreated w1 = true)
    by (change (m_sessionCreated (rt_session w1) = true); rewrite Hsess; exact Hc).
  destruct (destroy_after_swapchains fuel w w1 Hc Hrun)
    as [(Hr1 & _) | [(_ & _ & Heq) | (_ & Hr2 & _)]].
  { rewrite Ho1, Ho in Hr1. discriminate Hr1. }
  2: { rewrite Hv1, Hv in Hr2. discriminate Hr2. }
  set (w' := called (DestroySpace (m_viewSpace w1))
               (snd (xrDestroySpace C (m_viewSpace w1) (origin_destroyed C w1)))
               (origin_destroyed C w1)) in Heq.
  assert (Hc' : m_sessionCreated w' = true) by exact Hc1.
  assert (Ho' : m_originSpace w' = XR_NULL_HANDLE) by reflexivity.
  assert (Hv' : m_viewSpace w' = m_viewSpace w) by exact Hv1.
  clearbody w'.
  eexists. exists w'. split; [exact Heq |].
  split; [exact Hc' |]. split; [exact Ho' |]. split; [exact Hv' |].
  intros Hlt'.
  destruct (destroyAllSwapchains_drains Hsw fuel' (usage_logged P w') Hlt')
    as (w2 & Hrun2 & Hlog2 & _ & Hsess2 & _).
  change (rt_session w2 = rt_session w') in Hsess2.
  change (m_swapchains (usage_logged P w')) with (m_swapchains w') in Hlog2.
  assert (Ho2 : m_originSpace w2 = XR_NULL_HANDLE)
    by (change (m_originSpace (rt_session w2) = XR_NULL_HANDLE); rewrite Hsess2; exact Ho').
  assert (Hv2 : m_viewSpace w2 = m_viewSpace w)
    by (change (m_viewSpace (rt_session w2) = m_viewSpace w); rewrite Hsess2; exact Hv').
  assert (Hcalls2 : calls w2
                    = (rev (map (fun s => Call (DestroySwapchain s)) (m_swapchains w'))
                       ++ calls w')%list).
  { unfold calls. rewrite Hlog2, calls_after_swapchains. reflexivity. }
  destruct (destroy_after_swapchains fuel' w' w2 Hc' Hrun2)
    as [(_ & Heq2) | [(_ & _ & Heq2) | (_ & Hr2 & _)]].
  - exists []. rewrite Heq2. cbn [snd app].
    change (calls (called (DestroySpace (m_originSpace w2))
                     (snd (xrDestroySpace C (m_originSpace w2) w2)) w2))
      with (Call (DestroySpace (m_originSpace w2)) :: calls w2).
    rewrite Ho2, Hcalls2. reflexivity.
  - exists [Call (DestroySpace (m_viewSpace w2))]. rewrite Heq2. cbn [snd app].
    change (calls (called (DestroySpace (m_viewSpace w2))
                     (snd (xrDestroySpace C (m_viewSpace w2) (origin_destroyed C w2)))
                     (origin_destroyed C w2)))
      with (Call (DestroySpace (m_viewSpace w2))
            :: Call (DestroySpace (m_originSpace w2)) :: calls w2).
    rewrite Ho2, Hcalls2. reflexivity.
  - rewrite Hv2, Hv in Hr2. discriminate Hr2.
Qed.

(** *** The usage record *)

Lemma destroy_usages (fuel : nat) (w : World Ext) :
  m_sessionCreated w = true ->
  usages (snd (xrDestroySession C P fuel 1 w))
  = LogUsage (double_sub (device_clock P (w_ticks w)) (m_sessionStartTime w))
      (m_sessionTotalFrameCount w)
    :: usages w.
Proof.
  intros Hc. rewrite (destroy_past_handle fuel w Hc).
  match goal with
  | |- usages (snd (?c ?w0)) = _ =>
      assert (Hp : preserves usages c);
      [| rewrite (Hp w0); reflexivity]
  end.
  apply preserves_bind.
  - apply destroyAllSwapchains_preserve. reflexivity.
  - intros _. preserve.
Qed.

(** *** From creation to destruction *)

(** What a creation that succeeded leaves. *)
Lemma create_success_session
    (instance : XrInstance) (createInfo : XrSessionCreateInfo) (w w' : World Ext)
    (out : option XrSession) :
  xrCreateSession C P instance createInfo w = (Ret (XR_SUCCESS, out), w') ->
  create_preconditions instance createInfo w
  /\ rt_instance w' = rt_instance w
  /\ m_sessionCreated w' = true
  /\ m_sessionState w' = XR_SESSION_STATE_IDLE
  /\ m_sessionStartTime w' = device_clock P (w_ticks w)
  /\ m_sessionTotalFrameCount w' = 0.
Proof.
  intros H.
  destruct (create_cases instance createInfo w)
    as [(r0 & w1 & Hr & Hf) | (pre & e & post & Hpre & Hchain & Hskip & He & Hok & Hrun)].
  { rewrite Hr in H. injection H as Hx _ _. rewrite Hx in Hf. discriminate Hf. }
  rewrite Hrun in H.
  apply create_blocks_Ret_inv in H as (w2 & w3 & w4 & H2 & H3 & H4 & -> & _).
  pose proof (create_blocks_observed _ _ _ _ _ H2 H3 H4) as Hobs.
  assert (Hinst : rt_instance w4 = rt_instance w)
    by exact (Hobs _ (fun w : World Ext => rt_instance w) readConfiguration_frame
                resetSession_instance createReferenceSpaces_instance).
  pose proof (readConfiguration_session (initialized C e (traced "xrCreateSession" w))) as F2.
  rewrite H2 in F2. cbn [snd] in F2.
  change (w_ticks (initialized C e (traced "xrCreateSession" w))) with (w_ticks w) in F2.
  injection F2 as _ Hticks.
  destruct (resetSession_returns w2) as (w3' & H3' & Hc & Hs & _ & _ & Hst & Hn & _).
  rewrite H3 in H3'. injection H3' as <-.
  pose proof (createReferenceSpaces_state w3) as F4. rewrite H4 in F4. cbn [snd] in F4.
  injection F4 as Fs _ _ _.
  pose proof (createReferenceSpaces_bookkeeping w3) as G4. rewrite H4 in G4. cbn [snd] in G4.
  injection G4 as _ _ Gs Gn.
  split; [exact Hpre |]. split; [exact Hinst |].
  split; [change (m_sessionCreated w4 = true);
          rewrite (createReferenceSpaces_returns _ _ H4); exact Hc |].
  split; [change (m_sessionState w4 = XR_SESSION_STATE_IDLE); rewrite Fs; exact Hs |].
  split.
  - change (m_sessionStartTime w4 = device_clock P (w_ticks w)). rewrite Gs, Hst, Hticks.
    reflexivity.
  - change (m_sessionTotalFrameCount w4 = 0). rewrite Gn. exact Hn.
Qed.

(** X16. The usage record that [xrDestroySession] gives to the telemetry
    is given before anything is destroyed, and so whether or not the
    destruction runs to its end.  For a session that was created and then
    only begun, ended or asked to exit, whatever the calls, it tells the
    time from the reading of the clock at the creation to the one at the
    destruction, and a count of 0 frames. *)
Theorem xrDestroySession_logs_usage_since_creation
    (instance : XrInstance) (createInfo : XrSessionCreateInfo) (w w1 : World Ext)
    (out : option XrSession) (cs : list LifecycleCall) (fuel : nat) :
  xrCreateSession C P instance createInfo w = (Ret (XR_SUCCESS, out), w1) ->
  usages (snd (xrDestroySession C P fuel 1 (snd (lifecycle_calls P cs w1))))
  = LogUsage
      (double_sub (device_clock P (w_ticks (snd (lifecycle_calls P cs w1))))
         (device_clock P (w_ticks w)))
      0
    :: usages w1.
Proof.
  intros H. apply create_success_session in H as (_ & _ & Hc & _ & Hst & Hn).
  pose proof (lifecycle_calls_preserve
                (fun w : World Ext =>
                   (m_sessionCreated w, m_sessionStartTime w, m_sessionTotalFrameCount w,
                    usages w))
                (fun _ _ => eq_refl) (fun _ => eq_refl) (fun _ _ => eq_refl) cs w1) as F.
  cbv beta in F. injection F as Fc Fst Fn Fu.
  rewrite destroy_usages by (rewrite Fc; exact Hc).
  rewrite Fst, Fn, Fu, Hst, Hn. reflexivity.
Qed.

Lemma destroyAllSwapchains_instance (fuel : nat) :
  preserves (fun w : World Ext => rt_instance w) (destroyAllSwapchains C fuel).
Proof. apply destroyAllSwapchains_preserve. reflexivity. Qed.

(** X17. The life of a session from end to end.  After [xrCreateSession]
    succeeded, [xrBeginSession] with the stereo view configuration,
    [xrRequestExitSession] and [xrEndSession] succeed in this order and
    leave the session idle with [m_sessionExiting] true; then, when the
    swapchains and the spaces can be destroyed, [xrDestroySession]
    succeeds and leaves no session, and the preconditions of the
    [xrCreateSession] that was called hold again. *)
Theorem session_from_creation_to_destruction
    (instance : XrInstance) (createInfo : XrSessionCreateInfo)
    (beginInfo : XrSessionBeginInfo) (w w1 : World Ext) (out : option XrSession)
    (fuel : nat) :
  swapchain_destruction_succeeds C ->
  space_destruction_succeeds C ->
  xrCreateSession C P instance createInfo w = (Ret (XR_SUCCESS, out), w1) ->
  bi_type beginInfo = XR_TYPE_SESSION_BEGIN_INFO ->
  bi_primaryViewConfigurationType beginInfo = XR_VIEW_CONFIGURATION_TYPE_PRIMARY_STEREO ->
  (List.length (m_swapchains w1) < fuel)%nat ->
  exists w2 w3,
    lifecycle_calls P [BeginSession 1 beginInfo; RequestExitSession 1; EndSession 1] w1
    = (Ret [XR_SUCCESS; XR_SUCCESS; XR_SUCCESS], w2)
    /\ m_sessionState w2 = XR_SESSION_STATE_IDLE
    /\ m_sessionExiting w2 = true
    /\ xrDestroySession C P fuel 1 w2 = (Ret XR_SUCCESS, w3)
    /\ m_sessionCreated w3 = false
    /\ m_sessionState w3 = XR_SESSION_STATE_UNKNOWN
    /\ m_sessionExiting w3 = false
    /\ create_preconditions instance createInfo w3.
Proof.
  intros Hsw Hsp H Ht Hv Hlt.
  apply create_success_session in H as (Hpre & Hinst & Hc & Hs & _ & _).
  pose (wa := transition P XR_SESSION_STATE_SYNCHRONIZED (traced "xrBeginSession" w1)).
  pose (wb := transition P XR_SESSION_STATE_STOPPING (traced "xrRequestExitSession" wa)).
  pose (w2 := transition P XR_SESSION_STATE_IDLE
                (stored L.m_sessionExiting true (traced "xrEndSession" wb))).
  assert (Hrun : lifecycle_calls P
                   [BeginSession 1 beginInfo; RequestExitSession 1; EndSession 1] w1
                 = (Ret [XR_SUCCESS; XR_SUCCESS; XR_SUCCESS], w2)).
  { cbn [lifecycle_calls lifecycle_call].
    rewrite (bind_returned _ _ _ _ _
               (xrBeginSession_runs beginInfo w1 Ht Hv Hc (or_introl Hs))).
    rewrite bind_bind.
    rewrite (bind_returned _ _ _ _ _
               (xrRequestExitSession_runs wa Hc (or_introl eq_refl))).
    rewrite !bind_bind.
    rewrite (bind_returned _ _ _ _ _ (xrEndSession_runs wb Hc eq_refl)).
    reflexivity. }
  assert (Hc2 : m_sessionCreated w2 = true) by exact Hc.
  assert (Hinst2 : rt_instance w2 = rt_instance w) by exact Hinst.
  assert (Hlt2 : (List.length (m_swapchains (usage_logged P w2)) < fuel)%nat) by exact Hlt.
  assert (Hs2 : m_sessionState w2 = XR_SESSION_STATE_IDLE) by reflexivity.
  assert (He2 : m_sessionExiting w2 = true) by reflexivity.
  clearbody w2. clear wa wb.
  destruct (destroyAllSwapchains_drains Hsw fuel (usage_logged P w2) Hlt2)
    as (wl & Hloop & _).
  pose proof (destroyAllSwapchains_instance fuel (usage_logged P w2)) as Hil.
  rewrite Hloop in Hil. cbn [snd] in Hil.
  change (rt_instance wl = rt_instance w2) in Hil.
  destruct (destroy_after_swapchains fuel w2 wl Hc2 Hloop)
    as [(Hr1 & _) | [(_ & Hr2 & _) | (_ & _ & w3 & Heq & Hi3 & Hc3 & Hs3 & He3 & _)]].
  { rewrite Hsp in Hr1. discriminate Hr1. }
  { rewrite Hsp in Hr2. discriminate Hr2. }
  exists w2, w3. repeat split; try assumption.
  all: destruct Hpre as (Hp1 & Hp2 & Hp3 & Hp4 & Hp5 & Hp6 & _); try assumption.
  - change (m_instanceCreated (rt_instance w3) = true). rewrite Hi3, Hil, Hinst2. exact Hp2.
  - change (m_systemCreated (rt_instance w3) = true). rewrite Hi3, Hil, Hinst2. exact Hp4.
  - change (m_graphicsRequirementQueried (rt_instance w3) = true).
    rewrite Hi3, Hil, Hinst2. exact Hp6.
Qed.

(** *** More on the settings *)

(** [refreshSettings] step by step. *)
Lemma refreshSettings_runs (w : World Ext) :
  refreshSettings P w
  = (Ret tt,
     logged (Trace "PXR_Config")
       (stored L.m_gpuFrameTimeFilterLength
          (value_or (getSetting P "frame_time_filter_length") 5)
          (stored L.m_gpuFrameTimeOverrideUs
             (uint64_of (uint64_out_of_range P)
                (overrideMagnitude
                   (value_or (getSetting P "frame_time_override_multiplier") 0)
                   (m_frameDuration w)))
             (stored L.m_gpuFrameTimeOverrideOffsetUs
                (value_or (getSetting P "frame_time_override_offset") 0)
                (stored L.m_forcedInteractionProfile
                   (if value_or (getSetting P "force_interaction_profile") 0 =? 1
                    then Some OculusTouchController
                    else if value_or (getSetting P "force_interaction_profile") 0 =? 2
                         then Some MicrosoftMotionController
                         else None)
                   (stored L.m_swapGripAimPoses
                      (negb (value_or (getSetting P "swap_grip_aim_poses") 0 =? 0))
                      (stored L.m_joystickDeadzone
                         (float_div
                            (float_of_int (value_or (getSetting P "joystick_deadzone") 2))
                            f100)
                         w))))))).
Proof.
  unfold refreshSettings. rewrite !bind_assign. cbv beta zeta.
  destruct (value_or (getSetting P "force_interaction_profile") 0 =? 1);
    [| destruct (value_or (getSetting P "force_interaction_profile") 0 =? 2)];
    exec; reflexivity.
Qed.

(** The settings that [refreshSettings] leaves. *)
Lemma refreshSettings_settings (w : World Ext) :
  rt_settings (snd (refreshSettings P w))
  = {| m_useParallelProjection := m_useParallelProjection w;
       m_joystickDeadzone :=
         float_div (float_of_int (value_or (getSetting P "joystick_deadzone") 2)) f100;
       m_swapGripAimPoses := negb (value_or (getSetting P "swap_grip_aim_poses") 0 =? 0);
       m_forcedInteractionProfile :=
         if value_or (getSetting P "force_interaction_profile") 0 =? 1
         then Some OculusTouchController
         else if value_or (getSetting P "force_interaction_profile") 0 =? 2
              then Some MicrosoftMotionController
              else None;
       m_gpuFrameTimeOverrideOffsetUs :=
         value_or (getSetting P "frame_time_override_offset") 0;
       m_gpuFrameTimeOverrideUs :=
         uint64_of (uint64_out_of_range P)
           (overrideMagnitude (value_or (getSetting P "frame_time_override_multiplier") 0)
              (m_frameDuration w));
       m_gpuFrameTimeFilterLength := value_or (getSetting P "frame_time_filter_length") 5 |}.
Proof. rewrite refreshSettings_runs. reflexivity. Qed.

(** X18. [refreshSettings] writes the six settings it derives and nothing
    else: the instance, the session, the frame bookkeeping, the members
    of the collaborators and [m_useParallelProjection] are as before.
    What it writes depends on the configuration store and on
    [m_frameDuration] only, not on the settings there were; so calling it
    again on an unchanged store changes nothing. *)
Theorem refreshSettings_overwrites_settings (w : World Ext) :
  rt_instance (snd (refreshSettings P w)) = rt_instance w
  /\ rt_session (snd (refreshSettings P w)) = rt_session w
  /\ rt_frame (snd (refreshSettings P w)) = rt_frame w
  /\ rt_others (snd (refreshSettings P w)) = rt_others w
  /\ m_useParallelProjection (snd (refreshSettings P w)) = m_useParallelProjection w
  /\ (forall w2 : World Ext,
         m_frameDuration w2 = m_frameDuration w ->
         m_useParallelProjection w2 = m_useParallelProjection w ->
         rt_settings (snd (refreshSettings P w2)) = rt_settings (snd (refreshSettings P w)))
  /\ w_rt (snd (refreshSettings P (snd (refreshSettings P w))))
     = w_rt (snd (refreshSettings P w)).
Proof.
  split; [rewrite refreshSettings_runs; reflexivity |].
  split; [rewrite refreshSettings_runs; reflexivity |].
  split; [rewrite refreshSettings_runs; reflexivity |].
  split; [rewrite refreshSettings_runs; reflexivity |].
  split; [rewrite refreshSettings_runs; reflexivity |].
  split.
  - intros w2 Hd Hp. rewrite !refreshSettings_settings, Hd, Hp. reflexivity.
  - rewrite (refreshSettings_runs (snd (refreshSettings P w))).
    rewrite !refreshSettings_runs. reflexivity.
Qed.

(** *** A multiplier below zero *)

Lemma binary_round_aux_negative (prec emax mx ex : Z) (lx : location) :
  is_negative_or_nan (binary_round_aux prec emax true mx ex lx) = true.
Proof.
  unfold binary_round_aux.
  destruct (shr_fexp prec emax mx ex lx) as [mrs' e'].
  destruct (shr_fexp prec emax (round_nearest_even (shr_m mrs') (loc_of_shr_record mrs')) e'
              loc_Exact) as [mrs'' e''].
  destruct (shr_m mrs'') as [| m | m]; [reflexivity | | reflexivity].
  destruct (e'' <=? emax - prec); reflexivity.
Qed.

Lemma binary_round_negative (prec emax : Z) (mx : positive) (ex : Z) :
  is_negative_or_nan (binary_round prec emax true mx ex) = true.
Proof.
  unfold binary_round.
  destruct (shl_align mx ex (fexp prec emax (Z.pos (digits2_pos mx) + ex))) as [mz ez].
  apply binary_round_aux_negative.
Qed.

Lemma float_of_int_negative (n : Z) :
  n < 0 -> is_negative_or_nan (float_of_int n) = true.
Proof.
  intros H. destruct n as [| p | p]; try discriminate H.
  unfold float_of_int, binary_normalize. apply binary_round_negative.
Qed.

(** The product of a negative value, or a NaN, by a positive finite
    value is again negative or a NaN. *)
Lemma SFmul_negative (prec emax : Z) (x y : spec_float) :
  is_negative_or_nan x = true ->
  is_positive_finite y = true ->
  is_negative_or_nan (SFmul prec emax x y) = true.
Proof.
  intros Hx Hy.
  destruct y as [sy | sy | | [|] my ey]; try discriminate Hy.
  destruct x as [sx | sx | | sx mx ex]; cbn in Hx |- *; subst; try reflexivity.
  apply binary_round_aux_negative.
Qed.

Lemma double_of_float_negative (x : float) :
  is_negative_or_nan x = true -> is_negative_or_nan (double_of_float x) = true.
Proof.
  intros Hx. destruct x as [s | s | | s m e]; cbn in Hx |- *; try assumption.
  subst s. apply binary_round_negative.
Qed.

Lemma overrideMagnitude_negative (m : Z) (frameDuration : double) :
  m < 0 ->
  is_positive_finite frameDuration = true ->
  is_negative_or_nan (overrideMagnitude m frameDuration) = true.
Proof.
  intros Hm Hd. unfold overrideMagnitude, double_mul, float_mul.
  apply SFmul_negative; [| vm_compute; reflexivity].
  apply SFmul_negative; [| exact Hd].
  apply double_of_float_negative.
  apply SFmul_negative; [| vm_compute; reflexivity].
  apply float_of_int_negative. exact Hm.
Qed.

(** The integral part of a negative value is not above 0. *)
Lemma trunc_negative (x : spec_float) (z : Z) :
  is_negative_or_nan x = true -> trunc x = Some z -> z <= 0.
Proof.
  intros Hx. destruct x as [s | s | | s m e]; cbn [trunc]; try discriminate.
  - intros H. injection H as <-. reflexivity.
  - cbn in Hx. subst s. cbn [cond_Zopp]. intros H. injection H as <-.
    assert (Ha : 0 <= match e with
                      | Z.neg k => Z.shiftr (Z.pos m) (Z.pos k)
                      | _ => Z.shiftl (Z.pos m) e
                      end).
    { destruct e as [| k | k].
      - apply Z.shiftl_nonneg. discriminate.
      - apply Z.shiftl_nonneg. discriminate.
      - apply Z.shiftr_nonneg. discriminate. }
    lia.
Qed.

(** The conversion to [uint64_t] of a negative value, or of a NaN, is 0
    when its integral part is 0, and is not defined otherwise. *)
Lemma uint64_of_negative (out_of_range : spec_float -> Z) (x : spec_float) :
  is_negative_or_nan x = true ->
  (trunc x = Some 0 -> uint64_of out_of_range x = 0)
  /\ (trunc x <> Some 0 -> uint64_of out_of_range x = out_of_range x).
Proof.
  intros Hx. unfold uint64_of. split.
  - intros H. rewrite H. reflexivity.
  - intros H. destruct (trunc x) as [z |] eqn:Hz; [| reflexivity].
    pose proof (trunc_negative x z Hx Hz) as Hle.
    assert (Hneg : z < 0) by (destruct (Z.eq_dec z 0) as [-> | Hne]; [contradiction H; reflexivity | lia]).
    destruct (0 <=? z) eqn:H0; [apply Z.leb_le in H0; lia | reflexivity].
Qed.

(** X19. [refreshSettings] takes the multiplier of the frame-time
    override as it finds it in the store, below zero included.  For a
    multiplier below zero and a frame duration above zero the product is
    negative (or a NaN).  When the integral part of the product is 0,
    that is when the product is above -1, the override is 0.  In every
    other case, the integral part being below 0 or the product not being
    finite, the conversion to [uint64_t] has no defined value and the
    override is what the platform makes of it. *)
Theorem refreshSettings_negative_multiplier (w : World Ext) (m : Z) :
  getSetting P "frame_time_override_multiplier" = Some m ->
  m < 0 ->
  is_positive_finite (m_frameDuration w) = true ->
  is_negative_or_nan (overrideMagnitude m (m_frameDuration w)) = true
  /\ (forall z : Z, trunc (overrideMagnitude m (m_frameDuration w)) = Some z -> z <= 0)
  /\ (trunc (overrideMagnitude m (m_frameDuration w)) = Some 0 ->
      m_gpuFrameTimeOverrideUs (snd (refreshSettings P w)) = 0)
  /\ (trunc (overrideMagnitude m (m_frameDuration w)) <> Some 0 ->
      m_gpuFrameTimeOverrideUs (snd (refreshSettings P w))
      = uint64_out_of_range P (overrideMagnitude m (m_frameDuration w))).
Proof.
  intros Hset Hm Hd.
  pose proof (overrideMagnitude_negative m (m_frameDuration w) Hm Hd) as Hneg.
  split; [exact Hneg |].
  split; [intros z Hz; exact (trunc_negative _ z Hneg Hz) |].
  change (m_gpuFrameTimeOverrideUs (snd (refreshSettings P w)))
    with (m_gpuFrameTimeOverrideUs (rt_settings (snd (refreshSettings P w)))).
  rewrite refreshSettings_settings. cbn [m_gpuFrameTimeOverrideUs].
  rewrite Hset. cbn [value_or].
  apply uint64_of_negative. exact Hneg.
Qed.

End Proofs.

(** ** The statements at work on the sample runtime *)

Lemma sample_swapchain_destruction : swapchain_destruction_succeeds Sample.C.
Proof.
  intros rt first rest H. split; [reflexivity |].
  cbn. rewrite H. reflexivity.
Defined.

Lemma sample_space_destruction : space_destruction_succeeds Sample.C.
Proof. intros rt space. reflexivity. Defined.

Lemma sample_preconditions (chain : list XrBaseInStructure) :
  create_preconditions 1 (Sample.createInfo chain) Sample.fresh.
Proof. repeat split. Defined.

(** A second session is refused while the first exists. *)
Lemma xrCreateSession_preconditions_in_order_witness :
  xrCreateSession Sample.C Sample.P 1 (Sample.createInfo [Sample.d3d11_entry])
    (Sample.session_in XR_SESSION_STATE_IDLE)
  = (Ret (XR_ERROR_LIMIT_REACHED, None),
     traced "xrCreateSession" (Sample.session_in XR_SESSION_STATE_IDLE)).
Proof.
  destruct (xrCreateSession_preconditions_in_order Sample.C Sample.P 1
              (Sample.createInfo [Sample.d3d11_entry])
              (Sample.session_in XR_SESSION_STATE_IDLE))
    as (_ & _ & _ & _ & _ & H).
  apply H; reflexivity.
Defined.

(** Of a chain with an entry that is no binding, a D3D11 entry and a
    Vulkan entry, the D3D11 entry alone is initialized. *)
Lemma xrCreateSession_first_eligible_binding_witness :
  create_preconditions 1
    (Sample.createInfo [Sample.other_entry; Sample.d3d11_entry; Sample.vulkan_entry])
    Sample.fresh
  /\ initializers
       (snd (xrCreateSession Sample.C Sample.P 1
               (Sample.createInfo [Sample.other_entry; Sample.d3d11_entry; Sample.vulkan_entry])
               Sample.fresh))
     = [Call (InitializeD3D11 [11])].
Proof.
  split; [apply sample_preconditions |].
  destruct (xrCreateSession_first_eligible_binding Sample.C Sample.P 1
              (Sample.createInfo [Sample.other_entry; Sample.d3d11_entry; Sample.vulkan_entry])
              Sample.fresh (sample_preconditions _))
    as (_ & H & _).
  destruct (H [Sample.other_entry] Sample.d3d11_entry [Sample.vulkan_entry] eq_refl)
    as [Hinit _].
  - intros x [<- | []]. reflexivity.
  - reflexivity.
  - exact Hinit.
Defined.

Lemma sample_validating_swapchains : swapchain_destruction_succeeds Sample.C_validating.
Proof.
  intros rt first rest H. split; [reflexivity |].
  cbn. rewrite H. reflexivity.
Defined.

(** The session of the sample with its two swapchains is torn down in
    order, by a [xrDestroySpace] that accepts its two spaces and no
    other handle. *)
Lemma xrDestroySession_teardown_order_witness :
  exists w',
    xrDestroySession Sample.C_validating Sample.P 3 1 (Sample.session_in XR_SESSION_STATE_IDLE)
    = (Ret XR_SUCCESS, w')
    /\ filter is_call (w_log w')
       = [Call CleanupD3D11; Call CleanupD3D12; Call CleanupVulkan; Call CleanupOpenGL;
          Call (DestroySpace 101); Call (DestroySpace 102);
          Call (DestroySwapchain 9); Call (DestroySwapchain 7)]
    /\ m_sessionCreated w' = false.
Proof.
  destruct (xrDestroySession_teardown_order Sample.C_validating Sample.P) as (Hrun & _).
  destruct (swapchains_destroyed_exists Sample.C_validating
              (usage_logged Sample.P (Sample.session_in XR_SESSION_STATE_IDLE))
              sample_validating_swapchains)
    as (w1 & Hd).
  destruct (Hrun 3%nat (Sample.session_in XR_SESSION_STATE_IDLE) w1 [7; 9] eq_refl Hd
              (le_n 3) eq_refl eq_refl)
    as (w' & Heq & Hlog & _ & _ & _ & _ & Hc & _).
  exists w'. split; [exact Heq |]. split; [rewrite Hlog; reflexivity | exact Hc].
Defined.

(** C3, as stated, fails twice.  The last member that a successful
    destruction writes is [m_sessionExiting], after [m_sessionCreated].
    And a call on the handle of the created session does not do what the
    claim says when a destruction fails: with a first swapchain that
    cannot be destroyed it ends with that failure, having destroyed no
    other swapchain and no space and called no cleanup routine, and the
    session is still created, in the state it was in. *)
Lemma xrDestroySession_order_and_aborted_teardown :
  (xrDestroySession Sample.C Sample.P 3 1 (Sample.session_in XR_SESSION_STATE_IDLE)
   = (Ret XR_SUCCESS,
      snd (xrDestroySession Sample.C Sample.P 3 1 (Sample.session_in XR_SESSION_STATE_IDLE)))
   /\ hd_error
        (w_log (snd (xrDestroySession Sample.C Sample.P 3 1
                       (Sample.session_in XR_SESSION_STATE_IDLE))))
      = Some (Store L.m_sessionExiting)
   /\ hd_error
        (w_log (snd (xrDestroySession Sample.C Sample.P 3 1
                       (Sample.session_in XR_SESSION_STATE_IDLE))))
      <> Some (Store L.m_sessionCreated))
  /\ (m_sessionCreated (Sample.session_in XR_SESSION_STATE_IDLE) = true
      /\ fst (xrDestroySession Sample.C_swapchain_fails Sample.P 3 1
                (Sample.session_in XR_SESSION_STATE_IDLE))
         = Throw (XrCmdFailed (-2))
      /\ filter is_call
           (w_log (snd (xrDestroySession Sample.C_swapchain_fails Sample.P 3 1
                          (Sample.session_in XR_SESSION_STATE_IDLE))))
         = [Call (DestroySwapchain 7)]
      /\ m_sessionCreated
           (snd (xrDestroySession Sample.C_swapchain_fails Sample.P 3 1
                   (Sample.session_in XR_SESSION_STATE_IDLE)))
         = true
      /\ m_sessionState
           (snd (xrDestroySession Sample.C_swapchain_fails Sample.P 3 1
                   (Sample.session_in XR_SESSION_STATE_IDLE)))
         = XR_SESSION_STATE_IDLE).
Proof.
  split.
  - split; [vm_compute; reflexivity |].
    split; [vm_compute; reflexivity | vm_compute; discriminate].
  - split; [reflexivity |]. split; [vm_compute; reflexivity |].
    split; [vm_compute; reflexivity |]. split; vm_compute; reflexivity.
Qed.

Lemma xrBeginSession_checks_in_order_witness :
  xrBeginSession Sample.P 1 Sample.stereo (Sample.session_in XR_SESSION_STATE_IDLE)
  = (Ret XR_SUCCESS,
     transition Sample.P XR_SESSION_STATE_SYNCHRONIZED
       (traced "xrBeginSession" (Sample.session_in XR_SESSION_STATE_IDLE)))
  /\ xrBeginSession Sample.P 1 Sample.stereo (Sample.session_in XR_SESSION_STATE_FOCUSED)
     = (Ret XR_ERROR_SESSION_NOT_READY,
        traced "xrBeginSession" (Sample.session_in XR_SESSION_STATE_FOCUSED)).
Proof.
  split.
  - destruct (xrBeginSession_checks_in_order Sample.P 1 Sample.stereo
                (Sample.session_in XR_SESSION_STATE_IDLE))
      as (_ & _ & _ & _ & _ & H).
    apply H; try reflexivity. left. reflexivity.
  - destruct (xrBeginSession_checks_in_order Sample.P 1 Sample.stereo
                (Sample.session_in XR_SESSION_STATE_FOCUSED))
      as (_ & _ & _ & _ & H & _).
    apply H; reflexivity.
Defined.

Lemma xrEndSession_from_stopping_only_witness :
  m_sessionCreated (Sample.session_in XR_SESSION_STATE_STOPPING) = true
  /\ fst (xrEndSession Sample.P 1 (Sample.session_in XR_SESSION_STATE_STOPPING))
     = Ret XR_SUCCESS
  /\ fst (xrEndSession Sample.P 1 (Sample.session_in XR_SESSION_STATE_IDLE))
     = Ret XR_ERROR_SESSION_NOT_STOPPING.
Proof.
  split; [reflexivity |]. split.
  - destruct (xrEndSession_from_stopping_only Sample.P
                (Sample.session_in XR_SESSION_STATE_STOPPING) eq_refl) as [_ H].
    destruct (H eq_refl) as [Hrun _]. rewrite Hrun. reflexivity.
  - destruct (xrEndSession_from_stopping_only Sample.P
                (Sample.session_in XR_SESSION_STATE_IDLE) eq_refl) as [H _].
    rewrite H; [reflexivity | discriminate].
Defined.

Lemma xrRequestExitSession_from_running_only_witness :
  m_sessionCreated (Sample.session_in XR_SESSION_STATE_SYNCHRONIZED) = true
  /\ fst (xrRequestExitSession Sample.P 1 (Sample.session_in XR_SESSION_STATE_SYNCHRONIZED))
     = Ret XR_SUCCESS
  /\ fst (xrRequestExitSession Sample.P 1 (Sample.session_in XR_SESSION_STATE_IDLE))
     = Ret XR_ERROR_SESSION_NOT_RUNNING.
Proof.
  split; [reflexivity |]. split.
  - destruct (xrRequestExitSession_from_running_only Sample.P
                (Sample.session_in XR_SESSION_STATE_SYNCHRONIZED) eq_refl) as [H _].
    destruct H as [Hrun _]; [left; reflexivity |]. rewrite Hrun. reflexivity.
  - destruct (xrRequestExitSession_from_running_only Sample.P
                (Sample.session_in XR_SESSION_STATE_IDLE) eq_refl) as (_ & _ & H).
    rewrite H; reflexivity.
Defined.

(** With a view space that cannot be created, the creation ends with the
    exception, no session created and no cleanup called. *)
Lemma xrCreateSession_reference_space_failure_witness :
  fst (xrCreateSession Sample.C_view_fails Sample.P 1
         (Sample.createInfo [Sample.d3d11_entry]) Sample.fresh)
  = Throw (XrCmdFailed (-2))
  /\ m_sessionCreated
       (snd (xrCreateSession Sample.C_view_fails Sample.P 1
               (Sample.createInfo [Sample.d3d11_entry]) Sample.fresh))
     = false
  /\ cleanups
       (snd (xrCreateSession Sample.C_view_fails Sample.P 1
               (Sample.createInfo [Sample.d3d11_entry]) Sample.fresh))
     = [].
Proof.
  assert (Hrun : xrCreateSession Sample.C_view_fails Sample.P 1
                   (Sample.createInfo [Sample.d3d11_entry]) Sample.fresh
                 = (Throw (XrCmdFailed (-2)),
                    snd (xrCreateSession Sample.C_view_fails Sample.P 1
                           (Sample.createInfo [Sample.d3d11_entry]) Sample.fresh)))
    by (vm_compute; reflexivity).
  destruct (xrCreateSession_reference_space_failure Sample.C_view_fails Sample.P)
    as (_ & _ & H & _).
  destruct (H _ _ _ _ _ Hrun) as (_ & _ & Hc & _ & Hcl).
  split; [rewrite Hrun; reflexivity |]. split; [exact Hc | exact Hcl].
Defined.

(** A session created at the first reading of the clock and begun at the
    second, on a clock that advances. *)
Lemma state_change_sets_dirty_and_event_time_witness :
  clock_advances Sample.P 0
  /\ double_ltb
       (m_sessionStateEventTime
          (snd (xrCreateSession Sample.C Sample.P 1
                  (Sample.createInfo [Sample.d3d11_entry]) Sample.fresh)))
       (m_sessionStateEventTime
          (snd (xrBeginSession Sample.P 1 Sample.stereo
                  (snd (xrCreateSession Sample.C Sample.P 1
                          (Sample.createInfo [Sample.d3d11_entry]) Sample.fresh)))))
     = true.
Proof.
  assert (Hclock : clock_advances Sample.P 0) by (vm_compute; reflexivity).
  split; [exact Hclock |].
  destruct (state_change_sets_dirty_and_event_time Sample.C Sample.P) as (_ & _ & _ & _ & H).
  destruct (H 1 (Sample.createInfo [Sample.d3d11_entry]) 1 Sample.stereo Sample.fresh
              (snd (xrCreateSession Sample.C Sample.P 1
                      (Sample.createInfo [Sample.d3d11_entry]) Sample.fresh))
              (snd (xrBeginSession Sample.P 1 Sample.stereo
                      (snd (xrCreateSession Sample.C Sample.P 1
                              (Sample.createInfo [Sample.d3d11_entry]) Sample.fresh))))
              (Some 1))
    as (_ & _ & Hiff & _).
  - vm_compute. reflexivity.
  - vm_compute. reflexivity.
  - apply Hiff. exact Hclock.
Defined.

(** C8, as stated, fails: on a device clock that does not go back and
    reads the same at two readings that follow each other,
    [xrCreateSession] succeeds, [xrBeginSession] succeeds after it, and
    the event time of the beginning is equal to the one of the creation,
    not strictly greater. *)
Lemma xrBeginSession_event_time_not_greater :
  fst (xrCreateSession Sample.C Sample.P_constant_clock 1
         (Sample.createInfo [Sample.d3d11_entry]) Sample.fresh)
  = Ret (XR_SUCCESS, Some 1)
  /\ fst (xrBeginSession Sample.P_constant_clock 1 Sample.stereo
            (snd (xrCreateSession Sample.C Sample.P_constant_clock 1
                    (Sample.createInfo [Sample.d3d11_entry]) Sample.fresh)))
     = Ret XR_SUCCESS
  /\ m_sessionStateEventTime
       (snd (xrBeginSession Sample.P_constant_clock 1 Sample.stereo
               (snd (xrCreateSession Sample.C Sample.P_constant_clock 1
                       (Sample.createInfo [Sample.d3d11_entry]) Sample.fresh))))
     = m_sessionStateEventTime
         (snd (xrCreateSession Sample.C Sample.P_constant_clock 1
                 (Sample.createInfo [Sample.d3d11_entry]) Sample.fresh))
  /\ double_ltb
       (m_sessionStateEventTime
          (snd (xrCreateSession Sample.C Sample.P_constant_clock 1
                  (Sample.createInfo [Sample.d3d11_entry]) Sample.fresh)))
       (m_sessionStateEventTime
          (snd (xrBeginSession Sample.P_constant_clock 1 Sample.stereo
                  (snd (xrCreateSession Sample.C Sample.P_constant_clock 1
                          (Sample.createInfo [Sample.d3d11_entry]) Sample.fresh)))))
     = false.
Proof.
  split; [vm_compute; reflexivity |]. split; [vm_compute; reflexivity |].
  split; vm_compute; reflexivity.
Qed.

Lemma refreshSettings_derives_settings_witness :
  exists w',
    refreshSettings Sample.P_multiplier_50 Sample.fresh = (Ret tt, w')
    /\ m_gpuFrameTimeOverrideUs w' = 5555000
    /\ m_gpuFrameTimeFilterLength w' = 5.
Proof.
  destruct (refreshSettings_derives_settings Sample.P_multiplier_50 Sample.fresh)
    as (w' & Hrun & _ & H50 & _ & _ & _ & _ & _ & _ & _ & _ & Hlen).
  exists w'. split; [exact Hrun |].
  split; [apply H50; reflexivity | apply Hlen; reflexivity].
Defined.

(** C9, as stated, fails: for a multiplier of 3 and the frame duration
    11.11, whose product by 10 and by 1000 is 333300, the override is
    333299.  The [double] nearest to 11.11 is a little below 11.11, the
    product computed with it is a little below 333300, and the conversion
    cuts off its fraction. *)
Lemma refreshSettings_override_below_product :
  m_frameDuration Sample.fresh = Sample.eleven_point_eleven
  /\ Sample.eleven_point_eleven = S754_finite false 6254373982510776 (-49)
  /\ getSetting Sample.P_multiplier_3 "frame_time_override_multiplier" = Some 3
  /\ m_gpuFrameTimeOverrideUs (snd (refreshSettings Sample.P_multiplier_3 Sample.fresh))
     = 333299
  /\ 3 * 10 * 1111 * 1000 = 333300 * 100
  /\ 333299 * 2 ^ 49 < 3 * 10 * 6254373982510776 * 1000 < 333300 * 2 ^ 49.
Proof.
  split; [reflexivity |]. split; [vm_compute; reflexivity |].
  split; [reflexivity |]. split; [vm_compute; reflexivity |].
  split; [reflexivity |]. split; reflexivity.
Qed.

(** The handle 2 does not end the session. *)
Lemma session_handle_is_one_witness :
  xrEndSession Sample.P 2 (Sample.session_in XR_SESSION_STATE_STOPPING)
  = (Ret XR_ERROR_HANDLE_INVALID,
     traced "xrEndSession" (Sample.session_in XR_SESSION_STATE_STOPPING)).
Proof.
  destruct (session_handle_is_one Sample.C Sample.P) as [_ H].
  destruct (H 2 (Sample.session_in XR_SESSION_STATE_STOPPING)) as (_ & _ & Hend & _).
  - right. discriminate.
  - exact Hend.
Defined.

(** C10, as stated, fails: with a handle other than 1 and a request that
    does not carry the expected structure tag, [xrBeginSession] fails with
    validation failure, not with handle invalid. *)
Lemma xrBeginSession_foreign_handle_untagged_request :
  2 <> 1
  /\ xrBeginSession Sample.P 2 Sample.untagged (Sample.session_in XR_SESSION_STATE_IDLE)
     = (Ret XR_ERROR_VALIDATION_FAILURE, Sample.session_in XR_SESSION_STATE_IDLE)
  /\ XR_ERROR_VALIDATION_FAILURE <> XR_ERROR_HANDLE_INVALID.
Proof.
  split; [discriminate |]. split; [reflexivity | discriminate].
Qed.

Lemma sample_creation :
  xrCreateSession Sample.C Sample.P 1 (Sample.createInfo [Sample.d3d11_entry]) Sample.fresh
  = (Ret (XR_SUCCESS, Some 1),
     snd (xrCreateSession Sample.C Sample.P 1 (Sample.createInfo [Sample.d3d11_entry])
            Sample.fresh)).
Proof. vm_compute. reflexivity. Defined.

Lemma xrCreateSession_single_session_witness :
  m_sessionCreated
    (snd (xrCreateSession Sample.C Sample.P 1 (Sample.createInfo [Sample.d3d11_entry])
            Sample.fresh))
  = true.
Proof.
  exact (proj1 (xrCreateSession_single_session Sample.C Sample.P 1
                  (Sample.createInfo [Sample.d3d11_entry]) Sample.fresh _ (Some 1)
                  sample_creation)).
Defined.

Lemma xrCreateSession_resets_bookkeeping_witness :
  m_sessionTotalFrameCount
    (snd (xrCreateSession Sample.C Sample.P 1 (Sample.createInfo [Sample.d3d11_entry])
            Sample.fresh))
  = 0.
Proof.
  exact (proj1 (proj2 (xrCreateSession_resets_bookkeeping Sample.C Sample.P 1
                         (Sample.createInfo [Sample.d3d11_entry]) Sample.fresh _ (Some 1)
                         sample_creation))).
Defined.

Lemma sample_space_creation : space_creation_succeeds Sample.C.
Proof. intros spaceInfo rt _. reflexivity. Defined.

Lemma sample_view_stays_swapchains : swapchain_destruction_succeeds Sample.C_view_stays.
Proof.
  intros rt first rest H. split; [reflexivity |].
  cbn. rewrite H. reflexivity.
Defined.

Lemma sample_swapchain_stays : swapchain_destruction_leaves_one Sample.C_swapchain_stays.
Proof.
  intros rt first rest H. split; [reflexivity |].
  change (m_swapchains rt <> []). rewrite H. discriminate.
Defined.

Lemma sample_view_failure :
  xrCreateSession Sample.C_view_fails Sample.P 1 (Sample.createInfo [Sample.d3d11_entry])
    Sample.fresh
  = (Throw (XrCmdFailed (-2)),
     snd (xrCreateSession Sample.C_view_fails Sample.P 1
            (Sample.createInfo [Sample.d3d11_entry]) Sample.fresh)).
Proof. vm_compute. reflexivity. Defined.

(** Begun, ended too early and asked to exit: two calls succeed. *)
Lemma lifecycle_calls_follow_state_machine_witness :
  exists results w',
    lifecycle_calls Sample.P
      [BeginSession 1 Sample.stereo; EndSession 1; RequestExitSession 1]
      (Sample.session_in XR_SESSION_STATE_IDLE)
    = (Ret results, w')
    /\ reached XR_SESSION_STATE_IDLE (m_sessionState w')
    /\ w_ticks w' = (1 + List.length (filter succeeded results))%nat.
Proof.
  destruct (lifecycle_calls_follow_state_machine Sample.P
              [BeginSession 1 Sample.stereo; EndSession 1; RequestExitSession 1]
              (Sample.session_in XR_SESSION_STATE_IDLE))
    as (results & w' & Hrun & _ & Hreach & Hticks & _).
  exists results, w'. split; [exact Hrun |]. split; [exact Hreach | exact Hticks].
Defined.

(** A session ended and begun again. *)
Lemma lifecycle_calls_keep_exiting_witness :
  exists w',
    lifecycle_calls Sample.P [EndSession 1; BeginSession 1 Sample.stereo]
      (Sample.session_in XR_SESSION_STATE_STOPPING)
    = (Ret [XR_SUCCESS; XR_SUCCESS], w')
    /\ m_sessionState w' = XR_SESSION_STATE_SYNCHRONIZED
    /\ m_sessionExiting w' = true.
Proof.
  exact (proj2 (lifecycle_calls_keep_exiting Sample.P) Sample.stereo
           (Sample.session_in XR_SESSION_STATE_STOPPING) eq_refl eq_refl eq_refl eq_refl).
Defined.

(** The setting is missing and the recentering fails. *)
Lemma xrCreateSession_recenter_on_startup_witness :
  xrCreateSession Sample.C Sample.P_recenter_fails 1 (Sample.createInfo [Sample.d3d11_entry])
    Sample.fresh
  = (Throw (PvrCmdFailed (-1)),
     logged (Call RecenterTrackingOrigin)
       (initialized Sample.C Sample.d3d11_entry (traced "xrCreateSession" Sample.fresh))).
Proof.
  destruct (xrCreateSession_recenter_on_startup Sample.C Sample.P_recenter_fails 1
              (Sample.createInfo [Sample.d3d11_entry]) Sample.fresh
              [] Sample.d3d11_entry [] (sample_preconditions _) eq_refl)
    as [H _].
  - intros x [].
  - reflexivity.
  - reflexivity.
  - destruct H as [_ H]; [discriminate |].
    destruct H as [H _]; [discriminate | exact H].
Defined.

Lemma xrCreateSession_space_failure_keeps_reset_witness :
  m_sessionCreated
    (snd (xrCreateSession Sample.C_view_fails Sample.P 1
            (Sample.createInfo [Sample.d3d11_entry]) Sample.fresh))
  = false
  /\ m_sessionState
       (snd (xrCreateSession Sample.C_view_fails Sample.P 1
               (Sample.createInfo [Sample.d3d11_entry]) Sample.fresh))
     = XR_SESSION_STATE_IDLE.
Proof.
  destruct (xrCreateSession_space_failure_keeps_reset Sample.C_view_fails Sample.P 1
              (Sample.createInfo [Sample.d3d11_entry]) Sample.fresh _ (-2)
              sample_view_failure)
    as (Hc & Hs & _).
  split; [exact Hc | exact Hs].
Defined.

Lemma xrCreateSession_retry_initializes_again_witness :
  create_preconditions 1 (Sample.createInfo [Sample.d3d11_entry])
    (snd (xrCreateSession Sample.C_view_fails Sample.P 1
            (Sample.createInfo [Sample.d3d11_entry]) Sample.fresh))
  /\ exists e,
       initializers
         (snd (xrCreateSession Sample.C_view_fails Sample.P 1
                 (Sample.createInfo [Sample.d3d11_entry])
                 (snd (xrCreateSession Sample.C_view_fails Sample.P 1
                         (Sample.createInfo [Sample.d3d11_entry]) Sample.fresh))))
       = [Call (initializer_call e); Call (initializer_call e)].
Proof.
  destruct (xrCreateSession_retry_initializes_again Sample.C_view_fails Sample.P 1
              (Sample.createInfo [Sample.d3d11_entry]) Sample.fresh _ (-2)
              sample_view_failure)
    as (Hpre & _ & e & _ & Hinit & _).
  split; [exact Hpre |]. exists e. exact Hinit.
Defined.

(** The entry that is no binding and the Vulkan entry make no
    difference. *)
Lemma xrCreateSession_first_eligible_entry_decides_witness :
  xrCreateSession Sample.C Sample.P 1 (Sample.createInfo [Sample.d3d11_entry]) Sample.fresh
  = xrCreateSession Sample.C Sample.P 1
      (Sample.createInfo [Sample.other_entry; Sample.d3d11_entry; Sample.vulkan_entry])
      Sample.fresh.
Proof.
  apply (xrCreateSession_first_eligible_entry_decides Sample.C Sample.P 1
           (Sample.createInfo [Sample.other_entry; Sample.d3d11_entry; Sample.vulkan_entry])
           Sample.fresh [Sample.other_entry] [Sample.vulkan_entry] [] []
           Sample.d3d11_entry eq_refl).
  - intros x [<- | []]. reflexivity.
  - intros x [].
  - reflexivity.
Defined.

Lemma xrCreateSession_logs_scenario_witness :
  scenarios
    (snd (xrCreateSession Sample.C Sample.P 1 (Sample.createInfo [Sample.d3d11_entry])
            Sample.fresh))
  = [LogScenario "D3D11" false 1 true].
Proof.
  destruct (xrCreateSession_logs_scenario Sample.C Sample.P 1
              (Sample.createInfo [Sample.d3d11_entry]) Sample.fresh
              (snd (xrCreateSession Sample.C Sample.P 1
                      (Sample.createInfo [Sample.d3d11_entry]) Sample.fresh))
              (Some 1) [] Sample.d3d11_entry [] eq_refl)
    as (Hpp & _ & rt & _ & _ & _ & _ & _ & Hscen).
  - intros x [].
  - reflexivity.
  - exact sample_creation.
  - rewrite Hscen, Hpp. reflexivity.
Defined.

Lemma xrCreateSession_succeeds_witness :
  exists w',
    xrCreateSession Sample.C Sample.P 1 (Sample.createInfo [Sample.d3d11_entry]) Sample.fresh
    = (Ret (XR_SUCCESS, Some 1), w')
    /\ calls w'
       = [Call (CreateReferenceSpace 1 viewSpaceInfo);
          Call (CreateReferenceSpace 1 localSpaceInfo);
          Call (RebindControllerActions 1); Call (RebindControllerActions 0);
          Call RecenterTrackingOrigin; Call (InitializeD3D11 [11])].
Proof.
  destruct (xrCreateSession_succeeds Sample.C Sample.P 1
              (Sample.createInfo [Sample.d3d11_entry]) Sample.fresh
              [] Sample.d3d11_entry [] (sample_preconditions _) eq_refl)
    as (w' & Hrun & _ & Hcalls).
  - intros x [].
  - reflexivity.
  - reflexivity.
  - right. reflexivity.
  - exact sample_space_creation.
  - exists w'. split; [exact Hrun | exact Hcalls].
Defined.

(** The first of the two swapchains cannot be destroyed. *)
Lemma xrDestroySession_aborts_on_failure_witness :
  fst (xrDestroySession Sample.C_swapchain_fails Sample.P 1 1
         (Sample.session_in XR_SESSION_STATE_IDLE))
  = Throw (XrCmdFailed (-2))
  /\ calls (snd (xrDestroySession Sample.C_swapchain_fails Sample.P 1 1
                   (Sample.session_in XR_SESSION_STATE_IDLE)))
     = [Call (DestroySwapchain 7)].
Proof.
  rewrite (proj2 (xrDestroySession_aborts_on_failure Sample.C_swapchain_fails Sample.P)
             0%nat (Sample.session_in XR_SESSION_STATE_IDLE) 7 [9] eq_refl eq_refl eq_refl).
  split; reflexivity.
Defined.

Lemma xrDestroySession_retry_destroys_null_space_witness :
  exists r w',
    xrDestroySession Sample.C_view_stays Sample.P 3 1 (Sample.session_in XR_SESSION_STATE_IDLE)
    = (Throw (XrCmdFailed r), w')
    /\ m_sessionCreated w' = true
    /\ m_originSpace w' = XR_NULL_HANDLE
    /\ m_viewSpace w' = 101.
Proof.
  destruct (xrDestroySession_retry_destroys_null_space Sample.C_view_stays Sample.P 3 3
              (Sample.session_in XR_SESSION_STATE_IDLE)
              sample_view_stays_swapchains eq_refl (le_n 3))
    as (r & w' & Hrun & Hc & Ho & Hv & _).
  - intros rt. reflexivity.
  - intros rt. reflexivity.
  - exists r, w'. repeat split; assumption.
Defined.

Lemma xrDestroySession_needs_swapchains_erased_witness :
  fst (xrDestroySession Sample.C_swapchain_stays Sample.P 5 1
         (Sample.session_in XR_SESSION_STATE_IDLE))
  = Exhausted
  /\ List.length
       (calls (snd (xrDestroySession Sample.C_swapchain_stays Sample.P 5 1
                      (Sample.session_in XR_SESSION_STATE_IDLE))))
     = 5%nat.
Proof.
  destruct (xrDestroySession_needs_swapchains_erased Sample.C_swapchain_stays Sample.P 5
              (Sample.session_in XR_SESSION_STATE_IDLE) sample_swapchain_stays eq_refl)
    as (Hrun & Hlen & _).
  - discriminate.
  - split; [exact Hrun | exact Hlen].
Defined.

(** Created at the first reading of the clock, begun at the second,
    destroyed at the third. *)
Lemma xrDestroySession_logs_usage_since_creation_witness :
  usages
    (snd (xrDestroySession Sample.C Sample.P 3 1
            (snd (lifecycle_calls Sample.P [BeginSession 1 Sample.stereo]
                    (snd (xrCreateSession Sample.C Sample.P 1
                            (Sample.createInfo [Sample.d3d11_entry]) Sample.fresh))))))
  = [LogUsage (double_sub (Sample.double_of_Z 2) (Sample.double_of_Z 0)) 0].
Proof.
  rewrite (xrDestroySession_logs_usage_since_creation Sample.C Sample.P 1
             (Sample.createInfo [Sample.d3d11_entry]) Sample.fresh _ (Some 1)
             [BeginSession 1 Sample.stereo] 3 sample_creation).
  reflexivity.
Defined.

Lemma session_from_creation_to_destruction_witness :
  exists w2 w3,
    lifecycle_calls Sample.P
      [BeginSession 1 Sample.stereo; RequestExitSession 1; EndSession 1]
      (snd (xrCreateSession Sample.C Sample.P 1 (Sample.createInfo [Sample.d3d11_entry])
              Sample.fresh))
    = (Ret [XR_SUCCESS; XR_SUCCESS; XR_SUCCESS], w2)
    /\ xrDestroySession Sample.C Sample.P 1 1 w2 = (Ret XR_SUCCESS, w3)
    /\ create_preconditions 1 (Sample.createInfo [Sample.d3d11_entry]) w3.
Proof.
  destruct (session_from_creation_to_destruction Sample.C Sample.P 1
              (Sample.createInfo [Sample.d3d11_entry]) Sample.stereo Sample.fresh _ (Some 1)
              1%nat sample_swapchain_destruction sample_space_destruction sample_creation
              eq_refl eq_refl)
    as (w2 & w3 & Hrun & _ & _ & Hdestroy & _ & _ & _ & Hpre).
  - vm_compute. apply le_n.
  - exists w2, w3. repeat split; try assumption; apply Hpre.
Defined.

Lemma refreshSettings_overwrites_settings_witness :
  rt_session (snd (refreshSettings Sample.P_multiplier_50 Sample.fresh))
  = rt_session Sample.fresh
  /\ w_rt (snd (refreshSettings Sample.P_multiplier_50
                  (snd (refreshSettings Sample.P_multiplier_50 Sample.fresh))))
     = w_rt (snd (refreshSettings Sample.P_multiplier_50 Sample.fresh)).
Proof.
  destruct (refreshSettings_overwrites_settings Sample.P_multiplier_50 Sample.fresh)
    as (_ & Hs & _ & _ & _ & _ & Hi).
  split; [exact Hs | exact Hi].
Defined.

(** For a multiplier of -50 and the frame duration 11.11 the product is
    -5555000, and on a platform whose conversion takes it modulo 2^64 the
    override is 2^64 - 5555000. *)
Lemma refreshSettings_negative_multiplier_witness :
  trunc (overrideMagnitude (-50) Sample.eleven_point_eleven) = Some (-5555000)
  /\ m_gpuFrameTimeOverrideUs (snd (refreshSettings Sample.P_multiplier_minus_50 Sample.fresh))
     = 2 ^ 64 - 5555000.
Proof.
  assert (Ht : trunc (overrideMagnitude (-50) Sample.eleven_point_eleven) = Some (-5555000))
    by (vm_compute; reflexivity).
  split; [exact Ht |].
  destruct (refreshSettings_negative_multiplier Sample.P_multiplier_minus_50 Sample.fresh
              (-50) eq_refl eq_refl)
    as (_ & _ & _ & Hout).
  - vm_compute. reflexivity.
  - rewrite Hout.
    + vm_compute. reflexivity.
    + change (m_frameDuration Sample.fresh) with Sample.eleven_point_eleven.
      rewrite Ht. discriminate.
Defined.
